(** * power_predictor.py: a shallow embedding of [PowerForecaster]

    The Python module orchestrates pandas tables and a few third-party
    estimators.  Tables are modelled as an ordered list of column names
    and a list of labelled rows, each row a finite map from column name
    to cell.  Objects that Python shares by reference live in a store of
    tables indexed by location.  Calls into pandas' parser, the helper
    modules [model_util] and [utility] and the estimators are the
    operations of an interface, [Externals]; each such call is also
    written to a log, so that the order of the pipeline can be stated. *)

From Stdlib Require Import ZArith QArith Qround Qabs Qpower String Ascii List.
From Stdlib Require Import Lia Lqa Bool DecimalString Permutation SpecFloat.
From stdpp Require Import base option list gmap strings.

Close Scope Q_scope.
Open Scope string_scope.
Open Scope list_scope.
Open Scope stdpp_scope.
Open Scope Z_scope.

(** ** Exceptions *)

Inductive Exc :=
| KeyError (key : string)
| ValueError (msg : string)
| TypeError (msg : string)
| AttributeError (msg : string)
| IndexError (msg : string)
| LibraryError (msg : string).

(** ** Timestamps

    A pandas [Timestamp] is modelled by its calendar fields.  They are
    compared lexicographically, and [str] prints them the way pandas
    does for a whole-second timestamp, [YYYY-MM-DD HH:MM:SS]. *)

Record Timestamp := mkTS {
  year : nat; month : nat; day : nat;
  hour : nat; minute : nat; second : nat
}.

Definition ts_fields (t : Timestamp) : list nat :=
  [year t; month t; day t; hour t; minute t; second t].

Fixpoint lex_compare (a b : list nat) : comparison :=
  match a, b with
  | [], [] => Eq
  | [], _ :: _ => Lt
  | _ :: _, [] => Gt
  | x :: a', y :: b' =>
      match Nat.compare x y with
      | Eq => lex_compare a' b'
      | c => c
      end
  end.

Definition ts_compare (a b : Timestamp) : comparison :=
  lex_compare (ts_fields a) (ts_fields b).

(** [a < b] and [a >= b] on timestamps. *)
Definition ts_ltb (a b : Timestamp) : bool :=
  match ts_compare a b with Lt => true | _ => false end.

Definition ts_geb (a b : Timestamp) : bool :=
  match ts_compare a b with Lt => false | _ => true end.

Definition digit (n : nat) : ascii :=
  ascii_of_nat (48 + Nat.modulo n 10).

Definition pad2 (n : nat) (rest : string) : string :=
  String (digit (Nat.div n 10)) (String (digit n) rest).

Definition pad4 (n : nat) (rest : string) : string :=
  String (digit (Nat.div n 1000)) (String (digit (Nat.div n 100))
    (pad2 n rest)).

(** The date part, [YYYY-MM-DD]. *)
Definition iso_date (t : Timestamp) : string :=
  pad4 (year t) (String "-" (pad2 (month t) (String "-" (pad2 (day t) "")))).

(** [str(t)] *)
Definition py_str_ts (t : Timestamp) : string :=
  pad4 (year t) (String "-" (pad2 (month t) (String "-" (pad2 (day t)
    (String " " (pad2 (hour t) (String ":" (pad2 (minute t)
      (String ":" (pad2 (second t) "")))))))))).

(** ** Cells, labels, rows and tables *)

Inductive cell :=
| CStr (s : string)
| CNum (q : Q)
| CNaN
| CTime (t : Timestamp).

(** An index label: a position of the default range index, or an
    entry of a datetime index, which is a timestamp or [NaT], the
    missing timestamp. *)
Inductive Label :=
| IxInt (i : Z)
| IxTime (t : Timestamp)
| IxNaT.

(** An entry of a [DatetimeIndex] as a label. *)
Definition datetime_label (o : option Timestamp) : Label :=
  match o with
  | Some t => IxTime t
  | None => IxNaT
  end.

Record Row := mkRow {
  ix : Label;
  cells : gmap string cell
}.

Record DataFrame := mkDF {
  columns : list string;
  rows : list Row
}.

(** [df.shape[0]] *)
Definition nrows (df : DataFrame) : nat := length (rows df).

(** [df.index] *)
Definition index (df : DataFrame) : list Label := map ix (rows df).

Definition result (A : Type) : Type := Exc + A.

Fixpoint mapM {A B : Type} (f : A -> result B) (l : list A) : result (list B) :=
  match l with
  | [] => inr []
  | x :: l' =>
      match f x with
      | inl e => inl e
      | inr y =>
          match mapM f l' with
          | inl e => inl e
          | inr ys => inr (y :: ys)
          end
      end
  end.

Definition string_in (c : string) (cs : list string) : bool :=
  existsb (String.eqb c) cs.

(** [df[c]]: the values of one column, [KeyError] when it is absent. *)
Definition get_col (c : string) (df : DataFrame) : result (list cell) :=
  mapM (fun r => match cells r !! c with
                 | Some v => inr v
                 | None => inl (KeyError c)
                 end) (rows df).

Definition set_cell (c : string) (r : Row) (v : cell) : Row :=
  mkRow (ix r) (<[c := v]> (cells r)).

(** [df[c] = vs]: overwrite column [c], or add it as the last column;
    pandas refuses a value of another length. *)
Definition set_col (c : string) (vs : list cell) (df : DataFrame) : result DataFrame :=
  if Nat.eqb (length vs) (nrows df) then
    inr (mkDF (if string_in c (columns df) then columns df else columns df ++ [c])
              (zip_with (set_cell c) (rows df) vs))
  else inl (ValueError "Length of values does not match length of index").

(** [df.index = labels] *)
Definition set_index (labels : list Label) (df : DataFrame) : result DataFrame :=
  if Nat.eqb (length labels) (nrows df) then
    inr (mkDF (columns df)
              (zip_with (fun r l => mkRow l (cells r)) (rows df) labels))
  else inl (ValueError "Length mismatch").

Definition rename_cells (old new : string) (m : gmap string cell) : gmap string cell :=
  match m !! old with
  | Some v => <[new := v]> (delete old m)
  | None => m
  end.

(** [df.rename(columns={old: new})]: a new table; a name that is not
    a column is ignored. *)
Definition rename (old new : string) (df : DataFrame) : DataFrame :=
  mkDF (map (fun c => if String.eqb c old then new else c) (columns df))
       (map (fun r => mkRow (ix r) (rename_cells old new (cells r))) (rows df)).

(** [df[cs]] for a list of names. *)
Definition select (cs : list string) (df : DataFrame) : result DataFrame :=
  match find (fun c => negb (string_in c (columns df))) cs with
  | Some c => inl (KeyError c)
  | None =>
      inr (mkDF cs
             (map (fun r => mkRow (ix r)
                     (filter (fun kv => string_in (fst kv) cs = true) (cells r)))
                  (rows df)))
  end.

(** ** Slices

    A slice bound [k] on a sequence of length [n]: a negative bound
    counts from the end, and bounds are clamped to [0..n]. *)
Definition slice_bound (n : nat) (k : Z) : nat :=
  if k <? 0 then Z.to_nat (Z.max 0 (k + Z.of_nat n))
  else Nat.min (Z.to_nat k) n.

(** [df.iloc[:k, :]] and [df.iloc[k:, :]] *)
Definition iloc_to (k : Z) (df : DataFrame) : DataFrame :=
  mkDF (columns df) (take (slice_bound (nrows df) k) (rows df)).

Definition iloc_from (k : Z) (df : DataFrame) : DataFrame :=
  mkDF (columns df) (drop (slice_bound (nrows df) k) (rows df)).

(** ** Numbers

    A Python float is an IEEE 754 double.  A finite float is kept as
    the rational it denotes, and an operation on floats rounds its
    exact result to the nearest float, a tie to the one whose last
    digit is even: a float has 53 binary digits and an exponent of the
    last digit of at least -1074.  The infinities and NaN are not
    values of the model: a result beyond the largest float, for which
    Python answers [inf], is outside it. *)

(** The integer nearest to [q], a tie to the even one. *)
Definition round_half_even (q : Q) : Z :=
  let f := Qfloor q in
  match Qcompare (Qminus q (inject_Z f)) (Qmake 1 2) with
  | Lt => f
  | Gt => f + 1
  | Eq => if Z.even f then f else f + 1
  end.

(** The exponent of the last digit of the float nearest to [q]: the
    one at which [q] has 53 digits before the point, or -1074 for a
    subnormal.  The first guess, from the lengths of numerator and
    denominator, is that exponent or one less. *)
Definition float_exponent (q : Q) : Z :=
  let e0 := Z.log2 (Z.abs (Qnum q)) - Z.log2 (Zpos (Qden q)) - 53 in
  let e := if Qle_bool (inject_Z (2 ^ 53)) (Qmult (Qabs q) (Qpower 2 (- e0)))
           then e0 + 1 else e0 in
  Z.max e (-1074).

(** The float nearest to [q]. *)
Definition float_round (q : Q) : Q :=
  let e := float_exponent q in
  Qmult (inject_Z (round_half_even (Qmult q (Qpower 2 (- e))))) (Qpower 2 e).

(** The largest float, [(2 ^ 53 - 1) * 2 ^ 971], and the rationals
    that are floats: rounding leaves them as they are. *)
Definition float_max : Q := Qmult (inject_Z (2 ^ 53 - 1)) (Qpower 2 971).

Definition is_float (q : Q) : bool :=
  Qeq_bool (float_round q) q && Qle_bool (Qabs q) float_max.

(** A decimal literal, [float(n)] for an [int], and the arithmetic of
    floats. *)
Definition float_literal (q : Q) : Q := float_round q.

Definition float_of_int (z : Z) : Q := float_round (inject_Z z).

Definition float_mul (a b : Q) : Q := float_round (Qmult a b).

Definition float_add (a b : Q) : Q := float_round (Qplus a b).

Definition float_sub (a b : Q) : Q := float_round (Qminus a b).

(** [int(x)] truncates towards zero. *)
Definition py_int (x : Q) : Z := Z.quot (Qnum x) (Zpos (Qden x)).

(** The value of a finite number of the Standard Library's
    specification of IEEE 754 arithmetic, to compare [float_mul] with
    its multiplication. *)
Definition SF2Q (x : spec_float) : Q :=
  match x with
  | S754_finite s m e =>
      Qmult (inject_Z (if s then Z.neg m else Z.pos m)) (Qpower 2 e)
  | _ => Qmake 0 1
  end.

(** ** The enumerations *)

Module ColumnNames.
Definition POWER : string := "actual_kwh".
Definition TEMPERATURE : string := "actual_temperature".
Definition LABEL : string := "y".
Definition FORECAST : string := "yhat".
Definition DATE : string := "date".
Definition TIME : string := "time".
Definition DATE_STAMP : string := "ds".
Definition FEATURES : list string := [LABEL; TEMPERATURE].
Definition LABELS : list string := [LABEL].
Definition ORIGINAL_FEATURES : list string := [POWER; TEMPERATURE].
End ColumnNames.

(** The members of [Constants] are objects of their own; [value] reads
    the [.value] of a member, at the type the source gives it. *)
Inductive Constants :=
| TRAIN_TEST_SPLIT_RATIO
| CUTOFF_DATE
| FORECASTED_TEMPERATURE_FILE
| DEFAULT_FUTURE_PERIODS
| DEFAULT_FUTURE_FREQ
| SARIMAX_ORDER
| SARIMAX_SEASONAL_ORDER
| WINDOW_TIME_STEPS
| FEATURE_SIZE
| EPOCHS
| INITIAL_EPOCH
| BATCH_SIZE
| MODEL_NAME.

Definition value_type (c : Constants) : Type :=
  match c with
  | TRAIN_TEST_SPLIT_RATIO => Q
  | CUTOFF_DATE => Timestamp
  | FORECASTED_TEMPERATURE_FILE | DEFAULT_FUTURE_FREQ | MODEL_NAME => string
  | SARIMAX_ORDER | SARIMAX_SEASONAL_ORDER => list Z
  | _ => Z
  end.

Definition value (c : Constants) : value_type c :=
  match c with
  | TRAIN_TEST_SPLIT_RATIO => float_literal (Qmake 8 10)
  | CUTOFF_DATE => mkTS 2013 12 1 0 0 0
  | FORECASTED_TEMPERATURE_FILE =>
      "data/temp_interpolated_load_temperature_data.pickle"
  | DEFAULT_FUTURE_PERIODS => 4 * 24 * 10
  | DEFAULT_FUTURE_FREQ => "15T"
  | SARIMAX_ORDER => [7; 1; 7]
  | SARIMAX_SEASONAL_ORDER => [0; 0; 0; 0; 12]
  | WINDOW_TIME_STEPS => 4
  | FEATURE_SIZE => 3
  | EPOCHS => 5
  | INITIAL_EPOCH => 0
  | BATCH_SIZE => 72
  | MODEL_NAME => "lstm"
  end.

Inductive Models := PROPHET | LSTM | ARIMA | VAR.

(** ** Python values

    The part of Python's dynamic typing the methods depend on: the
    [model] argument can be any object, and arithmetic is defined on
    numbers only. *)
Inductive pyobj :=
| PyInt (z : Z)
| PyFloat (q : Q)
| PyStr (s : string)
| PyNone
| PyConstants (c : Constants)
| PyModels (m : Models).

Definition Models_eqb (a b : Models) : bool :=
  match a, b with
  | PROPHET, PROPHET | LSTM, LSTM | ARIMA, ARIMA | VAR, VAR => true
  | _, _ => false
  end.

(** [self.model == Models.X]: an enumeration member equals itself
    only. *)
Definition is_model (o : pyobj) (m : Models) : bool :=
  match o with
  | PyModels m' => Models_eqb m' m
  | _ => false
  end.

Definition unsupported (op : string) : Exc :=
  TypeError ("unsupported operand type(s) for " ++ op).

(** [a - b], [a + b]: [int] and [float] operands; a member of a plain
    [Enum] defines neither the operation nor its reflection. *)
Definition py_sub (a b : pyobj) : result pyobj :=
  match a, b with
  | PyInt x, PyInt y => inr (PyInt (x - y))
  | PyInt x, PyFloat y => inr (PyFloat (float_sub (float_of_int x) y))
  | PyFloat x, PyInt y => inr (PyFloat (float_sub x (float_of_int y)))
  | PyFloat x, PyFloat y => inr (PyFloat (float_sub x y))
  | _, _ => inl (unsupported "-")
  end.

Definition py_add (a b : pyobj) : result pyobj :=
  match a, b with
  | PyInt x, PyInt y => inr (PyInt (x + y))
  | PyInt x, PyFloat y => inr (PyFloat (float_add (float_of_int x) y))
  | PyFloat x, PyInt y => inr (PyFloat (float_add x (float_of_int y)))
  | PyFloat x, PyFloat y => inr (PyFloat (float_add x y))
  | PyStr x, PyStr y => inr (PyStr (x ++ y))
  | _, _ => inl (unsupported "+")
  end.

(** An object used as a size, a bound of [range] or a subscript. *)
Definition py_index (o : pyobj) : result Z :=
  match o with
  | PyInt z => inr z
  | _ => inl (TypeError "object cannot be interpreted as an integer")
  end.

(** A starred argument of a call: the object has to be iterable. *)
Definition py_star (o : pyobj) : result (list pyobj) :=
  match o with
  | PyStr s => inr (map (fun a => PyStr (String a "")) (list_ascii_of_string s))
  | _ => inl (TypeError "argument after * must be an iterable")
  end.

(** ** Arrays and other data handed to the estimators *)

Inductive Data :=
| Frame (df : DataFrame)
| Series (s : list (Label * cell))
| Array2 (a : list (list cell))
| Array3 (a : list (list (list cell))).

(** An argument of a call into an estimator. *)
Inductive Arg :=
| AData (d : Data)
| AInt (z : Z)
| AStr (s : string)
| ABool (b : bool)
| ATuple (ds : list Data).

(** What such a call returns: no value, data, or an object that has a
    [history] attribute. *)
Inductive Ret (History : Type) :=
| RNone
| RData (d : Data)
| RHistory (h : History).
Arguments RNone {History}.
Arguments RData {History} d.
Arguments RHistory {History} h.

(** ** The code outside this module

    [pd.to_datetime], the helpers of [model_util] and [utility], and
    the estimators of fbprophet, statsmodels, sklearn and keras.  A
    helper that receives a table may change it in place: it returns the
    table as it is afterwards next to its result. *)
Class Externals := {
  Transformer : Type;
  Estimators : Type;
  StatsModel : Type;
  FitResult : Type;
  History : Type;
  (** with [errors='raise']: a missing value is no error, it becomes
      [NaT], here [None] *)
  pd_to_datetime : list cell -> string -> result (list (option Timestamp));
  pd_concat : list Data -> Z -> result Data;
  facebook_prophet_filter :
    DataFrame -> string -> string -> result (DataFrame * DataFrame);
  QuantileTransformer : Transformer;
  normalize :
    DataFrame -> list string -> Transformer -> result (DataFrame * Transformer);
  explore_data : DataFrame -> result unit;
  series_to_supervised :
    DataFrame -> list string -> string -> Z -> Z -> result DataFrame;
  resample_sum : DataFrame -> string -> result DataFrame;
  inverse_transform : Transformer -> Data -> result Data;
  mean_squared_error : Data -> Data -> result Q;
  sqrt : Q -> result Q;
  (** [Models.m.value.method(args, kwargs)] on the module-level
      estimator objects *)
  estimator_call :
    Estimators -> Models -> string -> list Arg -> list (string * Arg) ->
    result (Ret History * Estimators);
  SARIMAX : Data -> list Z -> list Z -> result StatsModel;
  VAR_endog : Data -> result StatsModel;
  StatsModel_fit : StatsModel -> result FitResult;
  results_summary : FitResult -> result unit;
  results_forecast : FitResult -> list Arg -> result Data;
  results_predict : FitResult -> string -> string -> bool -> result Data;
  results_y : FitResult -> result Data
}.

(** ** Calls that leave the module, as they are logged *)
Inductive Event :=
| ev_to_datetime (arg : list cell) (format : string)
| ev_facebook_prophet_filter (df : DataFrame) (column file : string)
| ev_normalize (df : DataFrame) (features : list string)
| ev_explore_data (df : DataFrame)
| ev_series_to_supervised (df : DataFrame) (features : list string)
    (label : string) (n_in n_out : Z)
| ev_resample_sum (df : DataFrame) (freq : string)
| ev_estimator (m : Models) (method : string)
    (args : list Arg) (kwargs : list (string * Arg))
| ev_SARIMAX (endog : Data) (order seasonal_order : list Z)
| ev_VAR (endog : Data)
| ev_StatsModel_fit
| ev_results (method : string) (args : list Arg) (kwargs : list (string * Arg)).

(** The calls that fit a forecasting model. *)
Definition is_fit (e : Event) : bool :=
  match e with
  | ev_estimator _ method _ _ => String.eqb method "fit"
  | ev_StatsModel_fit => true
  | _ => false
  end.

Definition loc := positive.

Section Forecaster.
Context `{Ext : Externals}.

(** ** The state: the store of tables, the module-level estimator
    objects (the values of [Models]) and the log *)
Record State := mkState {
  heap : gmap loc DataFrame;
  estimators : Estimators;
  log : list Event
}.

Definition M (A : Type) : Type := State -> Exc + (A * State).

Definition ret {A} (x : A) : M A := fun s => inr (x, s).

Definition bind {A B} (m : M A) (f : A -> M B) : M B :=
  fun s => match m s with
           | inl e => inl e
           | inr (a, s') => f a s'
           end.

Definition raise {A} (e : Exc) : M A := fun _ => inl e.

Definition lift {A} (r : result A) : M A :=
  fun s => match r with
           | inl e => inl e
           | inr a => inr (a, s)
           end.

Definition load (l : loc) : M DataFrame :=
  fun s => match heap s !! l with
           | Some d => inr (d, s)
           | None => inl (LibraryError "no such object")
           end.

Definition store (l : loc) (d : DataFrame) : M unit :=
  fun s => inr (tt, mkState (<[l := d]> (heap s)) (estimators s) (log s)).

Definition alloc (d : DataFrame) : M loc :=
  fun s => let l := fresh (dom (heap s)) in
           inr (l, mkState (<[l := d]> (heap s)) (estimators s) (log s)).

Definition emit (e : Event) : M unit :=
  fun s => inr (tt, mkState (heap s) (estimators s) (log s ++ [e])).

(** A logged call of an operation of [Externals]. *)
Definition call {A} (e : Event) (r : result A) : M A :=
  bind (emit e) (fun _ => lift r).

End Forecaster.

Notation "x <- m ;; k" := (bind m (fun x => k))
  (at level 100, m at next level, right associativity).

(** ** More of pandas *)

(** [a + b] on two cells of a column; a missing value stays missing. *)
Definition cell_add (a b : cell) : result cell :=
  match a, b with
  | CNaN, _ | _, CNaN => inr CNaN
  | CStr x, CStr y => inr (CStr (x ++ y))
  | CNum x, CNum y => inr (CNum (Qplus x y))
  | _, _ => inl (unsupported "+")
  end.

Definition series_add (a b : list cell) : result (list cell) :=
  mapM (fun p => cell_add (fst p) (snd p)) (zip a b).

(** [df.index < c] and [df.index >= c]: one truth value per row; an
    index that is not a datetime index cannot be compared with a
    timestamp, and every comparison with [NaT] is false. *)
Definition index_cmp (op : Timestamp -> Timestamp -> bool)
  (df : DataFrame) (c : Timestamp) : result (list bool) :=
  mapM (fun r => match ix r with
                 | IxTime t => inr (op t c)
                 | IxNaT => inr false
                 | IxInt _ => inl (TypeError "Invalid comparison")
                 end) (rows df).

(** The comparison of one row's label, for a row of a datetime index. *)
Definition label_test (op : Timestamp -> Timestamp -> bool) (c : Timestamp)
  (r : Row) : bool :=
  match ix r with
  | IxTime t => op t c
  | IxNaT => false
  | IxInt _ => false
  end.

(** The label is a timestamp, not [NaT] and not a position. *)
Definition has_timestamp (r : Row) : bool :=
  match ix r with
  | IxTime _ => true
  | _ => false
  end.

(** [df[mask]] *)
Definition mask_rows (mask : list bool) (df : DataFrame) : DataFrame :=
  mkDF (columns df) (map fst (filter (fun p => snd p = true) (zip (rows df) mask))).

(** A label as a value of a column; [NaT] is the missing value of a
    datetime column. *)
Definition label_cell (l : Label) : cell :=
  match l with
  | IxInt i => CNum (inject_Z i)
  | IxTime t => CTime t
  | IxNaT => CNaN
  end.

Definition has_nan (r : Row) : bool :=
  existsb (fun kv => match snd kv with CNaN => true | _ => false end)
          (map_to_list (cells r)).

(** [df.dropna()] *)
Definition dropna (df : DataFrame) : DataFrame :=
  mkDF (columns df) (filter (fun r => has_nan r = false) (rows df)).

Definition as_frame (d : Data) : result DataFrame :=
  match d with
  | Frame df => inr df
  | _ => inl (TypeError "not a DataFrame")
  end.

(** ** Sequences, ranges and arrays *)

(** [l[i]]: a negative subscript counts from the end. *)
Definition py_getitem {A} (l : list A) (i : Z) : result A :=
  let n := Z.of_nat (length l) in
  let j := if i <? 0 then i + n else i in
  if (0 <=? j) && (j <? n) then
    match l !! Z.to_nat j with
    | Some x => inr x
    | None => inl (IndexError "index out of range")
    end
  else inl (IndexError "index out of range").

(** [l[a:b]], [l[:b]] and [l[a:]] *)
Definition py_slice {A} (l : list A) (a b : Z) : list A :=
  let n := length l in
  take (slice_bound n b - slice_bound n a) (drop (slice_bound n a) l).

Definition slice_to {A} (b : Z) (l : list A) : list A :=
  take (slice_bound (length l) b) l.

Definition slice_from {A} (a : Z) (l : list A) : list A :=
  drop (slice_bound (length l) a) l.

(** [str(label)] *)
Definition py_str_label (l : Label) : string :=
  match l with
  | IxTime t => py_str_ts t
  | IxNaT => "NaT"
  | IxInt i => NilZero.string_of_int (Z.to_int i)
  end.

(** [range(n)] and [np.arange(n)] *)
Definition py_range (n : Z) : list Z :=
  map Z.of_nat (seq 0 (Z.to_nat n)).

(** [np.zeros((n, m))] *)
Definition np_zeros (n m : pyobj) : result (list (list cell)) :=
  match py_index n, py_index m with
  | inl e, _ => inl e
  | _, inl e => inl e
  | inr n, inr m =>
      if (n <? 0) || (m <? 0) then
        inl (ValueError "negative dimensions are not allowed")
      else inr (replicate (Z.to_nat n) (replicate (Z.to_nat m) (CNum (Qmake 0 1))))
  end.

(** [a[i, :] = v] for a one-dimensional [v]: a single value is
    broadcast over the row. *)
Definition assign_row (a : list (list cell)) (i : Z) (v : list cell)
  : result (list (list cell)) :=
  match py_getitem a i with
  | inl e => inl e
  | inr old =>
      let j := Z.to_nat (if i <? 0 then i + Z.of_nat (length a) else i) in
      match v with
      | [x] => inr (<[j := replicate (length old) x]> a)
      | _ =>
          if Nat.eqb (length v) (length old) then inr (<[j := v]> a)
          else inl (ValueError "could not broadcast input array")
      end
  end.

(** [int(...)] on the arguments of the call; numbers only. *)
Definition py_int_call (args : list pyobj) : result Z :=
  match args with
  | [] => inr 0
  | [PyInt z] => inr z
  | [PyFloat q] => inr (py_int q)
  | _ => inl (TypeError "int() argument")
  end.

(** [a.reshape((a.shape[0], a.shape[2]))]: only an array of three
    dimensions has a third extent, and a table has no [reshape]. *)
Definition reshape_first_last (d : Data) : result (list (list cell)) :=
  match d with
  | Frame _ | Series _ => inl (AttributeError "reshape")
  | Array2 _ => inl (IndexError "tuple index out of range")
  | Array3 a =>
      if forallb (fun sample => Nat.eqb (length sample) 1) a then
        inr (map (fun sample => concat sample) a)
      else if forallb (fun sample => forallb (fun r => Nat.eqb (length r) 0) sample) a
      then inr (map (fun _ => []) a)
      else inl (ValueError "cannot reshape array")
  end.

(** [a.reshape((len(a), 1))] *)
Definition reshape_column (d : Data) : result (list (list cell)) :=
  match d with
  | Frame _ | Series _ => inl (AttributeError "reshape")
  | Array2 a =>
      if forallb (fun r => Nat.eqb (length r) 1) a then inr a
      else inl (ValueError "cannot reshape array")
  | Array3 a =>
      if forallb (fun sample => Nat.eqb (length (concat sample)) 1) a then
        inr (map (fun sample => concat sample) a)
      else inl (ValueError "cannot reshape array")
  end.

(** [a[:, 1:]] and [a[:, 0]] *)
Definition columns_from_1 (a : list (list cell)) : list (list cell) :=
  map (slice_from 1) a.

Definition column_0 (d : Data) : result Data :=
  match d with
  | Array2 a =>
      match mapM (fun r => py_getitem r 0) a with
      | inl e => inl e
      | inr c => inr (Array2 (map (fun x => [x]) c))
      end
  | _ => inl (TypeError "not a two-dimensional array")
  end.

(** [pd.DataFrame(a)] followed by [.columns = cols]. *)
Definition frame_of_array (cols : list string) (d : Data) : result DataFrame :=
  match d with
  | Array2 a =>
      match mapM (fun p =>
               if Nat.eqb (length (snd p)) (length cols) then
                 inr (mkRow (IxInt (Z.of_nat (fst p)))
                            (list_to_map (zip cols (snd p))))
               else inl (ValueError "Length mismatch"))
             (zip (seq 0 (length a)) a) with
      | inl e => inl e
      | inr rs => inr (mkDF cols rs)
      end
  | _ => inl (ValueError "DataFrame constructor not properly called")
  end.

(** [df.iloc[:, :k]]: the columns before the bound. *)
Definition iloc_columns_to (k : Z) (df : DataFrame) : DataFrame :=
  let cs := slice_to k (columns df) in
  mkDF cs (map (fun r => mkRow (ix r)
                  (filter (fun kv => string_in (fst kv) cs = true) (cells r)))
               (rows df)).

(** [df.iloc[:, k]]: one column by position, as a series. *)
Definition iloc_column (k : Z) (df : DataFrame) : result (list (Label * cell)) :=
  match py_getitem (columns df) k with
  | inl e => inl e
  | inr c => inr (map (fun r => (ix r, default CNaN (cells r !! c))) (rows df))
  end.

(** [df.values.reshape((df.shape[0], steps, df.shape[1]))]: numpy
    reshapes only to a shape with as many elements, here [n * c]
    against [n * steps * c]. *)
Definition reshape_steps (steps : Z) (df : DataFrame)
  : result (list (list (list cell))) :=
  let n := Z.of_nat (nrows df) in
  let c := Z.of_nat (length (columns df)) in
  if n * c =? n * steps * c then
    inr (replicate (nrows df)
           (replicate (Z.to_nat steps) (replicate (length (columns df)) CNaN)))
  else inl (ValueError "cannot reshape array").

(** The names the [pandas] module offers for joining data.  pandas
    joins with [concat]; [concatenate] is numpy's function, and the
    module [pandas] has no attribute of that name. *)
Definition pandas_attr `{Ext : Externals} (name : string)
  : result (list Data -> Z -> result Data) :=
  if String.eqb name "concat" then inr pd_concat
  else inl (AttributeError ("module 'pandas' has no attribute " ++ name)).

(** ** The class *)

Module PowerForecaster.
Section Methods.
Context `{Ext : Externals}.

(** What [sliding_window] stores on [self]. *)
Record Window := mkWindow {
  val_idx : list Z;
  shuf_data : list (list cell);
  shuf_label : list (list cell);
  train : list (list cell);
  label : list (list cell);
  train_size : Z;
  val_size : Z
}.

(** The attributes of [self].  The tables the object keeps are in the
    store; the train and test parts are values, tables after
    [__init__] and arrays after the windowing methods. *)
Record t := mkSelf {
  df_original : loc;
  transformer : Transformer;
  df : loc;
  testing : loc;
  train_test_split_ratio : Q;
  model : pyobj;
  train_X : Data;
  test_X : Data;
  train_y : Data;
  test_y : Data;
  model_fit : option FitResult;
  history : option History;
  future : option Data;
  window : option Window
}.

(** [train_test_split] reads one attribute of [self], the ratio, which
    is its first argument here:
<<
    split_index = int(self.train_test_split_ratio * df.shape[0])
    train = df.iloc[:split_index, :]
    test = df.iloc[split_index:, :]
    return train, test
>> *)
Definition train_test_split (train_test_split_ratio : Q) (d : DataFrame)
  : DataFrame * DataFrame :=
  let split_index :=
    py_int (float_mul train_test_split_ratio
                      (float_of_int (Z.of_nat (nrows d)))) in
  let train := iloc_to split_index d in
  let test := iloc_from split_index d in
  (train, test).

Definition datetime_format : string := "%Y-%m-%d%H:%M:%S".

(** [__init__(self, df, model, train_test_split_ratio)]; [df] is the
    caller's table, passed by reference. *)
Definition __init__ (df : loc) (model : pyobj) (train_test_split_ratio : Q) : M t :=
  (* df.index = pd.to_datetime(df[DATE] + df[TIME], format=..., errors='raise') *)
  d <- load df ;;
  date <- lift (get_col ColumnNames.DATE d) ;;
  time <- lift (get_col ColumnNames.TIME d) ;;
  stamps <- lift (series_add date time) ;;
  idx <- call (ev_to_datetime stamps datetime_format)
              (pd_to_datetime stamps datetime_format) ;;
  d <- lift (set_index (map datetime_label idx) d) ;;
  _ <- store df d ;;
  (* self.df_original = df.copy() *)
  df_original <- alloc d ;;
  (* interpolated_df = facebook_prophet_filter(df, temperature, FILE) *)
  let temperature := ColumnNames.TEMPERATURE in
  let file := value FORECASTED_TEMPERATURE_FILE in
  r <- call (ev_facebook_prophet_filter d temperature file)
            (facebook_prophet_filter d temperature file) ;;
  _ <- store df (fst r) ;;
  (* interpolated_df.index = df.index *)
  interpolated_df <- lift (set_index (index (fst r)) (snd r)) ;;
  (* df[[temperature]] = interpolated_df[[FORECAST]] *)
  forecast <- lift (get_col ColumnNames.FORECAST interpolated_df) ;;
  d <- lift (set_col temperature forecast (fst r)) ;;
  _ <- store df d ;;
  (* df = df.rename(columns={POWER: LABEL}) *)
  let renamed := rename ColumnNames.POWER ColumnNames.LABEL d in
  (* self.transformer = QuantileTransformer()
     normalized = normalize(df, FEATURES, transformer=self.transformer) *)
  n <- call (ev_normalize renamed ColumnNames.FEATURES)
            (normalize renamed ColumnNames.FEATURES QuantileTransformer) ;;
  let normalized := fst n in
  let transformer := snd n in
  (* self.df = normalized[normalized.index < cutoff_date]
     self.testing = normalized[normalized.index >= cutoff_date] *)
  let cutoff_date := value CUTOFF_DATE in
  before <- lift (index_cmp ts_ltb normalized cutoff_date) ;;
  self_df <- alloc (mask_rows before normalized) ;;
  after <- lift (index_cmp ts_geb normalized cutoff_date) ;;
  testing <- alloc (mask_rows after normalized) ;;
  (* self.df[DATE_STAMP] = self.df.index *)
  d <- load self_df ;;
  d <- lift (set_col ColumnNames.DATE_STAMP (map label_cell (index d)) d) ;;
  _ <- store self_df d ;;
  (* self.train_X, self.test_X = self.train_test_split(self.df[FEATURES])
     self.train_y, self.test_y = self.train_test_split(self.df[LABELS]) *)
  features <- lift (select ColumnNames.FEATURES d) ;;
  let X := train_test_split train_test_split_ratio features in
  labels <- lift (select ColumnNames.LABELS d) ;;
  let y := train_test_split train_test_split_ratio labels in
  (* explore_data(self.df) *)
  _ <- call (ev_explore_data d) (explore_data d) ;;
  ret (mkSelf df_original transformer self_df testing
              train_test_split_ratio model
              (Frame (fst X)) (Frame (snd X)) (Frame (fst y)) (Frame (snd y))
              None None None None).

(** *** Attribute updates *)

Definition set_model_fit (self : t) (r : option FitResult) : t :=
  mkSelf (df_original self) (transformer self) (df self) (testing self)
         (train_test_split_ratio self) (model self)
         (train_X self) (test_X self) (train_y self) (test_y self)
         r (history self) (future self) (window self).

Definition set_history (self : t) (h : option History) : t :=
  mkSelf (df_original self) (transformer self) (df self) (testing self)
         (train_test_split_ratio self) (model self)
         (train_X self) (test_X self) (train_y self) (test_y self)
         (model_fit self) h (future self) (window self).

Definition set_future (self : t) (f : option Data) : t :=
  mkSelf (df_original self) (transformer self) (df self) (testing self)
         (train_test_split_ratio self) (model self)
         (train_X self) (test_X self) (train_y self) (test_y self)
         (model_fit self) (history self) f (window self).

Definition set_window (self : t) (X_train X_test y_train y_test : Data)
  (w : Window) : t :=
  mkSelf (df_original self) (transformer self) (df self) (testing self)
         (train_test_split_ratio self) (model self)
         X_train X_test y_train y_test
         (model_fit self) (history self) (future self) (Some w).

(** *** Calls on [self.model.value] *)

(** [self.model.value] is an estimator when [self.model] is a member
    of [Models]; nothing else has that attribute with these methods. *)
Definition estimator_of (o : pyobj) : result Models :=
  match o with
  | PyModels m => inr m
  | _ => inl (AttributeError "value")
  end.

Definition call_estimator (m : Models) (method : string)
  (args : list Arg) (kwargs : list (string * Arg)) : M (Ret History) :=
  fun s =>
    match estimator_call (estimators s) m method args kwargs with
    | inl e => inl e
    | inr (r, es) =>
        inr (r, mkState (heap s) es
                        (log s ++ [ev_estimator m method args kwargs]))
    end.

Definition as_data (r : Ret History) : result Data :=
  match r with
  | RData d => inr d
  | _ => inl (TypeError "not data")
  end.

(** *** Fitting *)

(**
<<
    past = self.train_y.copy()
    past[DATE_STAMP] = self.train_y.index
    self.model.value.fit(past)
>> *)
Definition prophet_fit (self : t) : M t :=
  past <- lift (as_frame (train_y self)) ;;
  past <- lift (set_col ColumnNames.DATE_STAMP (map label_cell (index past)) past) ;;
  m <- lift (estimator_of (model self)) ;;
  _ <- call_estimator m "fit" [AData (Frame past)] [] ;;
  ret self.

(**
<<
    model = sm.tsa.statespace.SARIMAX(self.train_y, order=..., seasonal_order=...)
    self.model_fit = model.fit()
    self.model_fit.summary()
    print("SARIMAX forecast", self.model_fit.forecast())
>> *)
Definition arima_fit (self : t) : M t :=
  let order := value SARIMAX_ORDER in
  let seasonal_order := value SARIMAX_SEASONAL_ORDER in
  mdl <- call (ev_SARIMAX (train_y self) order seasonal_order)
              (SARIMAX (train_y self) order seasonal_order) ;;
  r <- call ev_StatsModel_fit (StatsModel_fit mdl) ;;
  let self := set_model_fit self (Some r) in
  _ <- call (ev_results "summary" [] []) (results_summary r) ;;
  _ <- call (ev_results "forecast" [] []) (results_forecast r []) ;;
  ret self.

(**
<<
    model = VAR(endog=self.train_X[FEATURES].dropna())
    self.model_fit = model.fit()
    self.model_fit.summary()
>> *)
Definition var_fit (self : t) : M t :=
  X <- lift (as_frame (train_X self)) ;;
  X <- lift (select ColumnNames.FEATURES X) ;;
  let endog := Frame (dropna X) in
  mdl <- call (ev_VAR endog) (VAR_endog endog) ;;
  r <- call ev_StatsModel_fit (StatsModel_fit mdl) ;;
  let self := set_model_fit self (Some r) in
  _ <- call (ev_results "summary" [] []) (results_summary r) ;;
  ret self.

(**
<<
    history_object = self.model.value.fit(self.train_X, self.train_y,
        epochs=EPOCHS, batch_size=BATCH_SIZE,
        validation_data=(self.test_X, self.test_y), verbose=2, shuffle=False)
    if history_object is not None:
        self.history = history_object.history
>> *)
Definition lstm_fit_simple (self : t) : M t :=
  m <- lift (estimator_of (model self)) ;;
  history_object <-
    call_estimator m "fit" [AData (train_X self); AData (train_y self)]
      [("epochs", AInt (value EPOCHS));
       ("batch_size", AInt (value BATCH_SIZE));
       ("validation_data", ATuple [test_X self; test_y self]);
       ("verbose", AInt 2);
       ("shuffle", ABool false)] ;;
  match history_object with
  | RNone => ret self
  | RHistory h => ret (set_history self (Some h))
  | RData _ => raise (AttributeError "history")
  end.

(**
<<
    if self.model == Models.PROPHET: self.prophet_fit()
    elif self.model == Models.ARIMA: self.arima_fit()
    elif self.model == Models.VAR: self.var_fit()
    elif self.model == Models.LSTM: self.lstm_fit_simple()
    else: raise ValueError("{} is not defined".format(self.model))
>> *)
Definition fit (self : t) : M t :=
  if is_model (model self) PROPHET then prophet_fit self
  else if is_model (model self) ARIMA then arima_fit self
  else if is_model (model self) VAR then var_fit self
  else if is_model (model self) LSTM then lstm_fit_simple self
  else raise (ValueError "is not defined").

(** *** Predicting *)

Definition the_model_fit (self : t) (method : string) : result FitResult :=
  match model_fit self with
  | Some r => inr r
  | None => inl (AttributeError method)
  end.

(**
<<
    end = str(self.train_y.index[-1])
    start = str(self.train_y.index[-future])
    predicted = self.model_fit.predict(start=start[:10], end=end[:10], dynamic=True)
    return predicted
>> *)
Definition arima_predict (self : t) (future : Z) : M Data :=
  y <- lift (as_frame (train_y self)) ;;
  last <- lift (py_getitem (index y) (-1)) ;;
  let end_ := py_str_label last in
  first <- lift (py_getitem (index y) (- future)) ;;
  let start := py_str_label first in
  r <- lift (the_model_fit self "predict") ;;
  let kwargs := [("start", AStr (substring 0 10 start));
                 ("end", AStr (substring 0 10 end_));
                 ("dynamic", ABool true)] in
  predicted <- call (ev_results "predict" [] kwargs)
                    (results_predict r (substring 0 10 start)
                                       (substring 0 10 end_) true) ;;
  ret predicted.

(**
<<
    predicted_array = self.model_fit.forecast(self.model_fit.y, future)
    predicted = pd.DataFrame(predicted_array)
    predicted.columns = FEATURES
    predicted.index = self.test_y.index[:len(predicted)]
    return predicted
>> *)
Definition var_predict (self : t) (future : Z) : M Data :=
  r <- lift (the_model_fit self "forecast") ;;
  y <- call (ev_results "y" [] []) (results_y r) ;;
  predicted_array <- call (ev_results "forecast" [AData y; AInt future] [])
                          (results_forecast r [AData y; AInt future]) ;;
  predicted <- lift (frame_of_array ColumnNames.FEATURES predicted_array) ;;
  test <- lift (as_frame (test_y self)) ;;
  predicted <- lift (set_index (slice_to (Z.of_nat (nrows predicted)) (index test))
                               predicted) ;;
  ret (Frame predicted).

(** The three parts of [predict] that work on [self.model.value]:
<<
    self.future = self.model.value.make_future_dataframe(
        periods=future, freq=DEFAULT_FUTURE_FREQ, include_history=False)
>> *)
Definition make_future (self : t) : M t :=
  let future := value DEFAULT_FUTURE_PERIODS in
  m <- lift (estimator_of (model self)) ;;
  r <- call_estimator m "make_future_dataframe" []
         [("periods", AInt future);
          ("freq", AStr (value DEFAULT_FUTURE_FREQ));
          ("include_history", ABool false)] ;;
  f <- lift (as_data r) ;;
  ret (set_future self (Some f)).

(**
<<
    predicted = self.model.value.predict(self.future)
    predicted[LABEL] = predicted[FORECAST]
>> *)
Definition predict_prophet (self : t) : M (Data * t) :=
  m <- lift (estimator_of (model self)) ;;
  f <- lift (match future self with
             | Some f => inr f
             | None => inl (AttributeError "future")
             end) ;;
  r <- call_estimator m "predict" [AData f] [] ;;
  predicted <- lift (as_data r) ;;
  predicted <- lift (as_frame predicted) ;;
  forecast <- lift (get_col ColumnNames.FORECAST predicted) ;;
  predicted <- lift (set_col ColumnNames.LABEL forecast predicted) ;;
  ret (Frame predicted, self).

(**
<<
    predicted = self.model.value.predict(self.test_X)
>> *)
Definition predict_lstm (self : t) : M (Data * t) :=
  m <- lift (estimator_of (model self)) ;;
  r <- call_estimator m "predict" [AData (test_X self)] [] ;;
  predicted <- lift (as_data r) ;;
  ret (predicted, self).

(**
<<
    future = Constants.DEFAULT_FUTURE_PERIODS.value
    if self.model == Models.PROPHET:
        self.future = self.model.value.make_future_dataframe(...)
    if self.model == Models.PROPHET:
        predicted = self.model.value.predict(self.future)
        predicted[LABEL] = predicted[FORECAST]
    elif self.model == Models.ARIMA:
        predicted = self.arima_predict(future)
    elif self.model == Models.VAR:
        predicted = self.var_predict(future)
    elif self.model == Models.LSTM:
        predicted = self.model.value.predict(self.test_X)
    else:
        raise ValueError("{} is not defined".format(self.model))
    return predicted
>>
    The result is the prediction together with [self], whose [future]
    attribute the first branch sets. *)
Definition predict (self : t) : M (Data * t) :=
  let future := value DEFAULT_FUTURE_PERIODS in
  self <- (if is_model (model self) PROPHET then make_future self
           else ret self) ;;
  if is_model (model self) PROPHET then predict_prophet self
  else if is_model (model self) ARIMA then
    predicted <- arima_predict self future ;; ret (predicted, self)
  else if is_model (model self) VAR then
    predicted <- var_predict self future ;; ret (predicted, self)
  else if is_model (model self) LSTM then predict_lstm self
  else raise (ValueError "is not defined").

(** *** Windowing *)

Definition set_parts (self : t) (X_train X_test y_train y_test : Data) : t :=
  mkSelf (df_original self) (transformer self) (df self) (testing self)
         (train_test_split_ratio self) (model self)
         X_train X_test y_train y_test
         (model_fit self) (history self) (future self) (window self).

(**
<<
    upsampled = df if freq is None else df.resample(freq).sum()[FEATURES]
    reframed = series_to_supervised(upsampled[FEATURES], FEATURES, LABEL, 1, 1)
    train, test = self.train_test_split(reframed)
    _train_X, self.train_y = train.iloc[:, :-1], train.iloc[:, -1]
    _test_X, self.test_y = test.iloc[:, :-1], test.iloc[:, -1]
    self.train_X = _train_X.values.reshape(
        (_train_X.shape[0], WINDOW_TIME_STEPS, _train_X.shape[1]))
    self.test_X = _test_X.values.reshape(
        (_test_X.shape[0], WINDOW_TIME_STEPS, _test_X.shape[1]))
>> *)
Definition lstm_preprocess (self : t) (d : DataFrame) (freq : option string)
  : M t :=
  upsampled <- match freq with
               | None => ret d
               | Some f =>
                   summed <- call (ev_resample_sum d f) (resample_sum d f) ;;
                   lift (select ColumnNames.FEATURES summed)
               end ;;
  features <- lift (select ColumnNames.FEATURES upsampled) ;;
  reframed <- call (ev_series_to_supervised features ColumnNames.FEATURES
                      ColumnNames.LABEL 1 1)
                   (series_to_supervised features ColumnNames.FEATURES
                      ColumnNames.LABEL 1 1) ;;
  let parts := train_test_split (train_test_split_ratio self) reframed in
  let train := fst parts in
  let test := snd parts in
  let _train_X := iloc_columns_to (-1) train in
  y_train <- lift (iloc_column (-1) train) ;;
  let _test_X := iloc_columns_to (-1) test in
  y_test <- lift (iloc_column (-1) test) ;;
  X_train <- lift (reshape_steps (value WINDOW_TIME_STEPS) _train_X) ;;
  X_test <- lift (reshape_steps (value WINDOW_TIME_STEPS) _test_X) ;;
  ret (set_parts self (Array3 X_train) (Array3 X_test)
                 (Series y_train) (Series y_test)).

Fixpoint for_each {A B} (l : list A) (b : B) (body : B -> A -> M B) : M B :=
  match l with
  | [] => ret b
  | x :: l' => b' <- body b x ;; for_each l' b' body
  end.

(**
<<
    length0 = self.df.shape[0]
    window_size = Constants.WINDOW_TIME_STEPS
    sliding_window_data = np.zeros((length0 - window_size, window_size))
    sliding_window_label = np.zeros((length0 - window_size, 1))
    label_column = ColumnNames.LABEL.value
    for counter in range(length0 - window_size):
        sliding_window_label[counter, :] = self.df[label_column][counter + window_size]
    feature_column = ColumnNames.TEMPERATURE.value
    for counter in range(length0 - window_size):
        sliding_window_data[counter, :] = self.df[feature_column][
                                          counter: counter + window_size]
    length = sliding_window_data.shape[0]
    idx = np.random.choice(length, length, replace=False)
    frac = Constants.TRAIN_TEST_SPLIT_RATIO.value
    idx = np.arange(length)
    self.val_idx = idx[int( * length):]
    shuf_data = sliding_window_data[idx, :]
    shuf_label = sliding_window_label[idx, :]
    ...
    self.train_X = shuf_data[:int(frac * length), :]
    self.train_y = shuf_label[:int(frac * length), :]
    self.train_size = int(frac * length)
    self.test_X = shuf_data[int(frac * length):, :]
    self.test_y = shuf_label[int(frac * length):, :]
    self.val_size = int((1 - frac) * length)
>>
    [window_size] is the member of [Constants] itself, not its value;
    the random permutation is overwritten before it is read. *)
Definition sliding_window (self : t) : M t :=
  d <- load (df self) ;;
  let length0 := PyInt (Z.of_nat (nrows d)) in
  let window_size := PyConstants WINDOW_TIME_STEPS in
  n <- lift (py_sub length0 window_size) ;;
  sliding_window_data <- lift (np_zeros n window_size) ;;
  n <- lift (py_sub length0 window_size) ;;
  sliding_window_label <- lift (np_zeros n (PyInt 1)) ;;
  let label_column := ColumnNames.LABEL in
  n <- lift (py_sub length0 window_size) ;;
  n <- lift (py_index n) ;;
  sliding_window_label <-
    for_each (py_range n) sliding_window_label (fun a counter =>
      column <- lift (get_col label_column d) ;;
      i <- lift (py_add (PyInt counter) window_size) ;;
      i <- lift (py_index i) ;;
      v <- lift (py_getitem column i) ;;
      lift (assign_row a counter [v])) ;;
  let feature_column := ColumnNames.TEMPERATURE in
  n <- lift (py_sub length0 window_size) ;;
  n <- lift (py_index n) ;;
  sliding_window_data <-
    for_each (py_range n) sliding_window_data (fun a counter =>
      column <- lift (get_col feature_column d) ;;
      j <- lift (py_add (PyInt counter) window_size) ;;
      j <- lift (py_index j) ;;
      lift (assign_row a counter (py_slice column counter j))) ;;
  let length := Z.of_nat (length sliding_window_data) in
  let frac := value TRAIN_TEST_SPLIT_RATIO in
  let idx := py_range length in
  args <- lift (py_star (PyInt length)) ;;
  k <- lift (py_int_call args) ;;
  let val_idx := slice_from k idx in
  shuf_data <- lift (mapM (py_getitem sliding_window_data) idx) ;;
  shuf_label <- lift (mapM (py_getitem sliding_window_label) idx) ;;
  let split := py_int (float_mul frac (float_of_int length)) in
  ret (set_window self
         (Array2 (slice_to split shuf_data)) (Array2 (slice_from split shuf_data))
         (Array2 (slice_to split shuf_label)) (Array2 (slice_from split shuf_label))
         (mkWindow val_idx shuf_data shuf_label
                   sliding_window_data sliding_window_label
                   split
                   (py_int (float_mul (float_sub (float_of_int 1) frac)
                                      (float_of_int length))))).

(** *** Scoring *)

(**
<<
    yhat = self.model.value.predict(self.test_X)
    test_X = self.test_X.reshape((self.test_X.shape[0], self.test_X.shape[2]))
    inv_yhat = pd.concatenate((yhat, test_X[:, 1:]), axis=1)
    inv_yhat = self.transformer.inverse_transform(inv_yhat)
    inv_yhat = inv_yhat[:, 0]
    test_y = self.test_y.reshape((len(self.test_y), 1))
    inv_y = pd.concatenate((test_y, test_X[:, 1:]), axis=1)
    inv_y = self.transformer.inverse_transform(inv_y)
    inv_y = inv_y[:, 0]
    rmse = sqrt(mean_squared_error(inv_y, inv_yhat))
    print('Test RMSE: %.3f' % rmse)
>>
    The result is the score that is printed. *)
Definition evaluate (self : t) : M Q :=
  m <- lift (estimator_of (model self)) ;;
  r <- call_estimator m "predict" [AData (test_X self)] [] ;;
  yhat <- lift (as_data r) ;;
  test_X <- lift (reshape_first_last (test_X self)) ;;
  concatenate <- lift (pandas_attr "concatenate") ;;
  inv_yhat <- lift (concatenate [yhat; Array2 (columns_from_1 test_X)] 1) ;;
  inv_yhat <- lift (inverse_transform (transformer self) inv_yhat) ;;
  inv_yhat <- lift (column_0 inv_yhat) ;;
  test_y <- lift (reshape_column (test_y self)) ;;
  concatenate <- lift (pandas_attr "concatenate") ;;
  inv_y <- lift (concatenate [Array2 test_y; Array2 (columns_from_1 test_X)] 1) ;;
  inv_y <- lift (inverse_transform (transformer self) inv_y) ;;
  inv_y <- lift (column_0 inv_y) ;;
  mse <- lift (mean_squared_error inv_y inv_yhat) ;;
  rmse <- lift (sqrt mse) ;;
  ret rmse.

End Methods.
End PowerForecaster.

(** ** A small instance of the interface, and sample data

    The instance stands in for the libraries where a statement is
    checked on concrete tables: the parser reads the fixed-width stamp,
    the temperature filter answers with a constant forecast, the
    scaler leaves the values as they are, and a fitted statsmodels
    result keeps the series it was fitted on and predicts inside the
    sample, on the rows whose date lies in the window it is asked
    for. *)
Module Demo.

Definition digit_value (a : ascii) : nat := (nat_of_ascii a - 48)%nat.

Fixpoint number (s : list ascii) (acc : nat) : nat :=
  match s with
  | [] => acc
  | a :: s' => number s' (10 * acc + digit_value a)%nat
  end.

Definition field (s : string) (from len : nat) : nat :=
  number (list_ascii_of_string (substring from len s)) 0.

(** [%Y-%m-%d%H:%M:%S] *)
Definition parse (c : cell) : result (option Timestamp) :=
  match c with
  | CStr s =>
      if Nat.eqb (String.length s) 18 then
        inr (Some (mkTS (field s 0 4) (field s 5 2) (field s 8 2)
                        (field s 10 2) (field s 13 2) (field s 16 2)))
      else inl (ValueError "time data does not match format")
  | CNaN => inr None
  | _ => inl (ValueError "time data does not match format")
  end.

Definition constant_forecast (d : DataFrame) (column file : string)
  : result (DataFrame * DataFrame) :=
  inr (d, mkDF ["ds"; "yhat"]
            (map (fun r => mkRow (IxInt 0)
                    {[ "ds" := label_cell (ix r); "yhat" := CNum (Qmake 20 1) ]})
                 (rows d))).

Definition in_window (start end_ : string) (r : Row) : bool :=
  match ix r with
  | IxTime t => String.leb start (iso_date t) && String.leb (iso_date t) end_
  | _ => false
  end.

Definition in_sample (fitted : Data) (start end_ : string) (dynamic : bool)
  : result Data :=
  match fitted with
  | Frame y =>
      inr (Series (map (fun r => (ix r, CNum (Qmake 0 1)))
                       (List.filter (in_window start end_) (rows y))))
  | _ => inl (LibraryError "endog")
  end.

Definition quarter_hours (periods : Z) : DataFrame :=
  mkDF ["ds"]
       (map (fun i => let t := mkTS 2013 12 (1 + Nat.div i 96)
                                    (Nat.div (Nat.modulo i 96) 4)
                                    (15 * Nat.modulo i 4) 0 in
                      mkRow (IxInt (Z.of_nat i)) {[ "ds" := CTime t ]})
            (seq 0 (Z.to_nat periods))).

Definition estimator (es : unit) (m : Models) (method : string)
  (args : list Arg) (kwargs : list (string * Arg))
  : result (Ret unit * unit) :=
  if String.eqb method "make_future_dataframe" then
    match kwargs with
    | ("periods", AInt n) :: _ => inr (RData (Frame (quarter_hours n)), es)
    | _ => inl (TypeError "periods")
    end
  else if String.eqb method "predict" then
    match args with
    | [AData (Frame f)] =>
        inr (RData (Frame (mkDF (columns f ++ ["yhat"])
               (map (fun r => set_cell "yhat" r (CNum (Qmake 1 2))) (rows f)))), es)
    | [AData (Array3 a)] =>
        inr (RData (Array2 (map (fun _ => [CNum (Qmake 1 2)]) a)), es)
    | _ => inl (TypeError "predict")
    end
  else inr (RNone, es).

#[export] Instance toy : Externals := {|
  Transformer := unit;
  Estimators := unit;
  StatsModel := Data;
  FitResult := Data;
  History := unit;
  pd_to_datetime := fun stamps _ => mapM parse stamps;
  pd_concat := fun _ _ => inl (LibraryError "concat");
  facebook_prophet_filter := constant_forecast;
  QuantileTransformer := tt;
  normalize := fun d _ tr => inr (d, tr);
  explore_data := fun _ => inr tt;
  series_to_supervised := fun d _ _ _ _ => inr d;
  resample_sum := fun d _ => inr d;
  inverse_transform := fun _ d => inr d;
  mean_squared_error := fun _ _ => inr (Qmake 0 1);
  sqrt := fun q => inr q;
  estimator_call := estimator;
  SARIMAX := fun endog _ _ => inr endog;
  VAR_endog := fun endog => inr endog;
  StatsModel_fit := fun mdl => inr mdl;
  results_summary := fun _ => inr tt;
  results_forecast := fun _ _ => inr (Array2 []);
  results_predict := in_sample;
  results_y := fun r => inr r
|}.

(** Three readings around the cutoff date, the last two without a
    temperature. *)
Definition reading (date time : string) (kwh temperature : cell) (i : Z) : Row :=
  mkRow (IxInt i)
        {[ "date" := CStr date; "time" := CStr time;
           "actual_kwh" := kwh; "actual_temperature" := temperature ]}.

Definition readings : DataFrame :=
  mkDF ["date"; "time"; "actual_kwh"; "actual_temperature"]
    [ reading "2013-11-30" "23:30:00" (CNum (Qmake 5 1)) (CNum (Qmake 11 1)) 0;
      reading "2013-11-30" "23:45:00" (CNum (Qmake 6 1)) CNaN 1;
      reading "2013-12-01" "00:00:00" (CNum (Qmake 7 1)) CNaN 2 ].

Definition caller : loc := 1%positive.

Definition state0 : State := mkState {[ caller := readings ]} tt [].

Definition empty_frame : DataFrame := mkDF [] [].

Definition no_self (m : pyobj) : PowerForecaster.t :=
  PowerForecaster.mkSelf caller tt caller caller (value TRAIN_TEST_SPLIT_RATIO) m
    (Frame empty_frame) (Frame empty_frame) (Frame empty_frame) (Frame empty_frame)
    None None None None.

(** What a run returned and the state it left, for a run that is known
    to return. *)
Definition outcome {A} (run : Exc + (A * State)) (otherwise : A) : A :=
  match run with
  | inr (a, _) => a
  | inl _ => otherwise
  end.

Definition state_after {A} (run : Exc + (A * State)) : State :=
  match run with
  | inr (_, s) => s
  | inl _ => state0
  end.

Definition returned {A} (run : Exc + A) : bool :=
  match run with
  | inr _ => true
  | inl _ => false
  end.

Definition raised {A} (run : Exc + A) : option Exc :=
  match run with
  | inr _ => None
  | inl e => Some e
  end.

Definition constructed : Exc + (PowerForecaster.t * State) :=
  PowerForecaster.__init__ caller (PyModels PROPHET) (value TRAIN_TEST_SPLIT_RATIO) state0.

Definition self1 : PowerForecaster.t := outcome constructed (no_self PyNone).

Definition state1 : State := state_after constructed.

(** Eleven days of quarter-hourly observations of the label, up to
    2013-11-30 23:45:00. *)
Definition observation (i : nat) : Row :=
  mkRow (IxTime (mkTS 2013 11 (20 + Nat.div i 96)
                      (Nat.div (Nat.modulo i 96) 4) (15 * Nat.modulo i 4) 0))
        {[ "y" := CNum (Qmake (Z.of_nat i) 1) ]}.

Definition observations : DataFrame :=
  mkDF ["y"] (map observation (seq 0 1056)).

Definition with_train_y (m : pyobj) (y : DataFrame) : PowerForecaster.t :=
  PowerForecaster.mkSelf caller tt caller caller (value TRAIN_TEST_SPLIT_RATIO) m
    (Frame y) (Frame empty_frame) (Frame y) (Frame empty_frame)
    None None None None.

Definition arima_self : PowerForecaster.t := with_train_y (PyModels ARIMA) observations.

Definition arima_fitted : PowerForecaster.t :=
  outcome (PowerForecaster.fit arima_self state0) arima_self.

Definition arima_state : State :=
  state_after (PowerForecaster.fit arima_self state0).

Definition arima_run : Exc + ((Data * PowerForecaster.t) * State) :=
  PowerForecaster.predict arima_fitted arima_state.

Definition arima_predicted : Data * PowerForecaster.t :=
  outcome arima_run (Array2 [], arima_fitted).

Definition last_observation : Timestamp := mkTS 2013 11 30 23 45 0.

(** A fitted prophet forecaster, and a recurrent one holding arrays. *)
Definition prophet_self : PowerForecaster.t :=
  with_train_y (PyModels PROPHET) observations.

Definition prophet_run : Exc + ((Data * PowerForecaster.t) * State) :=
  PowerForecaster.predict prophet_self state0.

Definition prophet_predicted : Data * PowerForecaster.t :=
  outcome prophet_run (Array2 [], prophet_self).

Definition windows : Data :=
  Array3 [ [[CNum (Qmake 1 1); CNum (Qmake 2 1)]];
           [[CNum (Qmake 3 1); CNum (Qmake 4 1)]] ].

Definition lstm_self : PowerForecaster.t :=
  PowerForecaster.mkSelf caller tt caller caller (value TRAIN_TEST_SPLIT_RATIO) (PyModels LSTM)
    windows windows
    (Array2 [[CNum (Qmake 1 1)]; [CNum (Qmake 2 1)]])
    (Array2 [[CNum (Qmake 1 1)]; [CNum (Qmake 2 1)]])
    None None None None.

(** A forecaster whose table has six rows, two more than a window is
    long, and holds the label and the temperature. *)
Definition measured (i : nat) : Row :=
  mkRow (IxTime (mkTS 2013 11 20 (Nat.div i 4) (15 * Nat.modulo i 4) 0))
        {[ "y" := CNum (Qmake (Z.of_nat i) 1);
           "actual_temperature" := CNum (Qmake (Z.of_nat (10 + i)) 1) ]}.

Definition six_rows : DataFrame :=
  mkDF ["y"; "actual_temperature"] (map measured (seq 0 6)).

Definition window_state : State := mkState {[ caller := six_rows ]} tt [].

Definition window_self : PowerForecaster.t := no_self (PyModels LSTM).

(** Four rows to split. *)
Definition four_rows : DataFrame :=
  mkDF ["y"] (map observation (seq 0 4)).

End Demo.

(** ** More instances and sample data

    A second stand-in for the libraries: its filter loses the last
    row, and its fitted result forecasts as many rows as it is asked
    for, two values a row. *)
Module Cases.

Definition short_forecast (d : DataFrame) (column file : string)
  : result (DataFrame * DataFrame) :=
  inr (d, mkDF ["ds"; "yhat"]
            (map (fun r => mkRow (IxInt 0)
                    {[ "ds" := label_cell (ix r); "yhat" := CNum (Qmake 20 1) ]})
                 (removelast (rows d)))).

Definition forecast_steps (fitted : Data) (args : list Arg) : result Data :=
  match args with
  | [AData _; AInt steps] =>
      inr (Array2 (map (fun i => [CNum (Qmake (Z.of_nat i) 1); CNum (Qmake 20 1)])
                       (seq 0 (Z.to_nat steps))))
  | _ => inl (TypeError "forecast")
  end.

Definition lab : Externals := {|
  Transformer := unit;
  Estimators := unit;
  StatsModel := Data;
  FitResult := Data;
  History := unit;
  pd_to_datetime := fun stamps _ => mapM Demo.parse stamps;
  pd_concat := fun _ _ => inl (LibraryError "concat");
  facebook_prophet_filter := short_forecast;
  QuantileTransformer := tt;
  normalize := fun d _ tr => inr (d, tr);
  explore_data := fun _ => inr tt;
  series_to_supervised := fun d _ _ _ _ => inr d;
  resample_sum := fun d _ => inr d;
  inverse_transform := fun _ d => inr d;
  mean_squared_error := fun _ _ => inr (Qmake 0 1);
  sqrt := fun q => inr q;
  estimator_call := Demo.estimator;
  SARIMAX := fun endog _ _ => inr endog;
  VAR_endog := fun endog => inr endog;
  StatsModel_fit := fun mdl => inr mdl;
  results_summary := fun _ => inr tt;
  results_forecast := forecast_steps;
  results_predict := Demo.in_sample;
  results_y := fun r => inr r
|}.

Definition lab_state : @State lab :=
  @mkState lab {[ Demo.caller := Demo.readings ]} tt [].

(** A forecaster of the vector autoregression whose test part has two
    columns and the given rows. *)
Definition feature_row (i : nat) (temperature : cell) : Row :=
  mkRow (IxTime (mkTS 2013 11 (20 + Nat.div i 96)
                      (Nat.div (Nat.modulo i 96) 4) (15 * Nat.modulo i 4) 0))
        {[ "y" := CNum (Qmake (Z.of_nat i) 1);
           "actual_temperature" := temperature ]}.

Definition features (n : nat) : DataFrame :=
  mkDF ["y"; "actual_temperature"]
       (map (fun i => feature_row i (CNum (Qmake 20 1))) (seq 0 n)).

(** Three rows, the second without a temperature. *)
Definition with_a_gap : DataFrame :=
  mkDF ["y"; "actual_temperature"]
       [feature_row 0 (CNum (Qmake 20 1)); feature_row 1 CNaN;
        feature_row 2 (CNum (Qmake 21 1))].

Definition var_self (train test : DataFrame) (fitted : option Data)
  : @PowerForecaster.t lab :=
  @PowerForecaster.mkSelf lab Demo.caller tt Demo.caller Demo.caller (value TRAIN_TEST_SPLIT_RATIO)
    (PyModels VAR) (Frame train) (Frame test) (Frame train) (Frame test)
    fitted None None None.

Definition var_self_toy (train test : DataFrame)
  : @PowerForecaster.t Demo.toy :=
  @PowerForecaster.mkSelf Demo.toy Demo.caller tt Demo.caller Demo.caller (value TRAIN_TEST_SPLIT_RATIO)
    (PyModels VAR) (Frame train) (Frame test) (Frame train) (Frame test)
    None None None None.

(** An empty table with the two feature columns. *)
Definition no_rows : DataFrame := mkDF ["y"; "actual_temperature"] [].

(** Three readings around the cutoff date, the second without a
    date. *)
Definition undated_reading : Row :=
  mkRow (IxInt 1)
        {[ "date" := CNaN; "time" := CStr "23:45:00";
           "actual_kwh" := CNum (Qmake 6 1); "actual_temperature" := CNaN ]}.

Definition readings_with_gap : DataFrame :=
  mkDF ["date"; "time"; "actual_kwh"; "actual_temperature"]
    [ Demo.reading "2013-11-30" "23:30:00" (CNum (Qmake 5 1)) (CNum (Qmake 11 1)) 0;
      undated_reading;
      Demo.reading "2013-12-01" "00:00:00" (CNum (Qmake 7 1)) CNaN 2 ].

Definition gap_state : @State Demo.toy :=
  @mkState Demo.toy {[ Demo.caller := readings_with_gap ]} tt [].

(** A run without its [self]: the prediction and the state. *)
Definition drop_self {A B S : Type} (run : Exc + ((A * B) * S)) : Exc + (A * S) :=
  match run with
  | inl e => inl e
  | inr ((a, _), s) => inr (a, s)
  end.

End Cases.

(** * Properties *)

(** ** Numbers and slices *)

Lemma py_int_nonneg (q : Q) : Qle 0 q -> py_int q = Qfloor q.
Proof.
  destruct q as [n d]. unfold Qle, py_int, Qfloor. simpl. intros Hn.
  apply Z.quot_div_nonneg; lia.
Qed.

Lemma Qfloor_nonneg (q : Q) : Qle 0 q -> 0 <= Qfloor q.
Proof.
  destruct q as [n d]. unfold Qle, Qfloor. simpl. intros Hn.
  apply Z.div_pos; lia.
Qed.

(** ** Floats *)

Section FloatLemmas.
Local Open Scope Q_scope.

Lemma round_half_even_floor (q : Q) :
  (Qfloor q <= round_half_even q <= Qfloor q + 1)%Z.
Proof.
  unfold round_half_even.
  destruct (q - inject_Z (Qfloor q) ?= 1 # 2); [destruct (Z.even _) | |]; lia.
Qed.

Lemma round_half_even_ge (q : Q) (k : Z) :
  inject_Z k <= q -> (k <= round_half_even q)%Z.
Proof.
  intros H. apply Qfloor_resp_le in H. rewrite Qfloor_Z in H.
  pose proof (round_half_even_floor q). lia.
Qed.

Lemma round_half_even_lt (q : Q) (k : Z) :
  q < inject_Z k - (1 # 2) -> (round_half_even q < k)%Z.
Proof.
  intros H.
  pose proof (Qfloor_le q) as Hf.
  assert (Hfk : (Qfloor q < k)%Z).
  { rewrite Zlt_Qlt. lra. }
  destruct (Z.eq_dec (Qfloor q) (k - 1)%Z) as [E | E].
  - unfold round_half_even.
    assert (Hlt : q - inject_Z (Qfloor q) < 1 # 2).
    { rewrite E.
      replace (inject_Z (k - 1)) with (inject_Z k - 1)
        by (unfold Z.sub; rewrite inject_Z_plus; reflexivity).
      lra. }
    destruct (Qcompare_spec (q - inject_Z (Qfloor q)) (1 # 2)) as [C | C | C];
      [lra | lia | lra].
  - pose proof (round_half_even_floor q). lia.
Qed.

Lemma round_half_even_le (q : Q) (k : Z) :
  q <= inject_Z k -> (round_half_even q <= k)%Z.
Proof.
  intros H.
  pose proof (Qfloor_le q) as Hf.
  assert (Hfk : (Qfloor q <= k)%Z).
  { rewrite Zle_Qle. lra. }
  destruct (Z.eq_dec (Qfloor q) k) as [E | E].
  - unfold round_half_even.
    assert (Hlt : q - inject_Z (Qfloor q) < 1 # 2) by (rewrite E; lra).
    destruct (Qcompare_spec (q - inject_Z (Qfloor q)) (1 # 2)) as [C | C | C];
      [lra | lia | lra].
  - pose proof (round_half_even_floor q). lia.
Qed.

Lemma round_half_even_Z (q : Q) (k : Z) :
  q == inject_Z k -> round_half_even q = k.
Proof.
  intros H. apply Z.le_antisymm.
  - apply round_half_even_le. lra.
  - apply round_half_even_ge. lra.
Qed.

Lemma pow2_pos (e : Z) : 0 < 2 ^ e.
Proof. apply Qpower_0_lt. reflexivity. Qed.

Lemma pow2_plus (a b : Z) : 2 ^ (a + b) == 2 ^ a * 2 ^ b.
Proof. apply Qpower_plus. discriminate. Qed.

Lemma pow2_le (a b : Z) : (a <= b)%Z -> 2 ^ a <= 2 ^ b.
Proof. intros H. apply Qpower_le_compat_l; [exact H | discriminate]. Qed.

Lemma pow2_Z (k : Z) : (0 <= k)%Z -> inject_Z (2 ^ k) == 2 ^ k.
Proof. intros H. apply (Zpower_Qpower 2 k H). Qed.

Lemma pow2_cancel (e : Z) : 2 ^ (- e) * 2 ^ e == 1.
Proof. rewrite <- pow2_plus. replace (- e + e)%Z with 0%Z by lia. reflexivity. Qed.

Lemma log2_bounds (a : Z) :
  (0 < a)%Z -> 2 ^ Z.log2 a <= inject_Z a /\ inject_Z a < 2 ^ (Z.log2 a + 1).
Proof.
  intros Ha. destruct (Z.log2_spec a Ha) as [Hl Hu].
  pose proof (Z.log2_nonneg a) as Hn.
  rewrite <- !pow2_Z by lia. rewrite <- Zle_Qle, <- Zlt_Qlt.
  unfold Z.succ in Hu. split; assumption.
Qed.

(** The exponent of the last place: a positive [x] below the
    subnormal range has 53 digits at that exponent. *)
Lemma float_exponent_lower (x : Q) :
  0 < x -> (-1074 < float_exponent x)%Z -> 2 ^ (float_exponent x + 52) <= x.
Proof.
  intros Hx. unfold float_exponent.
  set (e0 := (Z.log2 (Z.abs (Qnum x)) - Z.log2 (Zpos (Qden x)) - 53)%Z).
  destruct (Qle_bool _ _) eqn:T; intros HE.
  - rewrite Z.max_l by lia. apply Qle_bool_iff in T.
    rewrite Qabs_pos in T by lra.
    rewrite pow2_Z in T by lia.
    replace (e0 + 1 + 52)%Z with (53 + e0)%Z by lia. rewrite pow2_plus.
    pose proof (pow2_pos e0) as Hp. pose proof (pow2_cancel e0) as Hc.
    assert (H : 2 ^ 53 * 2 ^ e0 <= x * 2 ^ (- e0) * 2 ^ e0).
    { apply Qmult_le_compat_r; [exact T | lra]. }
    rewrite <- Qmult_assoc, Hc in H. lra.
  - rewrite Z.max_l by lia.
    destruct x as [a b]. unfold e0. simpl Qnum. simpl Qden.
    assert (Ha : (0 < a)%Z) by (unfold Qlt in Hx; simpl in Hx; lia).
    rewrite Z.abs_eq by lia.
    destruct (log2_bounds a Ha) as [Hal _].
    destruct (log2_bounds (Zpos b) eq_refl) as [_ Hbu].
    replace (Z.log2 a - Z.log2 (Z.pos b) - 53 + 52)%Z
      with (Z.log2 a + - (Z.log2 (Z.pos b) + 1))%Z by lia.
    rewrite pow2_plus. rewrite (Qmake_Qdiv a b).
    pose proof (pow2_pos (Z.log2 (Z.pos b) + 1)) as Hp.
    pose proof (pow2_cancel (Z.log2 (Z.pos b) + 1)) as Hc.
    pose proof (pow2_pos (- (Z.log2 (Z.pos b) + 1))) as Hq.
    pose proof (pow2_pos (Z.log2 a)) as Hr.
    assert (Hb : 0 < inject_Z (Z.pos b)) by reflexivity.
    apply Qle_shift_div_l; [exact Hb |].
    set (A := inject_Z a) in *. set (B := inject_Z (Z.pos b)) in *.
    set (pa := 2 ^ Z.log2 a) in *. set (pb := 2 ^ (Z.log2 (Z.pos b) + 1)) in *.
    set (qb := 2 ^ (- (Z.log2 (Z.pos b) + 1))) in *.
    assert (H1 : qb * B <= 1).
    { rewrite <- Hc. apply Qmult_le_l; [exact Hq | lra]. }
    assert (H2 : pa * (qb * B) <= pa * 1).
    { apply Qmult_le_l; [exact Hr | exact H1]. }
    lra.
Qed.

Lemma float_exponent_upper (x : Q) :
  0 <= x -> x < 2 ^ (float_exponent x + 53).
Proof.
  intros Hx. unfold float_exponent.
  set (e0 := (Z.log2 (Z.abs (Qnum x)) - Z.log2 (Zpos (Qden x)) - 53)%Z).
  set (e := if Qle_bool _ _ then (e0 + 1)%Z else e0).
  apply Qlt_le_trans with (y := 2 ^ (e + 53)); [| apply pow2_le; lia].
  subst e. destruct (Qle_bool _ _) eqn:T.
  - clear T. destruct x as [a b]. unfold e0. simpl Qnum. simpl Qden.
    assert (Ha : (0 <= a)%Z) by (unfold Qle in Hx; simpl in Hx; lia).
    rewrite Z.abs_eq by lia.
    replace (Z.log2 a - Z.log2 (Z.pos b) - 53 + 1 + 53)%Z
      with ((Z.log2 a + 1) + - Z.log2 (Z.pos b))%Z by lia.
    rewrite pow2_plus. rewrite (Qmake_Qdiv a b).
    destruct (log2_bounds (Zpos b) eq_refl) as [Hbl _].
    pose proof (pow2_pos (Z.log2 (Z.pos b))) as Hp.
    pose proof (pow2_cancel (Z.log2 (Z.pos b))) as Hc.
    pose proof (pow2_pos (- Z.log2 (Z.pos b))) as Hq.
    pose proof (pow2_pos (Z.log2 a + 1)) as Hr.
    assert (Hb : 0 < inject_Z (Z.pos b)) by reflexivity.
    assert (Hau : inject_Z a < 2 ^ (Z.log2 a + 1)).
    { destruct (Z.eq_dec a 0%Z) as [-> | Hne]; [exact Hr |].
      apply log2_bounds. lia. }
    apply Qlt_shift_div_r; [exact Hb |].
    set (A := inject_Z a) in *. set (B := inject_Z (Z.pos b)) in *.
    set (pa := 2 ^ (Z.log2 a + 1)) in *. set (pb := 2 ^ Z.log2 (Z.pos b)) in *.
    set (qb := 2 ^ (- Z.log2 (Z.pos b))) in *.
    assert (H1 : 1 <= qb * B).
    { rewrite <- Hc. apply Qmult_le_l; [exact Hq | lra]. }
    assert (H2 : pa * 1 <= pa * (qb * B)).
    { apply Qmult_le_l; [exact Hr | exact H1]. }
    lra.
  - assert (H : ~ inject_Z (2 ^ 53) <= Qabs x * 2 ^ (- e0)).
    { intros C. apply Qle_bool_iff in C. rewrite C in T. discriminate T. }
    apply Qnot_le_lt in H. rewrite Qabs_pos in H by exact Hx.
    rewrite pow2_Z in H by lia.
    replace (e0 + 53)%Z with (53 + e0)%Z by lia. rewrite pow2_plus.
    pose proof (pow2_pos e0) as Hp. pose proof (pow2_cancel e0) as Hc.
    assert (H' : x * 2 ^ (- e0) * 2 ^ e0 < 2 ^ 53 * 2 ^ e0).
    { apply Qmult_lt_compat_r; [exact Hp | exact H]. }
    rewrite <- Qmult_assoc, Hc in H'. lra.
Qed.

Lemma float_exponent_min (x : Q) : (-1074 <= float_exponent x)%Z.
Proof. unfold float_exponent. lia. Qed.

Lemma float_round_nonneg (x : Q) : 0 <= x -> 0 <= float_round x.
Proof.
  intros Hx. unfold float_round.
  pose proof (pow2_pos (float_exponent x)) as Hp.
  pose proof (pow2_pos (- float_exponent x)) as Hq.
  assert (Hm : (0 <= round_half_even (x * 2 ^ (- float_exponent x)))%Z).
  { apply round_half_even_ge. change (inject_Z 0) with 0.
    apply Qmult_le_0_compat; lra. }
  rewrite Zle_Qle in Hm. change (inject_Z 0) with 0 in Hm.
  apply Qmult_le_0_compat; lra.
Qed.

(** An integer written at a smaller exponent. *)
Lemma scaled_int (n e : Z) :
  (e <= 0)%Z -> inject_Z (n * 2 ^ (- e)) == inject_Z n * 2 ^ (- e).
Proof.
  intros He. rewrite inject_Z_mult. rewrite pow2_Z by lia. reflexivity.
Qed.

(** Rounding does not go below an integer of at most 53 digits that
    is not above the number rounded. *)
Lemma float_round_ge_int (x : Q) (n : Z) :
  (0 <= n <= 2 ^ 53)%Z -> inject_Z n <= x -> inject_Z n <= float_round x.
Proof.
  intros Hn Hx.
  destruct (Z.eq_dec n 0%Z) as [-> | Hne].
  { apply float_round_nonneg. exact Hx. }
  assert (Hpos : 0 < x).
  { apply Qlt_le_trans with (y := inject_Z n); [| exact Hx].
    change 0 with (inject_Z 0). rewrite <- Zlt_Qlt. lia. }
  unfold float_round. set (E := float_exponent x).
  pose proof (pow2_pos E) as Hp. pose proof (pow2_pos (- E)) as Hq.
  pose proof (pow2_cancel E) as Hc.
  destruct (Z_le_gt_dec E 0%Z) as [HE | HE].
  - assert (Hk : (n * 2 ^ (- E) <= round_half_even (x * 2 ^ (- E)))%Z).
    { apply round_half_even_ge. rewrite scaled_int by exact HE.
      apply Qmult_le_compat_r; lra. }
    rewrite Zle_Qle in Hk. rewrite scaled_int in Hk by exact HE.
    assert (H : inject_Z n * 2 ^ (- E) * 2 ^ E
                <= inject_Z (round_half_even (x * 2 ^ (- E))) * 2 ^ E).
    { apply Qmult_le_compat_r; lra. }
    rewrite <- Qmult_assoc, Hc in H. lra.
  - pose proof (float_exponent_lower x Hpos ltac:(fold E; lia)) as Hl.
    fold E in Hl.
    assert (Hk : (2 ^ 52 <= round_half_even (x * 2 ^ (- E)))%Z).
    { apply round_half_even_ge. rewrite pow2_Z by lia.
      replace 52%Z with (E + 52 + - E)%Z at 1 by lia. rewrite pow2_plus.
      apply Qmult_le_compat_r; lra. }
    rewrite Zle_Qle in Hk. rewrite pow2_Z in Hk by lia.
    assert (H : 2 ^ 52 * 2 ^ E
                <= inject_Z (round_half_even (x * 2 ^ (- E))) * 2 ^ E).
    { apply Qmult_le_compat_r; lra. }
    rewrite <- pow2_plus in H.
    assert (H53 : 2 ^ 53 <= 2 ^ (52 + E)) by (apply pow2_le; lia).
    assert (Hn53 : inject_Z n <= 2 ^ 53).
    { rewrite <- pow2_Z by lia. rewrite <- Zle_Qle. lia. }
    lra.
Qed.

(** Rounding does not go above an integer of at most 53 digits that
    is not below the number rounded. *)
Lemma float_round_le_int (x : Q) (n : Z) :
  (0 <= n <= 2 ^ 53)%Z -> 0 <= x -> x <= inject_Z n -> float_round x <= inject_Z n.
Proof.
  intros Hn H0 Hx.
  assert (Hn53 : inject_Z n <= 2 ^ 53).
  { rewrite <- pow2_Z by lia. rewrite <- Zle_Qle. lia. }
  unfold float_round. set (E := float_exponent x).
  pose proof (pow2_pos E) as Hp. pose proof (pow2_pos (- E)) as Hq.
  pose proof (pow2_cancel E) as Hc.
  destruct (Qlt_le_dec 0 x) as [Hpos | Hzero].
  - destruct (Z_le_gt_dec E 0%Z) as [HE | HE].
    + assert (Hk : (round_half_even (x * 2 ^ (- E)) <= n * 2 ^ (- E))%Z).
      { apply round_half_even_le. rewrite scaled_int by exact HE.
        apply Qmult_le_compat_r; lra. }
      rewrite Zle_Qle in Hk. rewrite scaled_int in Hk by exact HE.
      assert (H : inject_Z (round_half_even (x * 2 ^ (- E))) * 2 ^ E
                  <= inject_Z n * 2 ^ (- E) * 2 ^ E)
        by (apply Qmult_le_compat_r; lra).
      rewrite <- Qmult_assoc, Hc in H. lra.
    + pose proof (float_exponent_lower x Hpos ltac:(fold E; lia)) as Hl.
      fold E in Hl.
      assert (HE1 : E = 1%Z).
      { assert (H : (E + 52 <= 53)%Z).
        { apply (Qpower_le_compat_l_inv 2); [lra | reflexivity]. }
        lia. }
      rewrite HE1 in *.
      assert (Heq : x == 2 ^ 53) by (change (2 ^ (1 + 52)) with (2 ^ 53) in Hl; lra).
      rewrite (round_half_even_Z _ (2 ^ 52)%Z).
      * assert (Hv : inject_Z (2 ^ 52) * 2 ^ 1 == 2 ^ 53) by reflexivity.
        rewrite Hv. lra.
      * rewrite Heq. reflexivity.
  - assert (Hz : x == 0) by lra.
    assert (Hn0 : 0 <= inject_Z n).
    { change 0 with (inject_Z 0). rewrite <- Zle_Qle. lia. }
    rewrite (round_half_even_Z _ 0%Z); change (inject_Z 0) with 0; [lra |].
    rewrite Hz. ring.
Qed.

(** An integer of at most 53 digits is a float. *)
Lemma float_round_int (n : Z) :
  (0 <= n <= 2 ^ 53)%Z -> float_round (inject_Z n) == inject_Z n.
Proof.
  intros Hn.
  assert (Hn0 : 0 <= inject_Z n).
  { change 0 with (inject_Z 0). rewrite <- Zle_Qle. lia. }
  apply Qle_antisym.
  - apply float_round_le_int; [exact Hn | exact Hn0 | lra].
  - apply float_round_ge_int; [exact Hn | lra].
Qed.

(** Rounding stays below an integer of at most 53 digits when the
    number rounded is below it by one part in [2 ^ 53]. *)
Lemma float_round_lt_int (x : Q) (n : Z) :
  (1 <= n <= 2 ^ 53)%Z -> 0 <= x -> x <= inject_Z n * (1 - 2 ^ (-53)) ->
  float_round x < inject_Z n.
Proof.
  intros Hn H0 Hx.
  assert (Hn1 : 1 <= inject_Z n).
  { change 1 with (inject_Z 1). rewrite <- Zle_Qle. lia. }
  assert (Hn53 : inject_Z n <= 2 ^ 53).
  { rewrite <- pow2_Z by lia. rewrite <- Zle_Qle. lia. }
  pose proof (pow2_pos (-53)) as H53.
  assert (Hlt : x < inject_Z n).
  { assert (0 < inject_Z n * 2 ^ (-53)) by (apply Qmult_lt_0_compat; lra). lra. }
  unfold float_round. set (E := float_exponent x).
  pose proof (pow2_pos E) as Hp. pose proof (pow2_pos (- E)) as Hq.
  pose proof (pow2_cancel E) as Hc.
  pose proof (float_exponent_min x) as Hmin. fold E in Hmin.
  destruct (Qlt_le_dec 0 x) as [Hpos | Hzero].
  - assert (HE : (E <= 0)%Z).
    { destruct (Z_le_gt_dec E 0%Z) as [HE | HE]; [exact HE |].
      pose proof (float_exponent_lower x Hpos ltac:(fold E; lia)) as Hl.
      fold E in Hl.
      assert (2 ^ 53 <= 2 ^ (E + 52)) by (apply pow2_le; lia). lra. }
    assert (Hhalf : 2 ^ (E - 1) < inject_Z n * 2 ^ (-53)).
    { destruct (Z.eq_dec E (-1074)%Z) as [HEm | HEm].
      - rewrite HEm.
        assert (H1 : 2 ^ (-1074 - 1) < 2 ^ (-53))
          by (apply Qpower_lt_compat_l; [lia | reflexivity]).
        assert (H2 : 1 * 2 ^ (-53) <= inject_Z n * 2 ^ (-53))
          by (apply Qmult_le_compat_r; lra).
        lra.
      - pose proof (float_exponent_lower x Hpos ltac:(fold E; lia)) as Hl.
        fold E in Hl.
        replace (E - 1)%Z with (E + 52 + -53)%Z by lia. rewrite pow2_plus.
        apply Qmult_lt_compat_r; lra. }
    assert (Hk : (round_half_even (x * 2 ^ (- E)) < n * 2 ^ (- E))%Z).
    { apply round_half_even_lt. rewrite scaled_int by exact HE.
      assert (Hs : x * 2 ^ (- E) < (inject_Z n - 2 ^ (E - 1)) * 2 ^ (- E))
        by (apply Qmult_lt_compat_r; lra).
      assert (Hh : 2 ^ (E - 1) * 2 ^ (- E) == 1 # 2).
      { rewrite <- pow2_plus. replace (E - 1 + - E)%Z with (-1)%Z by lia.
        reflexivity. }
      lra. }
    assert (Hk' : (round_half_even (x * 2 ^ (- E)) <= n * 2 ^ (- E) - 1)%Z) by lia.
    rewrite Zle_Qle in Hk'. unfold Z.sub in Hk'.
    rewrite inject_Z_plus, scaled_int in Hk' by exact HE.
    change (inject_Z (- (1))) with (-1 # 1) in Hk'.
    assert (H : inject_Z (round_half_even (x * 2 ^ (- E))) * 2 ^ E
                <= (inject_Z n * 2 ^ (- E) + -1) * 2 ^ E)
      by (apply Qmult_le_compat_r; lra).
    assert (Hd : (inject_Z n * 2 ^ (- E) + -1) * 2 ^ E
                 == inject_Z n * (2 ^ (- E) * 2 ^ E) - 2 ^ E) by ring.
    rewrite Hd, Hc in H. lra.
  - assert (Hz : x == 0) by lra.
    rewrite (round_half_even_Z _ 0%Z); change (inject_Z 0) with 0; [lra |].
    rewrite Hz. ring.
Qed.

(** A float below one is at most [1 - 2 ^ -53]. *)
Lemma is_float_below_one (r : Q) :
  is_float r = true -> 0 <= r -> r < 1 -> r <= 1 - 2 ^ (-53).
Proof.
  unfold is_float. intros Hf H0 H1. apply andb_true_iff in Hf as [Hf _].
  apply Qeq_bool_iff in Hf.
  unfold float_round in Hf. set (E := float_exponent r) in *.
  set (M := round_half_even (r * 2 ^ (- E))) in *.
  pose proof (pow2_pos E) as Hp. pose proof (pow2_pos (- E)) as Hq.
  pose proof (pow2_cancel E) as Hc.
  pose proof (float_exponent_upper r H0) as Hu. fold E in Hu.
  assert (HM0 : (0 <= M)%Z).
  { apply round_half_even_ge. change (inject_Z 0) with 0.
    apply Qmult_le_0_compat; lra. }
  assert (HM : (M <= 2 ^ 53)%Z).
  { apply round_half_even_le. rewrite pow2_Z by lia.
    replace 53%Z with (E + 53 + - E)%Z at 1 by lia. rewrite pow2_plus.
    apply Qmult_le_compat_r; lra. }
  rewrite Zle_Qle in HM0, HM. change (inject_Z 0) with 0 in HM0.
  rewrite pow2_Z in HM by lia.
  pose proof (pow2_pos (-53)) as H53. pose proof (pow2_pos 53) as H53'.
  pose proof (pow2_cancel 53) as Hc53.
  destruct (Z_le_gt_dec (-53)%Z E) as [HE | HE].
  - assert (HT : inject_Z (M * 2 ^ (E + 53)) == r * 2 ^ 53).
    { rewrite inject_Z_mult, pow2_Z by lia. rewrite pow2_plus, <- Hf. ring. }
    assert (Hlt : (M * 2 ^ (E + 53) < 2 ^ 53)%Z).
    { rewrite Zlt_Qlt, HT, pow2_Z by lia.
      assert (r * 2 ^ 53 < 1 * 2 ^ 53) by (apply Qmult_lt_compat_r; lra). lra. }
    assert (Hle : (M * 2 ^ (E + 53) <= 2 ^ 53 - 1)%Z) by lia.
    rewrite Zle_Qle, HT in Hle. unfold Z.sub in Hle.
    rewrite inject_Z_plus, pow2_Z in Hle by lia.
    change (inject_Z (- (1))) with (-1 # 1) in Hle.
    assert (H : r * 2 ^ 53 * 2 ^ (-53) <= (2 ^ 53 + -1) * 2 ^ (-53))
      by (apply Qmult_le_compat_r; lra).
    assert (Hd : r * 2 ^ 53 * 2 ^ (-53) == r * (2 ^ (-53) * 2 ^ 53)) by ring.
    assert (Hd' : (2 ^ 53 + -1) * 2 ^ (-53) == 2 ^ (-53) * 2 ^ 53 - 2 ^ (-53)) by ring.
    rewrite Hd, Hd' in H. change (- (53))%Z with (-53)%Z in Hc53.
    rewrite Hc53 in H. lra.
  - assert (HE' : 2 ^ E <= 2 ^ (-54)) by (apply pow2_le; lia).
    assert (H : inject_Z M * 2 ^ E <= 2 ^ 53 * 2 ^ (-54)).
    { apply Qmult_le_compat_nonneg; split; lra. }
    assert (Hh : 2 ^ 53 * 2 ^ (-54) == 1 # 2) by reflexivity.
    assert (Hs : 2 ^ (-53) <= 1 # 2) by (vm_compute; discriminate).
    lra.
Qed.

(** *** The split index: [int(ratio * n)] *)

Lemma rows_as_float (n : Z) :
  (0 <= n <= 2 ^ 53)%Z -> float_of_int n == inject_Z n.
Proof. apply float_round_int. Qed.


Lemma split_index_below (r : Q) (n : Z) :
  (1 <= n <= 2 ^ 53)%Z -> is_float r = true -> 0 <= r -> r < 1 ->
  (0 <= py_int (float_mul r (float_of_int n)) < n)%Z.
Proof.
  intros Hn Hfl H0 H1. pose proof (rows_as_float n ltac:(lia)) as Hf.
  pose proof (is_float_below_one r Hfl H0 H1) as Hr.
  assert (Hn0 : 1 <= inject_Z n).
  { change 1 with (inject_Z 1). rewrite <- Zle_Qle. lia. }
  assert (Hx0 : 0 <= r * float_of_int n).
  { rewrite Hf. apply Qmult_le_0_compat; lra. }
  assert (Hx : r * float_of_int n <= inject_Z n * (1 - 2 ^ (-53))).
  { rewrite Hf. rewrite (Qmult_comm (inject_Z n)).
    apply Qmult_le_compat_r; lra. }
  pose proof (float_round_lt_int _ n Hn Hx0 Hx) as Hlt.
  pose proof (float_round_nonneg _ Hx0) as Hge.
  unfold float_mul. rewrite py_int_nonneg by exact Hge.
  pose proof (Qfloor_le (float_round (r * float_of_int n))) as Hfl'.
  split.
  - apply Qfloor_resp_le in Hge. exact Hge.
  - rewrite Zlt_Qlt. lra.
Qed.

(** The float product is between the integers around the exact
    product: its integer part is that of the exact product, or one
    more when the product rounds up to the next integer. *)
Lemma split_index_near_floor (r : Q) (n : Z) :
  (0 <= n <= 2 ^ 53)%Z -> 0 <= r -> r <= 1 ->
  (Qfloor (r * inject_Z n) <= py_int (float_mul r (float_of_int n))
   <= Qfloor (r * inject_Z n) + 1)%Z.
Proof.
  intros Hn H0 H1. pose proof (rows_as_float n Hn) as Hf.
  assert (Hn0 : 0 <= inject_Z n).
  { change 0 with (inject_Z 0). rewrite <- Zle_Qle. lia. }
  assert (Hn53 : inject_Z n <= inject_Z (2 ^ 53)) by (rewrite <- Zle_Qle; lia).
  assert (Hx0 : 0 <= r * inject_Z n) by (apply Qmult_le_0_compat; lra).
  assert (Hxn : r * inject_Z n <= inject_Z n).
  { assert (r * inject_Z n <= 1 * inject_Z n)
      by (apply Qmult_le_compat_r; lra). lra. }
  assert (Hxf : r * float_of_int n == r * inject_Z n) by (rewrite Hf; reflexivity).
  set (f := Qfloor (r * inject_Z n)).
  pose proof (Qfloor_le (r * inject_Z n)) as Hfl. fold f in Hfl.
  pose proof (Qlt_floor (r * inject_Z n)) as Hfu. fold f in Hfu.
  assert (Hf0 : (0 <= f)%Z).
  { unfold f. apply Qfloor_resp_le in Hx0. exact Hx0. }
  assert (Hfn : (f <= n)%Z).
  { unfold f. apply Qfloor_resp_le in Hxn. rewrite Qfloor_Z in Hxn. exact Hxn. }
  assert (Hge : inject_Z f <= float_round (r * float_of_int n)).
  { apply float_round_ge_int; [lia | lra]. }
  assert (Hle : float_round (r * float_of_int n) <= inject_Z (f + 1)).
  { destruct (Z.eq_dec f n) as [E | E].
    - apply Qle_trans with (y := inject_Z n).
      + apply float_round_le_int; [exact Hn | lra | lra].
      + rewrite <- Zle_Qle. lia.
    - apply float_round_le_int; [lia | lra | lra]. }
  unfold float_mul. rewrite py_int_nonneg by (apply float_round_nonneg; lra).
  apply Qfloor_resp_le in Hge, Hle. rewrite Qfloor_Z in Hge, Hle.
  split; assumption.
Qed.

End FloatLemmas.

Lemma rows_as_float_nonneg (n : nat) : Qle 0 (float_of_int (Z.of_nat n)).
Proof.
  apply float_round_nonneg. unfold Qle, inject_Z. simpl. lia.
Qed.

Lemma ratio_times_rows_nonneg (r : Q) (n : nat) :
  Qle 0 r -> Qle 0 (float_mul r (float_of_int (Z.of_nat n))).
Proof.
  intros Hr. apply float_round_nonneg.
  apply Qmult_le_0_compat; [exact Hr | apply rows_as_float_nonneg].
Qed.

Lemma slice_bound_nonneg (n : nat) (k : Z) :
  0 <= k -> slice_bound n k = Nat.min (Z.to_nat k) n.
Proof.
  intros Hk. unfold slice_bound.
  destruct (k <? 0) eqn:E; [apply Z.ltb_lt in E; lia | reflexivity].
Qed.

Lemma slice_bound_le (n : nat) (k : Z) : (slice_bound n k <= n)%nat.
Proof.
  unfold slice_bound. destruct (k <? 0) eqn:E.
  - apply Z.ltb_lt in E. destruct (Z.max_spec 0 (k + Z.of_nat n)) as [[_ ->] | [_ ->]]; lia.
  - apply Nat.le_min_r.
Qed.

Lemma take_min_length {A} (l : list A) (k : nat) :
  take (Nat.min k (length l)) l = take k l.
Proof.
  destruct (Nat.le_gt_cases k (length l)) as [H | H].
  - rewrite Nat.min_l by exact H. reflexivity.
  - rewrite Nat.min_r by lia. rewrite !take_ge by lia. reflexivity.
Qed.

Lemma drop_min_length {A} (l : list A) (k : nat) :
  drop (Nat.min k (length l)) l = drop k l.
Proof.
  destruct (Nat.le_gt_cases k (length l)) as [H | H].
  - rewrite Nat.min_l by exact H. reflexivity.
  - rewrite Nat.min_r by lia. rewrite !drop_ge by lia. reflexivity.
Qed.


(** ** Tables *)

Lemma mapM_length {A B} (f : A -> result B) (l : list A) (ys : list B) :
  mapM f l = inr ys -> length ys = length l.
Proof.
  revert ys. induction l as [| x l IH]; simpl; intros ys H.
  - injection H as <-. reflexivity.
  - destruct (f x) as [e | y]; [discriminate |].
    destruct (mapM f l) as [e | ys']; [discriminate |].
    injection H as <-. simpl. f_equal. apply IH. reflexivity.
Qed.

Lemma mapM_zip_with_frame {A B C} (g : A -> result C) (h : A -> B -> A)
  (l : list A) (xs : list B) :
  length xs = length l ->
  (forall r x, g (h r x) = g r) ->
  mapM g (zip_with h l xs) = mapM g l.
Proof.
  intros Hlen Hg. revert xs Hlen.
  induction l as [| r l IH]; intros [| x xs] Hlen; simpl in *; try discriminate;
    try reflexivity.
  rewrite Hg. rewrite IH by lia. reflexivity.
Qed.

Lemma mapM_zip_with_read {A B} (g : A -> result B) (h : A -> B -> A)
  (l : list A) (xs : list B) :
  length xs = length l ->
  (forall r x, g (h r x) = inr x) ->
  mapM g (zip_with h l xs) = inr xs.
Proof.
  intros Hlen Hg. revert xs Hlen.
  induction l as [| r l IH]; intros [| x xs] Hlen; simpl in *; try discriminate;
    try reflexivity.
  rewrite Hg. rewrite IH by lia. reflexivity.
Qed.

Lemma map_zip_with_frame {A B C} (g : A -> C) (h : A -> B -> A)
  (l : list A) (xs : list B) :
  length xs = length l ->
  (forall r x, g (h r x) = g r) ->
  map g (zip_with h l xs) = map g l.
Proof.
  intros Hlen Hg. revert xs Hlen.
  induction l as [| r l IH]; intros [| x xs] Hlen; simpl in *; try discriminate;
    try reflexivity.
  rewrite Hg. rewrite IH by lia. reflexivity.
Qed.

Lemma map_zip_with_read {A B} (g : A -> B) (h : A -> B -> A)
  (l : list A) (xs : list B) :
  length xs = length l ->
  (forall r x, g (h r x) = x) ->
  map g (zip_with h l xs) = xs.
Proof.
  intros Hlen Hg. revert xs Hlen.
  induction l as [| r l IH]; intros [| x xs] Hlen; simpl in *; try discriminate;
    try reflexivity.
  rewrite Hg. rewrite IH by lia. reflexivity.
Qed.

Section TableLemmas.
Variables (d d' : DataFrame).

Lemma set_index_inv (labels : list Label) :
  set_index labels d = inr d' ->
  length labels = nrows d /\
  d' = mkDF (columns d)
            (zip_with (fun r l => mkRow l (cells r)) (rows d) labels).
Proof.
  unfold set_index. destruct (Nat.eqb _ _) eqn:E; [| discriminate].
  apply Nat.eqb_eq in E. intros H. injection H as <-. split; [exact E | reflexivity].
Qed.

(** Assigning the index changes the labels and nothing else. *)
Lemma index_set_index (labels : list Label) :
  set_index labels d = inr d' -> index d' = labels.
Proof.
  intros H. apply set_index_inv in H as [Hlen ->]. unfold index. simpl.
  apply map_zip_with_read; [exact Hlen | reflexivity].
Qed.

Lemma get_col_set_index (labels : list Label) (c : string) :
  set_index labels d = inr d' -> get_col c d' = get_col c d.
Proof.
  intros H. apply set_index_inv in H as [Hlen ->]. unfold get_col. simpl.
  apply mapM_zip_with_frame; [exact Hlen | reflexivity].
Qed.

Lemma columns_set_index (labels : list Label) :
  set_index labels d = inr d' -> columns d' = columns d.
Proof. intros H. apply set_index_inv in H as [_ ->]. reflexivity. Qed.

Lemma set_col_inv (c : string) (vs : list cell) :
  set_col c vs d = inr d' ->
  length vs = nrows d /\
  d' = mkDF (if string_in c (columns d) then columns d else columns d ++ [c])
            (zip_with (set_cell c) (rows d) vs).
Proof.
  unfold set_col. destruct (Nat.eqb _ _) eqn:E; [| discriminate].
  apply Nat.eqb_eq in E. intros H. injection H as <-. split; [exact E | reflexivity].
Qed.

(** Assigning a column: that column reads back the values assigned,
    every other column and the index are as before. *)
Lemma get_col_set_col (c : string) (vs : list cell) :
  set_col c vs d = inr d' -> get_col c d' = inr vs.
Proof.
  intros H. apply set_col_inv in H as [Hlen ->]. unfold get_col. simpl.
  apply mapM_zip_with_read; [exact Hlen |].
  intros r x. simpl. rewrite lookup_insert_eq. reflexivity.
Qed.

Lemma get_col_set_col_other (c c' : string) (vs : list cell) :
  c <> c' -> set_col c vs d = inr d' -> get_col c' d' = get_col c' d.
Proof.
  intros Hne H. apply set_col_inv in H as [Hlen ->]. unfold get_col. simpl.
  apply mapM_zip_with_frame; [exact Hlen |].
  intros r x. simpl. rewrite lookup_insert_ne by exact Hne. reflexivity.
Qed.

Lemma index_set_col (c : string) (vs : list cell) :
  set_col c vs d = inr d' -> index d' = index d.
Proof.
  intros H. apply set_col_inv in H as [Hlen ->]. unfold index. simpl.
  apply map_zip_with_frame; [exact Hlen | reflexivity].
Qed.

End TableLemmas.

Lemma ts_geb_ltb (a b : Timestamp) : ts_geb a b = negb (ts_ltb a b).
Proof. unfold ts_geb, ts_ltb. destruct (ts_compare a b); reflexivity. Qed.

(** A comparison of the index with a timestamp succeeds on a
    datetime index only, and the rows its mask keeps are the rows whose
    label passes the comparison, in their order. *)
Lemma index_cmp_mask (op : Timestamp -> Timestamp -> bool) (c : Timestamp)
  (d : DataFrame) (mask : list bool) :
  index_cmp op d c = inr mask ->
  rows (mask_rows mask d) = filter (fun r => label_test op c r = true) (rows d) /\
  Forall (fun r => ix r = IxNaT \/ exists t, ix r = IxTime t) (rows d).
Proof.
  unfold index_cmp, mask_rows. simpl. revert mask.
  induction (rows d) as [| r l IH]; simpl; intros mask H.
  - injection H as <-. split; [reflexivity | constructor].
  - destruct (ix r) as [i | t |] eqn:Hix; [discriminate | |].
    + destruct (mapM _ l) as [e | mask'] eqn:Hm; [discriminate |].
      injection H as <-. destruct (IH mask' eq_refl) as [IH1 IH2].
      split.
      * assert (Ht : label_test op c r = op t c)
          by (unfold label_test; rewrite Hix; reflexivity).
        destruct (op t c) eqn:Hop.
        -- rewrite (filter_cons_True (fun p : Row * bool => snd p = true))
             by reflexivity.
           rewrite (filter_cons_True (fun r0 => label_test op c r0 = true))
             by exact Ht.
           simpl. f_equal. exact IH1.
        -- rewrite (filter_cons_False (fun p : Row * bool => snd p = true))
             by (simpl; congruence).
           rewrite (filter_cons_False (fun r0 => label_test op c r0 = true))
             by (rewrite Ht; congruence).
           exact IH1.
      * constructor; [right; exists t; exact Hix | exact IH2].
    + destruct (mapM _ l) as [e | mask'] eqn:Hm; [discriminate |].
      injection H as <-. destruct (IH mask' eq_refl) as [IH1 IH2].
      split.
      * assert (Ht : label_test op c r = false)
          by (unfold label_test; rewrite Hix; reflexivity).
        rewrite (filter_cons_False (fun p : Row * bool => snd p = true))
          by (simpl; congruence).
        rewrite (filter_cons_False (fun r0 => label_test op c r0 = true))
          by (rewrite Ht; congruence).
        exact IH1.
      * constructor; [left; exact Hix | exact IH2].
Qed.

(** ** Runs of a computation *)

Section Runs.
Context `{Ext : Externals}.

Lemma bind_inr {A B} (m : M A) (f : A -> M B) (s s' : State) (b : B) :
  bind m f s = inr (b, s') ->
  exists a s1, m s = inr (a, s1) /\ f a s1 = inr (b, s').
Proof.
  unfold bind. destruct (m s) as [e | [a s1]]; [discriminate |].
  intros H. exists a, s1. split; [reflexivity | exact H].
Qed.

Lemma bind_inl {A B} (m : M A) (f : A -> M B) (s : State) (e : Exc) :
  m s = inl e -> bind m f s = inl e.
Proof. unfold bind. intros ->. reflexivity. Qed.

Lemma bind_step {A B} (m : M A) (f : A -> M B) (s s1 : State) (a : A) :
  m s = inr (a, s1) -> bind m f s = f a s1.
Proof. unfold bind. intros ->. reflexivity. Qed.

Lemma ret_inr {A} (x a : A) (s s' : State) :
  ret x s = inr (a, s') -> a = x /\ s' = s.
Proof. unfold ret. intros H. injection H as <- <-. split; reflexivity. Qed.

Lemma lift_inr {A} (r : result A) (s s' : State) (a : A) :
  lift r s = inr (a, s') -> r = inr a /\ s' = s.
Proof.
  unfold lift. destruct r as [e | x]; [discriminate |].
  intros H. injection H as <- <-. split; reflexivity.
Qed.

Lemma call_inr {A} (e : Event) (r : result A) (s s' : State) (a : A) :
  call e r s = inr (a, s') ->
  r = inr a /\ s' = mkState (heap s) (estimators s) (log s ++ [e]).
Proof.
  unfold call, bind, emit, lift. destruct r as [x | x]; [discriminate |].
  intros H. injection H as <- <-. split; reflexivity.
Qed.

Lemma load_inr (l : loc) (s s' : State) (d : DataFrame) :
  load l s = inr (d, s') -> heap s !! l = Some d /\ s' = s.
Proof.
  unfold load. destruct (heap s !! l) as [x |]; [| discriminate].
  intros H. injection H as <- <-. split; reflexivity.
Qed.

Lemma store_inr (l : loc) (d : DataFrame) (s s' : State) (u : unit) :
  store l d s = inr (u, s') ->
  s' = mkState (<[l := d]> (heap s)) (estimators s) (log s).
Proof. unfold store. intros H. injection H as _ <-. reflexivity. Qed.

Lemma alloc_inr (d : DataFrame) (s s' : State) (l : loc) :
  alloc d s = inr (l, s') ->
  l = fresh (dom (heap s)) /\
  s' = mkState (<[l := d]> (heap s)) (estimators s) (log s).
Proof.
  unfold alloc. intros H. injection H as <- <-. split; reflexivity.
Qed.

Lemma call_estimator_inr (m : Models) (method : string) (args : list Arg)
  (kwargs : list (string * Arg)) (s s' : State) (r : Ret History) :
  PowerForecaster.call_estimator m method args kwargs s = inr (r, s') ->
  exists es,
    estimator_call (estimators s) m method args kwargs = inr (r, es) /\
    s' = mkState (heap s) es (log s ++ [ev_estimator m method args kwargs]).
Proof.
  unfold PowerForecaster.call_estimator.
  destruct (estimator_call _ _ _ _ _) as [e | [r0 es]]; [discriminate |].
  intros H. injection H as <- <-. exists es. split; reflexivity.
Qed.

(** A location that is in use is not the one a later allocation
    returns. *)
Lemma fresh_not_used (h : gmap loc DataFrame) (l : loc) (d : DataFrame) :
  h !! l = Some d -> l <> fresh (dom h).
Proof.
  intros Hl Heq.
  assert (Hin : l ∈ dom h) by (apply elem_of_dom; eauto).
  rewrite Heq in Hin. exact (is_fresh (dom h) Hin).
Qed.

End Runs.

(** One step of a run that returned: split the first operation off and
    read what it did; [a] names its result and [Ha] what is known of
    it. *)
Ltac run_step H a Ha :=
  let s := fresh "s" in
  apply bind_inr in H; destruct H as (a & s & Ha & H);
  first
    [ apply lift_inr in Ha; destruct Ha as [Ha ->]
    | apply call_inr in Ha; destruct Ha as [Ha ->]
    | apply load_inr in Ha; destruct Ha as [Ha ->]
    | apply store_inr in Ha; subst s
    | apply alloc_inr in Ha; destruct Ha as [Ha ->]
    | idtac ];
  cbv beta zeta in H; cbn [heap estimators log] in *.

(** A run that returned is its outcome and the state it left. *)
Lemma run_returned {A} (run : Exc + (A * State)) (otherwise : A) :
  Demo.returned run = true ->
  run = inr (Demo.outcome run otherwise, Demo.state_after run).
Proof. destruct run as [e | [a s]]; [discriminate | reflexivity]. Qed.

Lemma run_returned_pair {A B} (run : Exc + ((A * B) * State)) (otherwise : A * B) :
  Demo.returned run = true ->
  run = inr ((fst (Demo.outcome run otherwise), snd (Demo.outcome run otherwise)),
             Demo.state_after run).
Proof. destruct run as [e | [[a b] s]]; [discriminate | reflexivity]. Qed.

Lemma run_raised {A} (run : Exc + A) (e : Exc) :
  Demo.raised run = Some e -> run = inl e.
Proof.
  destruct run as [e' | a]; [| discriminate].
  intros H. injection H as ->. reflexivity.
Qed.

(** ** The constructor *)

Section InitRun.
Context `{Ext : Externals}.

(** What a run of the constructor that returns has done, step by
    step. *)
Lemma init_run (l : loc) (mdl : pyobj) (ratio : Q) (st st' : State)
  (self : PowerForecaster.t) :
  PowerForecaster.__init__ l mdl ratio st = inr (self, st') ->
  exists d0 date time stamps idx d1 r interp yhat d3 n before after part
         features labels lo ld lte,
    (heap st !! l = Some d0 /\
     get_col ColumnNames.DATE d0 = inr date /\
     get_col ColumnNames.TIME d0 = inr time /\
     series_add date time = inr stamps /\
     pd_to_datetime stamps PowerForecaster.datetime_format = inr idx /\
     set_index (map datetime_label idx) d0 = inr d1) /\
    (facebook_prophet_filter d1 ColumnNames.TEMPERATURE
       (value FORECASTED_TEMPERATURE_FILE) = inr r /\
     set_index (index (fst r)) (snd r) = inr interp /\
     get_col ColumnNames.FORECAST interp = inr yhat /\
     set_col ColumnNames.TEMPERATURE yhat (fst r) = inr d3) /\
    (normalize (rename ColumnNames.POWER ColumnNames.LABEL d3)
       ColumnNames.FEATURES QuantileTransformer = inr n /\
     index_cmp ts_ltb (fst n) (value CUTOFF_DATE) = inr before /\
     index_cmp ts_geb (fst n) (value CUTOFF_DATE) = inr after /\
     set_col ColumnNames.DATE_STAMP
       (map label_cell (index (mask_rows before (fst n))))
       (mask_rows before (fst n)) = inr part /\
     select ColumnNames.FEATURES part = inr features /\
     select ColumnNames.LABELS part = inr labels) /\
    self = PowerForecaster.mkSelf lo (snd n) ld lte ratio mdl
             (Frame (fst (PowerForecaster.train_test_split ratio features)))
             (Frame (snd (PowerForecaster.train_test_split ratio features)))
             (Frame (fst (PowerForecaster.train_test_split ratio labels)))
             (Frame (snd (PowerForecaster.train_test_split ratio labels)))
             None None None None /\
    (l <> lo /\ l <> ld /\ l <> lte /\ lo <> ld /\ lo <> lte /\ ld <> lte /\
     heap st !! lo = None /\ heap st !! ld = None /\ heap st !! lte = None) /\
    (heap st' !! l = Some d3 /\
     heap st' !! lo = Some d1 /\
     heap st' !! ld = Some part /\
     heap st' !! lte = Some (mask_rows after (fst n)) /\
     forall l', l' <> l -> l' <> lo -> l' <> ld -> l' <> lte ->
                heap st' !! l' = heap st !! l') /\
    estimators st' = estimators st /\
    log st' = log st ++
      [ev_to_datetime stamps PowerForecaster.datetime_format;
       ev_facebook_prophet_filter d1 ColumnNames.TEMPERATURE
         (value FORECASTED_TEMPERATURE_FILE);
       ev_normalize (rename ColumnNames.POWER ColumnNames.LABEL d3)
         ColumnNames.FEATURES;
       ev_explore_data part].
Proof.
  intros H. unfold PowerForecaster.__init__ in H.
  run_step H d0 Hd0.
  run_step H date Hdate.
  run_step H time Htime.
  run_step H stamps Hstamps.
  run_step H idx Hidx.
  run_step H d1 Hd1.
  run_step H u1 Hu1.
  run_step H lo Hlo.
  run_step H r Hr.
  run_step H u2 Hu2.
  run_step H interp Hinterp.
  run_step H yhat Hyhat.
  run_step H d3 Hd3.
  run_step H u3 Hu3.
  run_step H n Hn.
  run_step H before Hbefore.
  run_step H ld Hld.
  run_step H after Hafter.
  run_step H lte Hlt.
  set (h1 := <[l:=d1]> (heap st)) in *.
  set (h2 := <[lo:=d1]> h1) in *.
  set (h4 := <[l:=d3]> (<[l:=r.1]> h2)) in *.
  set (h5 := <[ld:=mask_rows before n.1]> h4) in *.
  assert (Hl_lo : l <> lo).
  { rewrite Hlo. apply (fresh_not_used h1 l d1). apply lookup_insert_eq. }
  assert (Hl_ld : l <> ld).
  { rewrite Hld. apply (fresh_not_used h4 l d3). apply lookup_insert_eq. }
  assert (Hlo_ld : lo <> ld).
  { rewrite Hld. apply (fresh_not_used h4 lo d1). unfold h4.
    rewrite !lookup_insert_ne by exact Hl_lo. apply lookup_insert_eq. }
  assert (Hld_lt : ld <> lte).
  { rewrite Hlt. apply (fresh_not_used h5 ld (mask_rows before n.1)).
    apply lookup_insert_eq. }
  assert (Hl_lt : l <> lte).
  { rewrite Hlt. apply (fresh_not_used h5 l d3). unfold h5.
    rewrite lookup_insert_ne by congruence. apply lookup_insert_eq. }
  assert (Hlo_lt : lo <> lte).
  { rewrite Hlt. apply (fresh_not_used h5 lo d1). unfold h5, h4.
    rewrite !lookup_insert_ne by congruence. apply lookup_insert_eq. }
  run_step H cur Hcur.
  rewrite lookup_insert_ne in Hcur by congruence.
  unfold h5 in Hcur. rewrite lookup_insert_eq in Hcur.
  injection Hcur as <-.
  run_step H part Hpart.
  run_step H u5 Hu5.
  run_step H features Hfeatures.
  run_step H labels Hlabels.
  run_step H u6 Hu6.
  apply ret_inr in H as [-> ->].
  assert (Hfresh : forall (h : gmap loc DataFrame), h !! fresh (dom h) = None).
  { intros h. apply not_elem_of_dom. apply is_fresh. }
  exists d0, date, time, stamps, idx, d1, r, interp, yhat, d3, n, before, after,
    part, features, labels, lo, ld, lte.
  repeat split; try assumption; try reflexivity; cbn [heap estimators log].
  - pose proof (Hfresh h1) as Hf. rewrite <- Hlo in Hf. unfold h1 in Hf.
    rewrite lookup_insert_ne in Hf by exact Hl_lo. exact Hf.
  - pose proof (Hfresh h4) as Hf. rewrite <- Hld in Hf. unfold h4, h2, h1 in Hf.
    rewrite !lookup_insert_ne in Hf by congruence. exact Hf.
  - pose proof (Hfresh h5) as Hf. rewrite <- Hlt in Hf.
    unfold h5, h4, h2, h1 in Hf.
    rewrite !lookup_insert_ne in Hf by congruence. exact Hf.
  - unfold h5, h4. rewrite !lookup_insert_ne by congruence.
    apply lookup_insert_eq.
  - unfold h5, h4, h2. rewrite !lookup_insert_ne by congruence.
    apply lookup_insert_eq.
  - apply lookup_insert_eq.
  - rewrite lookup_insert_ne by congruence. apply lookup_insert_eq.
  - intros l' H1 H2 H3 H4. unfold h5, h4, h2, h1.
    rewrite !lookup_insert_ne by congruence. reflexivity.
  - rewrite <- !app_assoc. reflexivity.
Qed.
End InitRun.

Section Steps.
Context `{Ext : Externals}.

Lemma lift_step {A} (r : result A) (a : A) (s : State) :
  r = inr a -> lift r s = inr (a, s).
Proof. intros ->. reflexivity. Qed.

Lemma call_step {A} (e : Event) (r : result A) (a : A) (s : State) :
  r = inr a ->
  call e r s = inr (a, mkState (heap s) (estimators s) (log s ++ [e])).
Proof. intros ->. reflexivity. Qed.

Lemma load_step (l : loc) (d : DataFrame) (s : State) :
  heap s !! l = Some d -> load l s = inr (d, s).
Proof. unfold load. intros ->. reflexivity. Qed.

End Steps.

(** The next operation of a run goes through. *)
Ltac step_on :=
  erewrite bind_step by
    (first [ apply lift_step; eassumption
           | apply call_step; eassumption
           | apply load_step; eassumption
           | reflexivity ]);
  cbv beta zeta; cbn [heap estimators log].

(** Conversely, the constructor returns whenever each of its steps
    goes through: the date and time columns are there and parse, the
    filter answers with as many rows as it left in the table and a
    forecast column, the normalized table has a datetime index and the
    feature columns, and the exploration returns. *)
Lemma init_returns `{Ext : Externals} (l : loc) (mdl : pyobj) (ratio : Q)
  (st : State) (d0 d1 interp d3 part features labels : DataFrame)
  (date time stamps yhat : list cell) (idx : list (option Timestamp))
  (r : DataFrame * DataFrame) (n : DataFrame * Transformer)
  (before after : list bool) :
  heap st !! l = Some d0 ->
  get_col "date" d0 = inr date ->
  get_col "time" d0 = inr time ->
  series_add date time = inr stamps ->
  pd_to_datetime stamps "%Y-%m-%d%H:%M:%S" = inr idx ->
  set_index (map datetime_label idx) d0 = inr d1 ->
  facebook_prophet_filter d1 "actual_temperature"
    (value FORECASTED_TEMPERATURE_FILE) = inr r ->
  set_index (index (fst r)) (snd r) = inr interp ->
  get_col "yhat" interp = inr yhat ->
  set_col "actual_temperature" yhat (fst r) = inr d3 ->
  normalize (rename "actual_kwh" "y" d3) ["y"; "actual_temperature"]
    QuantileTransformer = inr n ->
  index_cmp ts_ltb (fst n) (value CUTOFF_DATE) = inr before ->
  index_cmp ts_geb (fst n) (value CUTOFF_DATE) = inr after ->
  set_col "ds" (map label_cell (index (mask_rows before (fst n))))
    (mask_rows before (fst n)) = inr part ->
  select ["y"; "actual_temperature"] part = inr features ->
  select ["y"] part = inr labels ->
  explore_data part = inr tt ->
  exists self st', PowerForecaster.__init__ l mdl ratio st = inr (self, st').
Proof.
  intros Hd0 Hdate Htime Hstamps Hidx Hd1 Hr Hinterp Hyhat Hd3 Hn Hb Ha Hpart
    Hfeatures Hlabels Hexplore.
  unfold PowerForecaster.__init__.
  repeat step_on.
  set (h4 := <[l:=d3]> (<[l:=fst r]> (<[fresh (dom (<[l:=d1]> (heap st))):=d1]>
                                        (<[l:=d1]> (heap st))))).
  set (ld := fresh (dom h4)).
  set (h5 := <[ld:=mask_rows before (fst n)]> h4).
  assert (Hld : <[fresh (dom h5):=mask_rows after (fst n)]> h5 !! ld
                = Some (mask_rows before (fst n))).
  { rewrite lookup_insert_ne.
    - apply lookup_insert_eq.
    - apply not_eq_sym.
      apply (fresh_not_used h5 ld (mask_rows before (fst n))).
      apply lookup_insert_eq. }
  erewrite bind_step by (apply load_step; exact Hld).
  cbv beta zeta; cbn [heap estimators log].
  repeat step_on.
  eexists. eexists. reflexivity.
Qed.

(** ** Splitting into a train and a test part *)

(** The rows of the two parts, for a split index that is not
    negative. *)
Lemma split_rows_at (ratio : Q) (d : DataFrame) :
  let i := py_int (float_mul ratio (float_of_int (Z.of_nat (nrows d)))) in
  0 <= i ->
  rows (fst (PowerForecaster.train_test_split ratio d)) = take (Z.to_nat i) (rows d) /\
  rows (snd (PowerForecaster.train_test_split ratio d)) = drop (Z.to_nat i) (rows d).
Proof.
  intros i Hi.
  assert (Hk : slice_bound (nrows d) i = Nat.min (Z.to_nat i) (length (rows d)))
    by (apply slice_bound_nonneg; exact Hi).
  unfold PowerForecaster.train_test_split, iloc_to, iloc_from. simpl.
  fold i. rewrite Hk. split; [apply take_min_length | apply drop_min_length].
Qed.

(** C3, as amended.  For every table of at most [2 ^ 53] rows and
    every split ratio that is a float from 0 to [2 ^ 970], where the
    product is a finite float, [train_test_split] returns the first
    [k] rows as the train part and the remaining rows as the test
    part, both with the columns of the table; [k] is the integer part
    of the product [ratio * n] as Python computes it, in floating
    point.  The parts are consecutive, so their concatenation is the
    table and every train row stands before every test row.  For a
    ratio of at most one, [k] is the integer part of the exact product
    or, when the float product is rounded up to the next integer, one
    more. *)
Theorem train_test_split_nonneg_ratio (ratio : Q) (d : DataFrame) :
  is_float ratio = true ->
  Qle 0 ratio -> Qle ratio (Qpower 2 970) ->
  Z.of_nat (nrows d) <= 2 ^ 53 ->
  let n := Z.of_nat (nrows d) in
  let k := Z.to_nat (Qfloor (float_mul ratio (float_of_int n))) in
  let train := fst (PowerForecaster.train_test_split ratio d) in
  let test := snd (PowerForecaster.train_test_split ratio d) in
  rows train = take k (rows d) /\
  rows test = drop k (rows d) /\
  columns train = columns d /\
  columns test = columns d /\
  rows train ++ rows test = rows d /\
  (forall (i j : nat) (x y : Row),
     rows train !! i = Some x -> rows test !! j = Some y ->
     rows d !! i = Some x /\ rows d !! (length (rows train) + j)%nat = Some y /\
     (i < length (rows train) + j)%nat) /\
  (Qle ratio 1 ->
   Qfloor (Qmult ratio (inject_Z n)) <= Z.of_nat k
   <= Qfloor (Qmult ratio (inject_Z n)) + 1).
Proof.
  intros Hfloat Hr Hrange Hrows n k train test.
  pose proof (ratio_times_rows_nonneg ratio (nrows d) Hr) as Hprod.
  pose proof (py_int_nonneg _ Hprod) as Hint. fold n in Hint.
  pose proof (Qfloor_nonneg _ Hprod) as Hfloor. fold n in Hfloor.
  destruct (split_rows_at ratio d) as [Htrain Htest].
  { fold n. rewrite Hint. exact Hfloor. }
  fold n in Htrain, Htest. rewrite Hint in Htrain, Htest.
  fold k train in Htrain. fold k test in Htest.
  split; [exact Htrain |]. split; [exact Htest |].
  split; [reflexivity |]. split; [reflexivity |].
  split; [rewrite Htrain, Htest; apply take_drop |].
  split.
  - intros i j x y Hi Hj.
    assert (Hlt : (i < length (rows train))%nat)
      by (apply lookup_lt_Some in Hi; exact Hi).
    assert (Hlen : length (rows train) = Nat.min k (length (rows d)))
      by (rewrite Htrain; apply length_take).
    split; [| split].
    + rewrite <- Hi. rewrite Htrain. symmetry. apply lookup_take_lt. lia.
    + rewrite <- Hj. rewrite Htest. rewrite lookup_drop.
      apply lookup_lt_Some in Hj. rewrite Htest, length_drop in Hj.
      f_equal. lia.
    + lia.
  - intros Hone. unfold k. rewrite Z2Nat.id by exact Hfloor.
    rewrite <- Hint. apply split_index_near_floor; [lia | exact Hr | exact Hone].
Qed.

Lemma train_test_split_nonneg_ratio_witness :
  map ix (rows (fst (PowerForecaster.train_test_split (value TRAIN_TEST_SPLIT_RATIO)
                       Demo.four_rows)))
  = map ix (take 3 (rows Demo.four_rows)).
Proof.
  assert (Hfloat : is_float (value TRAIN_TEST_SPLIT_RATIO) = true)
    by (vm_compute; reflexivity).
  assert (Hratio : Qle 0 (value TRAIN_TEST_SPLIT_RATIO))
    by (vm_compute; discriminate).
  assert (Hrange : Qle (value TRAIN_TEST_SPLIT_RATIO) (Qpower 2 970))
    by (vm_compute; discriminate).
  assert (Hrows : Z.of_nat (nrows Demo.four_rows) <= 2 ^ 53)
    by (vm_compute; discriminate).
  apply (f_equal (map ix)).
  etransitivity;
    [exact (proj1 (train_test_split_nonneg_ratio (value TRAIN_TEST_SPLIT_RATIO)
                     Demo.four_rows Hfloat Hratio Hrange Hrows)) |].
  vm_compute. reflexivity.
Defined.

(** C3 as it is stated fails for a negative ratio: with the float
    [-0.25] as ratio and four rows the product is [-1.0] and the split
    index [-1], which as a slice bound counts from the end, so the
    train part has three rows, not the first [floor(-1)] rows (none). *)
Lemma train_test_split_negative_ratio :
  let ratio := Qmake (-1) 4 in
  let n := nrows Demo.four_rows in
  let train := fst (PowerForecaster.train_test_split ratio Demo.four_rows) in
  is_float ratio = true /\
  Qfloor (Qmult ratio (inject_Z (Z.of_nat n))) = -1 /\
  length (rows train) = 3%nat /\
  rows train <>
  take (Z.to_nat (Qfloor (Qmult ratio (inject_Z (Z.of_nat n))))) (rows Demo.four_rows).
Proof.
  intros ratio n train.
  split; [vm_compute; reflexivity |].
  split; [vm_compute; reflexivity |]. split; [vm_compute; reflexivity |].
  intros H. apply (f_equal length) in H. vm_compute in H. discriminate H.
Qed.

(** Nor is the index the integer part of the exact product when the
    ratio is not negative.  With the literal [0.7] as ratio, the float
    just below 7/10, ten rows give seven train rows, the product being
    rounded up to [7.0], where the exact product of that float and 10
    is below 7; and ninety rows give 62, where 7/10 of 90 is 63. *)
Lemma train_test_split_rounds_the_product :
  let ratio := float_literal (Qmake 7 10) in
  nrows (fst (PowerForecaster.train_test_split ratio (Cases.features 10))) = 7%nat /\
  Qfloor (Qmult ratio (inject_Z 10)) = 6 /\
  nrows (fst (PowerForecaster.train_test_split ratio (Cases.features 90))) = 62%nat /\
  Qfloor (Qmult (Qmake 7 10) (inject_Z 90)) = 63.
Proof.
  intros ratio. split; [vm_compute; reflexivity |].
  split; [vm_compute; reflexivity |]. split; vm_compute; reflexivity.
Qed.

(** The product of a literal [a / b] and a number of rows, computed
    with the Standard Library's specification of IEEE 754 division and
    multiplication at precision 53 and maximal exponent 1024, is the
    one [float_literal] and [float_mul] give. *)
Lemma float_mul_as_specified :
  forallb (fun '(a, b, n) =>
             let sf z := binary_normalize 53 1024 z 0 false in
             Qeq_bool (SF2Q (SFmul 53 1024 (SFdiv 53 1024 (sf a) (sf b)) (sf n)))
                      (float_mul (float_literal (Qmake a (Z.to_pos b)))
                                 (float_of_int n)))
          [(7, 10, 10); (7, 10, 90); (8, 10, 4); (8, 10, 1056); (1, 3, 1000000);
           (2, 3, 7); (1, 10, 3); (999, 1000, 123456789); (-1, 4, 4);
           (-7, 10, 90); (3, 7, 9007199254740993)]
  = true.
Proof. vm_compute. reflexivity. Qed.

(** The sample run of the constructor returns. *)
Lemma constructed_returns :
  PowerForecaster.__init__ Demo.caller (PyModels PROPHET) (value TRAIN_TEST_SPLIT_RATIO) Demo.state0
  = inr (Demo.self1, Demo.state1).
Proof. apply (run_returned Demo.constructed). vm_compute. reflexivity. Qed.

(** C1.  A run of the constructor that returns has, in this order:
    built the datetime index from the date and time columns of the
    table it was given; handed the table with that index to the
    prophet filter to interpolate the temperature column and stored the
    filter's forecast in it; renamed the power column to ['y']; and
    normalized the columns ['y'] and ['actual_temperature'] of the
    renamed table with a new quantile transformer, which it keeps.
    These calls and the exploration of the result are all it logged:
    no forecasting model was fitted, the estimators are untouched and
    [model_fit] is unset. *)
Theorem init_pipeline_order `{Ext : Externals} (l : loc) (mdl : pyobj)
  (ratio : Q) (st st' : State) (self : PowerForecaster.t) :
  PowerForecaster.__init__ l mdl ratio st = inr (self, st') ->
  exists d0 date time stamps idx indexed r interpolated forecast filled
         normalized part,
    heap st !! l = Some d0 /\
    get_col "date" d0 = inr date /\
    get_col "time" d0 = inr time /\
    series_add date time = inr stamps /\
    pd_to_datetime stamps "%Y-%m-%d%H:%M:%S" = inr idx /\
    set_index (map datetime_label idx) d0 = inr indexed /\
    facebook_prophet_filter indexed "actual_temperature"
      (value FORECASTED_TEMPERATURE_FILE) = inr r /\
    set_index (index (fst r)) (snd r) = inr interpolated /\
    get_col "yhat" interpolated = inr forecast /\
    set_col "actual_temperature" forecast (fst r) = inr filled /\
    normalize (rename "actual_kwh" "y" filled) ["y"; "actual_temperature"]
      QuantileTransformer = inr (normalized, PowerForecaster.transformer self) /\
    log st' = log st ++
      [ev_to_datetime stamps "%Y-%m-%d%H:%M:%S";
       ev_facebook_prophet_filter indexed "actual_temperature"
         (value FORECASTED_TEMPERATURE_FILE);
       ev_normalize (rename "actual_kwh" "y" filled) ["y"; "actual_temperature"];
       ev_explore_data part] /\
    forallb (fun e => negb (is_fit e)) (drop (length (log st)) (log st')) = true /\
    estimators st' = estimators st /\
    PowerForecaster.model_fit self = None.
Proof.
  intros H. apply init_run in H.
  destruct H as (d0 & date & time & stamps & idx & d1 & r & interp & yhat & d3
                 & n & before & after & part & features & labels & lo & ld & lte
                 & (Hd0 & Hdate & Htime & Hstamps & Hidx & Hd1)
                 & (Hr & Hinterp & Hyhat & Hd3)
                 & (Hn & _) & Hself & _ & _ & Hes & Hlog).
  exists d0, date, time, stamps, idx, d1, r, interp, yhat, d3, (fst n), part.
  repeat (split; [assumption |]).
  split.
  { rewrite Hself. destruct n as [normalized tr]. exact Hn. }
  split; [exact Hlog |].
  split.
  { rewrite Hlog. rewrite drop_app_length. reflexivity. }
  split; [exact Hes |].
  rewrite Hself. reflexivity.
Qed.

Lemma init_pipeline_order_witness :
  exists stamps indexed filled part,
    log Demo.state1 =
      [ev_to_datetime stamps "%Y-%m-%d%H:%M:%S";
       ev_facebook_prophet_filter indexed "actual_temperature"
         (value FORECASTED_TEMPERATURE_FILE);
       ev_normalize (rename "actual_kwh" "y" filled) ["y"; "actual_temperature"];
       ev_explore_data part].
Proof.
  destruct (init_pipeline_order Demo.caller (PyModels PROPHET) (value TRAIN_TEST_SPLIT_RATIO)
              Demo.state0 Demo.state1 Demo.self1 constructed_returns)
    as (d0 & date & time & stamps & idx & indexed & r & interpolated & forecast
        & filled & normalized & part & _ & _ & _ & _ & _ & _ & _ & _ & _ & _ & _
        & Hlog & _).
  exists stamps, indexed, filled, part. exact Hlog.
Defined.

(** On a datetime index, the rows that are not before a timestamp are
    the rows on or after it. *)
Lemma filter_before_timestamps (c : Timestamp) (l : list Row) :
  filter (fun r => label_test ts_ltb c r = true) l
  = filter (fun r => label_test ts_ltb c r = true)
           (filter (fun r => has_timestamp r = true) l).
Proof.
  induction l as [| r l IH]; [reflexivity |].
  destruct (has_timestamp r) eqn:Hts.
  - rewrite (filter_cons_True (fun r0 => has_timestamp r0 = true) r l Hts).
    destruct (label_test ts_ltb c r) eqn:E.
    + rewrite !(filter_cons_True (fun r0 => label_test ts_ltb c r0 = true))
        by exact E.
      f_equal. exact IH.
    + rewrite !(filter_cons_False (fun r0 => label_test ts_ltb c r0 = true))
        by (rewrite E; discriminate).
      exact IH.
  - rewrite (filter_cons_False (fun r0 => has_timestamp r0 = true))
      by (rewrite Hts; discriminate).
    assert (E : label_test ts_ltb c r = false).
    { unfold label_test. unfold has_timestamp in Hts.
      destruct (ix r); [reflexivity | discriminate Hts | reflexivity]. }
    rewrite (filter_cons_False (fun r0 => label_test ts_ltb c r0 = true))
      by (rewrite E; discriminate).
    exact IH.
Qed.

Lemma filter_geb_complement (c : Timestamp) (l : list Row) :
  filter (fun r => label_test ts_geb c r = true) l
  = filter (fun r => ~ label_test ts_ltb c r = true)
           (filter (fun r => has_timestamp r = true) l).
Proof.
  induction l as [| r l IH]; [reflexivity |].
  destruct (has_timestamp r) eqn:Hts.
  - rewrite (filter_cons_True (fun r0 => has_timestamp r0 = true) r l Hts).
    assert (Hr : label_test ts_geb c r = negb (label_test ts_ltb c r)).
    { unfold label_test. unfold has_timestamp in Hts.
      destruct (ix r); [discriminate Hts | apply ts_geb_ltb | discriminate Hts]. }
    destruct (label_test ts_ltb c r) eqn:E; simpl in Hr.
    + rewrite (filter_cons_False (fun r0 => label_test ts_geb c r0 = true))
        by (rewrite Hr; discriminate).
      rewrite (filter_cons_False (fun r0 => ~ label_test ts_ltb c r0 = true))
        by (rewrite E; intros Hn; apply Hn; reflexivity).
      exact IH.
    + rewrite (filter_cons_True (fun r0 => label_test ts_geb c r0 = true))
        by exact Hr.
      rewrite (filter_cons_True (fun r0 => ~ label_test ts_ltb c r0 = true))
        by (rewrite E; discriminate).
      f_equal. exact IH.
  - rewrite (filter_cons_False (fun r0 => has_timestamp r0 = true))
      by (rewrite Hts; discriminate).
    assert (E : label_test ts_geb c r = false).
    { unfold label_test. unfold has_timestamp in Hts.
      destruct (ix r); [reflexivity | discriminate Hts | reflexivity]. }
    rewrite (filter_cons_False (fun r0 => label_test ts_geb c r0 = true))
      by (rewrite E; discriminate).
    exact IH.
Qed.

(** C9, as amended.  A run of the constructor that returns has split
    the normalized table at the cutoff date, 2013-12-01: the rows of
    [self.df] are the rows of the normalized table whose label is a
    timestamp strictly before the cutoff, in their order (and
    [self.df] then gets the [ds] column, a copy of its index); the
    rows of [self.testing] are those whose label is a timestamp on or
    after the cutoff.  No row is in both parts.  A row whose label is
    [NaT], which is what a missing date or time becomes, is in neither
    part: both comparisons with [NaT] are false.  So the two parts
    together are a rearrangement of the rows that have a timestamp,
    not of all rows.  The train and test parts of [self] are split off
    [self.df]. *)
Theorem init_partitions_at_cutoff `{Ext : Externals} (l : loc) (mdl : pyobj)
  (ratio : Q) (st st' : State) (self : PowerForecaster.t) :
  PowerForecaster.__init__ l mdl ratio st = inr (self, st') ->
  exists filled normalized before stamped after features labels,
    normalize (rename "actual_kwh" "y" filled) ["y"; "actual_temperature"]
      QuantileTransformer = inr (normalized, PowerForecaster.transformer self) /\
    value CUTOFF_DATE = mkTS 2013 12 1 0 0 0 /\
    rows before
      = filter (fun r => label_test ts_ltb (value CUTOFF_DATE) r = true)
               (rows normalized) /\
    rows after
      = filter (fun r => label_test ts_geb (value CUTOFF_DATE) r = true)
               (rows normalized) /\
    columns before = columns normalized /\
    columns after = columns normalized /\
    (forall r, r ∈ rows normalized ->
       (exists t, ix r = IxTime t /\ ts_ltb t (value CUTOFF_DATE) = true /\
                  r ∈ rows before /\ r ∉ rows after) \/
       (exists t, ix r = IxTime t /\ ts_geb t (value CUTOFF_DATE) = true /\
                  r ∈ rows after /\ r ∉ rows before) \/
       (ix r = IxNaT /\ (r ∉ rows before) /\ (r ∉ rows after))) /\
    rows before ++ rows after
      ≡ₚ filter (fun r => has_timestamp r = true) (rows normalized) /\
    set_col "ds" (map label_cell (index before)) before = inr stamped /\
    index stamped = index before /\
    (forall c, c <> "ds" -> get_col c stamped = get_col c before) /\
    PowerForecaster.df self <> PowerForecaster.testing self /\
    heap st' !! PowerForecaster.df self = Some stamped /\
    heap st' !! PowerForecaster.testing self = Some after /\
    select ["y"; "actual_temperature"] stamped = inr features /\
    select ["y"] stamped = inr labels /\
    PowerForecaster.train_X self
      = Frame (fst (PowerForecaster.train_test_split ratio features)) /\
    PowerForecaster.test_X self
      = Frame (snd (PowerForecaster.train_test_split ratio features)) /\
    PowerForecaster.train_y self
      = Frame (fst (PowerForecaster.train_test_split ratio labels)) /\
    PowerForecaster.test_y self
      = Frame (snd (PowerForecaster.train_test_split ratio labels)).
Proof.
  intros H. apply init_run in H.
  destruct H as (d0 & date & time & stamps & idx & d1 & r & interp & yhat & d3
                 & n & mb & ma & part & features & labels & lo & ld & lte
                 & _ & _
                 & (Hn & Hmb & Hma & Hpart & Hfeatures & Hlabels)
                 & Hself & (_ & _ & _ & _ & _ & Hne & _)
                 & (_ & _ & Hdf & Htest & _) & _ & _).
  destruct n as [normalized tr]. cbn [fst snd] in *.
  destruct (index_cmp_mask _ _ _ _ Hmb) as [Hb Htimes].
  destruct (index_cmp_mask _ _ _ _ Hma) as [Ha _].
  exists d3, normalized, (mask_rows mb normalized), part,
    (mask_rows ma normalized), features, labels.
  rewrite Hself. cbn [PowerForecaster.transformer PowerForecaster.df
    PowerForecaster.testing PowerForecaster.train_X PowerForecaster.test_X
    PowerForecaster.train_y PowerForecaster.test_y].
  split; [exact Hn |]. split; [reflexivity |].
  split; [exact Hb |]. split; [exact Ha |].
  split; [reflexivity |]. split; [reflexivity |].
  split.
  { intros row Hrow. rewrite Hb, Ha.
    rewrite Forall_forall in Htimes.
    destruct (Htimes row Hrow) as [Hnat | [t Ht]].
    - right. right. split; [exact Hnat |].
      rewrite !list_elem_of_filter. unfold label_test. rewrite Hnat.
      split; intros [Hc _]; discriminate Hc.
    - pose proof (ts_geb_ltb t (value CUTOFF_DATE)) as Hgeb.
      destruct (ts_ltb t (value CUTOFF_DATE)) eqn:E; cbn [negb] in Hgeb.
      + left. exists t. split; [exact Ht |]. split; [exact E |].
        rewrite !list_elem_of_filter. unfold label_test. rewrite Ht, E, Hgeb.
        split; [split; [reflexivity | exact Hrow] |].
        intros [Hc _]. discriminate Hc.
      + right. left. exists t. split; [exact Ht |]. split; [exact Hgeb |].
        rewrite !list_elem_of_filter. unfold label_test. rewrite Ht, E, Hgeb.
        split; [split; [reflexivity | exact Hrow] |].
        intros [Hc _]. discriminate Hc. }
  split.
  { rewrite Hb, Ha. rewrite filter_before_timestamps, filter_geb_complement.
    apply filter_app_complement. }
  split; [exact Hpart |].
  split; [exact (index_set_col _ _ _ _ Hpart) |].
  split.
  { intros c Hc. apply (get_col_set_col_other _ _ "ds" c _ (not_eq_sym Hc) Hpart). }
  split; [exact Hne |].
  split; [exact Hdf |]. split; [exact Htest |].
  split; [exact Hfeatures |]. split; [exact Hlabels |].
  repeat split.
Qed.

Lemma init_partitions_at_cutoff_witness :
  exists before after,
    index before = [IxTime (mkTS 2013 11 30 23 30 0);
                    IxTime (mkTS 2013 11 30 23 45 0)] /\
    index after = [IxTime (mkTS 2013 12 1 0 0 0)].
Proof.
  destruct (init_partitions_at_cutoff Demo.caller (PyModels PROPHET) (value TRAIN_TEST_SPLIT_RATIO)
              Demo.state0 Demo.state1 Demo.self1 constructed_returns)
    as (filled & normalized & before & stamped & after & features & labels
        & _ & _ & _ & _ & _ & _ & _ & _ & _ & Hix & _ & _ & Hdf & Htest & _).
  exists before, after.
  assert (Hs : index <$> heap Demo.state1 !! PowerForecaster.df Demo.self1
               = Some [IxTime (mkTS 2013 11 30 23 30 0);
                       IxTime (mkTS 2013 11 30 23 45 0)])
    by (vm_compute; reflexivity).
  assert (Ht : index <$> heap Demo.state1 !! PowerForecaster.testing Demo.self1
               = Some [IxTime (mkTS 2013 12 1 0 0 0)])
    by (vm_compute; reflexivity).
  rewrite Hdf in Hs. rewrite Htest in Ht. simpl in Hs, Ht.
  injection Hs as Hs. injection Ht as Ht.
  split; [rewrite <- Hix; exact Hs | exact Ht].
Defined.

(** C9 as it is stated fails on a table in which a date is missing.
    Of three readings, the second without a date, the constructor
    makes a normalized table of three rows, the second labelled
    [NaT]; [self.df] gets the first row and [self.testing] the third,
    and the second is in neither: the two parts do not cover the
    normalized table. *)
Lemma init_drops_undated_rows :
  exists self st' filled normalized before after,
    PowerForecaster.__init__ Demo.caller (PyModels PROPHET)
      (value TRAIN_TEST_SPLIT_RATIO) Cases.gap_state = inr (self, st') /\
    normalize (rename "actual_kwh" "y" filled) ["y"; "actual_temperature"]
      QuantileTransformer = inr (normalized, PowerForecaster.transformer self) /\
    heap st' !! PowerForecaster.df self = Some before /\
    heap st' !! PowerForecaster.testing self = Some after /\
    index normalized = [IxTime (mkTS 2013 11 30 23 30 0); IxNaT;
                        IxTime (mkTS 2013 12 1 0 0 0)] /\
    index before = [IxTime (mkTS 2013 11 30 23 30 0)] /\
    index after = [IxTime (mkTS 2013 12 1 0 0 0)].
Proof.
  set (run := PowerForecaster.__init__ Demo.caller (PyModels PROPHET)
                (value TRAIN_TEST_SPLIT_RATIO) Cases.gap_state).
  assert (Hrun : run = inr (Demo.outcome run (Demo.no_self PyNone),
                            Demo.state_after run))
    by (apply run_returned; vm_compute; reflexivity).
  set (self := Demo.outcome run (Demo.no_self PyNone)) in *.
  set (st' := Demo.state_after run) in *.
  pose proof (init_run _ _ _ _ _ _ Hrun) as H.
  destruct H as (d0 & date & time & stamps & idx & d1 & r & interp & yhat & d3
                 & n & mb & ma & part & features & labels & lo & ld & lte
                 & _ & _
                 & (Hn & _ & _ & _ & _ & _)
                 & Hself & _
                 & (Hcaller & _ & Hdf & Htest & _) & _ & _).
  assert (Hl : PowerForecaster.df self = ld /\ PowerForecaster.testing self = lte
               /\ PowerForecaster.transformer self = snd n)
    by (rewrite Hself; repeat split).
  destruct Hl as (Hld & Hlte & Htr).
  exists self, st', d3, (fst n), part, (mask_rows ma (fst n)).
  split; [exact Hrun |].
  split; [rewrite Htr; etransitivity; [exact Hn | destruct n; reflexivity] |].
  split; [rewrite Hld; exact Hdf |].
  split; [rewrite Hlte; exact Htest |].
  assert (Hc : index <$> heap st' !! Demo.caller
               = Some [IxTime (mkTS 2013 11 30 23 30 0); IxNaT;
                       IxTime (mkTS 2013 12 1 0 0 0)])
    by (vm_compute; reflexivity).
  assert (Hb : index <$> heap st' !! PowerForecaster.df self
               = Some [IxTime (mkTS 2013 11 30 23 30 0)])
    by (vm_compute; reflexivity).
  assert (Ha : index <$> heap st' !! PowerForecaster.testing self
               = Some [IxTime (mkTS 2013 12 1 0 0 0)])
    by (vm_compute; reflexivity).
  rewrite Hcaller in Hc. rewrite Hld, Hdf in Hb. rewrite Hlte, Htest in Ha.
  simpl in Hc, Hb, Ha. injection Hc as Hc. injection Hb as Hb. injection Ha as Ha.
  split; [| split; [exact Hb | exact Ha]].
  cbn in Hn. injection Hn as <-. cbn [fst].
  rewrite <- Hc. unfold index, rename. cbn [rows]. rewrite map_map. reflexivity.
Qed.

(** C10.  The constructor works on the caller's table itself.  A run
    that returns has assigned the datetime index to it, which changes
    no column; has then stored a copy of it, a new object, as
    [self.df_original]; and only after that has passed it to the
    filter and overwritten its temperature column with the filter's
    forecast.  At the end the caller's table is the table the filter
    left with that one column replaced: the rename to ['y'] acts on a
    new table, the one that is normalized.  [self.df_original] still
    holds every column of the original table, under the new index. *)
Theorem init_mutates_caller_table `{Ext : Externals} (l : loc) (mdl : pyobj)
  (ratio : Q) (st st' : State) (self : PowerForecaster.t) :
  PowerForecaster.__init__ l mdl ratio st = inr (self, st') ->
  exists d0 date time stamps idx indexed r interpolated forecast filled normalized,
    heap st !! l = Some d0 /\
    get_col "date" d0 = inr date /\
    get_col "time" d0 = inr time /\
    series_add date time = inr stamps /\
    pd_to_datetime stamps "%Y-%m-%d%H:%M:%S" = inr idx /\
    set_index (map datetime_label idx) d0 = inr indexed /\
    index indexed = map datetime_label idx /\
    columns indexed = columns d0 /\
    (forall c, get_col c indexed = get_col c d0) /\
    PowerForecaster.df_original self <> l /\
    heap st !! PowerForecaster.df_original self = None /\
    heap st' !! PowerForecaster.df_original self = Some indexed /\
    facebook_prophet_filter indexed "actual_temperature"
      (value FORECASTED_TEMPERATURE_FILE) = inr r /\
    set_index (index (fst r)) (snd r) = inr interpolated /\
    get_col "yhat" (snd r) = inr forecast /\
    set_col "actual_temperature" forecast (fst r) = inr filled /\
    heap st' !! l = Some filled /\
    get_col "actual_temperature" filled = inr forecast /\
    index filled = index (fst r) /\
    (forall c, c <> "actual_temperature" -> get_col c filled = get_col c (fst r)) /\
    normalize (rename "actual_kwh" "y" filled) ["y"; "actual_temperature"]
      QuantileTransformer = inr (normalized, PowerForecaster.transformer self) /\
    (fst r = indexed ->
     index filled = map datetime_label idx /\
     forall c, c <> "actual_temperature" -> get_col c filled = get_col c d0).
Proof.
  intros H. apply init_run in H.
  destruct H as (d0 & date & time & stamps & idx & d1 & r & interp & yhat & d3
                 & n & mb & ma & part & features & labels & lo & ld & lte
                 & (Hd0 & Hdate & Htime & Hstamps & Hidx & Hd1)
                 & (Hr & Hinterp & Hyhat & Hd3)
                 & (Hn & _)
                 & Hself & (Hl_lo & _ & _ & _ & _ & _ & Hlo_new & _)
                 & (Hl & Hlo & _) & _ & _).
  destruct n as [normalized tr].
  exists d0, date, time, stamps, idx, d1, r, interp, yhat, d3, normalized.
  rewrite Hself.
  cbn [PowerForecaster.df_original PowerForecaster.transformer fst snd] in *.
  assert (Hfr : forall c, c <> "actual_temperature" ->
                          get_col c d3 = get_col c (fst r)).
  { intros c Hc.
    exact (get_col_set_col_other _ _ "actual_temperature" c _ (not_eq_sym Hc) Hd3). }
  repeat (split; [assumption |]).
  split; [exact (index_set_index _ _ _ Hd1) |].
  split; [exact (columns_set_index _ _ _ Hd1) |].
  split; [intros c; exact (get_col_set_index _ _ _ c Hd1) |].
  split; [exact (not_eq_sym Hl_lo) |].
  split; [exact Hlo_new |].
  split; [exact Hlo |].
  split; [exact Hr |].
  split; [exact Hinterp |].
  split; [rewrite <- (get_col_set_index _ _ _ "yhat" Hinterp); exact Hyhat |].
  split; [exact Hd3 |].
  split; [exact Hl |].
  split; [exact (get_col_set_col _ _ _ _ Hd3) |].
  split; [exact (index_set_col _ _ _ _ Hd3) |].
  split; [exact Hfr |].
  split; [exact Hn |].
  intros Hsame. split.
  - rewrite (index_set_col _ _ _ _ Hd3), Hsame. exact (index_set_index _ _ _ Hd1).
  - intros c Hc. rewrite (Hfr c Hc), Hsame. exact (get_col_set_index _ _ _ c Hd1).
Qed.

Lemma init_mutates_caller_table_witness :
  exists indexed filled,
    heap Demo.state1 !! PowerForecaster.df_original Demo.self1 = Some indexed /\
    heap Demo.state1 !! Demo.caller = Some filled /\
    get_col "actual_temperature" indexed
      = inr [CNum (Qmake 11 1); CNaN; CNaN] /\
    get_col "actual_temperature" filled
      = inr [CNum (Qmake 20 1); CNum (Qmake 20 1); CNum (Qmake 20 1)] /\
    get_col "actual_kwh" filled
      = inr [CNum (Qmake 5 1); CNum (Qmake 6 1); CNum (Qmake 7 1)].
Proof.
  destruct (init_mutates_caller_table Demo.caller (PyModels PROPHET) (value TRAIN_TEST_SPLIT_RATIO)
              Demo.state0 Demo.state1 Demo.self1 constructed_returns)
    as (d0 & date & time & stamps & idx & indexed & r & interpolated & forecast
        & filled & normalized & _ & _ & _ & _ & _ & _ & _ & _ & _ & _ & _
        & Hcopy & _ & _ & _ & _ & Hcaller & _).
  exists indexed, filled.
  split; [exact Hcopy |]. split; [exact Hcaller |].
  assert (H1 : get_col "actual_temperature"
                 <$> heap Demo.state1 !! PowerForecaster.df_original Demo.self1
               = Some (inr [CNum (Qmake 11 1); CNaN; CNaN]))
    by (vm_compute; reflexivity).
  assert (H2 : get_col "actual_temperature" <$> heap Demo.state1 !! Demo.caller
               = Some (inr [CNum (Qmake 20 1); CNum (Qmake 20 1); CNum (Qmake 20 1)]))
    by (vm_compute; reflexivity).
  assert (H3 : get_col "actual_kwh" <$> heap Demo.state1 !! Demo.caller
               = Some (inr [CNum (Qmake 5 1); CNum (Qmake 6 1); CNum (Qmake 7 1)]))
    by (vm_compute; reflexivity).
  rewrite Hcopy in H1. rewrite Hcaller in H2, H3. simpl in H1, H2, H3.
  injection H1 as H1. injection H2 as H2. injection H3 as H3.
  split; [exact H1 |]. split; [exact H2 | exact H3].
Defined.

(** ** Fitting and predicting *)

Section Dispatch.
Context `{Ext : Externals}.

Lemma make_future_model (self self' : PowerForecaster.t) (st st' : State) :
  PowerForecaster.make_future self st = inr (self', st') ->
  PowerForecaster.model self' = PowerForecaster.model self.
Proof.
  intros H. unfold PowerForecaster.make_future in H.
  run_step H m Hm. run_step H r Hr. run_step H f Hf.
  apply ret_inr in H as [-> _]. reflexivity.
Qed.

Lemma bind_ret_l {A B} (x : A) (f : A -> M B) (s : State) :
  bind (ret x) f s = f x s.
Proof. reflexivity. Qed.

Lemma predict_other_branch (self : PowerForecaster.t) (st : State) :
  is_model (PowerForecaster.model self) PROPHET = false ->
  PowerForecaster.predict self st
  = (if is_model (PowerForecaster.model self) ARIMA then
       bind (PowerForecaster.arima_predict self (4 * 24 * 10))
            (fun predicted => ret (predicted, self))
     else if is_model (PowerForecaster.model self) VAR then
       bind (PowerForecaster.var_predict self (4 * 24 * 10))
            (fun predicted => ret (predicted, self))
     else if is_model (PowerForecaster.model self) LSTM then
       PowerForecaster.predict_lstm self
     else raise (ValueError "is not defined")) st.
Proof.
  intros Hm. unfold PowerForecaster.predict. cbv zeta. rewrite Hm.
  rewrite bind_ret_l. cbv beta. rewrite Hm. reflexivity.
Qed.

Lemma predict_prophet_branch (self : PowerForecaster.t) (st : State) :
  PowerForecaster.model self = PyModels PROPHET ->
  PowerForecaster.predict self st
  = bind (PowerForecaster.make_future self) PowerForecaster.predict_prophet st.
Proof.
  intros Hm. unfold PowerForecaster.predict. cbv zeta. rewrite Hm. simpl is_model.
  unfold bind.
  destruct (PowerForecaster.make_future self st) as [e | [self' st1]] eqn:E;
    [reflexivity |].
  rewrite (make_future_model _ _ _ _ E), Hm. reflexivity.
Qed.

End Dispatch.

(** C2.  One interface for the four models.  For a [self] whose
    model is [PROPHET], [ARIMA], [VAR] or [LSTM], [fit] runs exactly
    [prophet_fit], [arima_fit], [var_fit] or [lstm_fit_simple], and
    [predict] runs the matching prediction: the future table and the
    prophet prediction, [arima_predict] or [var_predict] with the
    default number of periods, or the recurrent model's prediction on
    the test windows.  For any other model value both raise
    [ValueError]. *)
Theorem fit_predict_dispatch `{Ext : Externals} (self : PowerForecaster.t)
  (st : State) :
  match PowerForecaster.model self with
  | PyModels PROPHET =>
      PowerForecaster.fit self st = PowerForecaster.prophet_fit self st /\
      PowerForecaster.predict self st
      = bind (PowerForecaster.make_future self) PowerForecaster.predict_prophet st
  | PyModels ARIMA =>
      PowerForecaster.fit self st = PowerForecaster.arima_fit self st /\
      PowerForecaster.predict self st
      = bind (PowerForecaster.arima_predict self (4 * 24 * 10))
             (fun predicted => ret (predicted, self)) st
  | PyModels VAR =>
      PowerForecaster.fit self st = PowerForecaster.var_fit self st /\
      PowerForecaster.predict self st
      = bind (PowerForecaster.var_predict self (4 * 24 * 10))
             (fun predicted => ret (predicted, self)) st
  | PyModels LSTM =>
      PowerForecaster.fit self st = PowerForecaster.lstm_fit_simple self st /\
      PowerForecaster.predict self st = PowerForecaster.predict_lstm self st
  | _ =>
      PowerForecaster.fit self st = inl (ValueError "is not defined") /\
      PowerForecaster.predict self st = inl (ValueError "is not defined")
  end.
Proof.
  destruct (PowerForecaster.model self) as [z | q | s | | c | m] eqn:Hm.
  1-5: split;
    [ unfold PowerForecaster.fit; rewrite Hm; reflexivity
    | rewrite predict_other_branch by (rewrite Hm; reflexivity);
      rewrite Hm; reflexivity ].
  destruct m.
  - split.
    + unfold PowerForecaster.fit. rewrite Hm. reflexivity.
    + apply predict_prophet_branch. exact Hm.
  - split.
    + unfold PowerForecaster.fit. rewrite Hm. reflexivity.
    + rewrite predict_other_branch by (rewrite Hm; reflexivity).
      rewrite Hm. reflexivity.
  - split.
    + unfold PowerForecaster.fit. rewrite Hm. reflexivity.
    + rewrite predict_other_branch by (rewrite Hm; reflexivity).
      rewrite Hm. reflexivity.
  - split.
    + unfold PowerForecaster.fit. rewrite Hm. reflexivity.
    + rewrite predict_other_branch by (rewrite Hm; reflexivity).
      rewrite Hm. reflexivity.
Qed.

(** C8.  When the model is [PROPHET], a run of [predict] that returns
    has asked the model for a future table of [4 * 24 * 10] periods at
    frequency ['15T'] with the history excluded, kept that table as
    [self.future], asked the model to predict on exactly that table,
    and copied the forecast column ['yhat'] of the answer into its
    label column ['y']: in the table returned the two columns are the
    same. *)
Theorem prophet_predict_future_only `{Ext : Externals}
  (self self' : PowerForecaster.t) (st st' : State) (predicted : Data) :
  PowerForecaster.model self = PyModels PROPHET ->
  PowerForecaster.predict self st = inr ((predicted, self'), st') ->
  exists fut es1 raw es2 forecast table,
    estimator_call (estimators st) PROPHET "make_future_dataframe" []
      [("periods", AInt 960); ("freq", AStr "15T");
       ("include_history", ABool false)] = inr (RData fut, es1) /\
    PowerForecaster.future self' = Some fut /\
    estimator_call es1 PROPHET "predict" [AData fut] []
      = inr (RData (Frame raw), es2) /\
    get_col "yhat" raw = inr forecast /\
    set_col "y" forecast raw = inr table /\
    predicted = Frame table /\
    get_col "y" table = inr forecast /\
    get_col "yhat" table = inr forecast /\
    index table = index raw /\
    log st' = log st ++
      [ev_estimator PROPHET "make_future_dataframe" []
         [("periods", AInt 960); ("freq", AStr "15T");
          ("include_history", ABool false)];
       ev_estimator PROPHET "predict" [AData fut] []].
Proof.
  intros Hm H. rewrite (predict_prophet_branch self st Hm) in H.
  apply bind_inr in H. destruct H as (self1 & st1 & Hfut & H).
  unfold PowerForecaster.make_future in Hfut. cbv zeta in Hfut.
  rewrite Hm in Hfut.
  run_step Hfut m Hmm. injection Hmm as <-.
  run_step Hfut r Hr. apply call_estimator_inr in Hr as (es1 & Hr & ->).
  run_step Hfut fut Hf.
  apply ret_inr in Hfut as [-> ->].
  destruct r as [| d | h]; try discriminate Hf. injection Hf as ->.
  unfold PowerForecaster.predict_prophet in H.
  cbn [PowerForecaster.set_future PowerForecaster.model PowerForecaster.future] in H.
  rewrite Hm in H.
  run_step H m Hmm. injection Hmm as <-.
  run_step H f Hf. injection Hf as <-.
  run_step H r Hr2. apply call_estimator_inr in Hr2 as (es2 & Hr2 & ->).
  cbn [heap estimators log] in *.
  run_step H d Hd. destruct r as [| d' | h]; try discriminate Hd.
  injection Hd as ->.
  run_step H raw Hraw. destruct d as [raw' | | |]; try discriminate Hraw.
  injection Hraw as ->.
  run_step H forecast Hforecast.
  run_step H table Htable.
  apply ret_inr in H as [H ->]. injection H as -> ->.
  exists fut, es1, raw, es2, forecast, table.
  split; [exact Hr |]. split; [reflexivity |]. split; [exact Hr2 |].
  split; [exact Hforecast |]. split; [exact Htable |]. split; [reflexivity |].
  split; [exact (get_col_set_col _ _ _ _ Htable) |].
  split.
  { rewrite (get_col_set_col_other _ _ "y" "yhat" _ ltac:(discriminate) Htable).
    exact Hforecast. }
  split; [exact (index_set_col _ _ _ _ Htable) |].
  cbn [log]. rewrite <- app_assoc. reflexivity.
Qed.

Lemma py_getitem_from_end {A} (l : list A) (k : Z) (x : A) :
  0 < k ->
  py_getitem l (- k) = inr x ->
  (Z.to_nat k <= length l)%nat /\ l !! (length l - Z.to_nat k)%nat = Some x.
Proof.
  intros Hk. unfold py_getitem.
  destruct (- k <? 0) eqn:E; [| apply Z.ltb_ge in E; lia].
  destruct ((0 <=? - k + Z.of_nat (length l))
            && (- k + Z.of_nat (length l) <? Z.of_nat (length l))) eqn:Hin;
    [| discriminate].
  apply andb_true_iff in Hin as [H0 _]. apply Z.leb_le in H0.
  replace (Z.to_nat (- k + Z.of_nat (length l)))
    with (length l - Z.to_nat k)%nat by lia.
  destruct (l !! (length l - Z.to_nat k)%nat) as [y |]; [| discriminate].
  intros H. injection H as <-. split; [lia | reflexivity].
Qed.

(** The first ten characters of a printed timestamp are its date. *)
Lemma str_date (t : Timestamp) : substring 0 10 (py_str_ts t) = iso_date t.
Proof. reflexivity. Qed.

(** C5, as amended.  When the model is [ARIMA], a run of [predict]
    that returns has asked the fitted model for a dynamic prediction
    inside the sample: the window it names starts on the date of the
    960th training row from the end and ends on the date of the last
    training row, and the result is whatever the fitted model answers
    for that window.  Nothing is asked about times after the training
    data. *)
Theorem arima_predict_in_sample `{Ext : Externals}
  (self self' : PowerForecaster.t) (st st' : State) (predicted : Data) :
  PowerForecaster.model self = PyModels ARIMA ->
  PowerForecaster.predict self st = inr ((predicted, self'), st') ->
  exists y fitted start_label end_label,
    PowerForecaster.train_y self = Frame y /\
    PowerForecaster.model_fit self = Some fitted /\
    (960 <= nrows y)%nat /\
    index y !! (nrows y - 960)%nat = Some start_label /\
    index y !! (nrows y - 1)%nat = Some end_label /\
    results_predict fitted (substring 0 10 (py_str_label start_label))
                           (substring 0 10 (py_str_label end_label)) true
      = inr predicted /\
    (forall t, start_label = IxTime t -> substring 0 10 (py_str_label start_label) = iso_date t) /\
    (forall t, end_label = IxTime t -> substring 0 10 (py_str_label end_label) = iso_date t) /\
    self' = self /\
    log st' = log st ++
      [ev_results "predict" []
         [("start", AStr (substring 0 10 (py_str_label start_label)));
          ("end", AStr (substring 0 10 (py_str_label end_label)));
          ("dynamic", ABool true)]].
Proof.
  intros Hm H.
  rewrite predict_other_branch in H by (rewrite Hm; reflexivity).
  rewrite Hm in H. cbn [is_model Models_eqb] in H.
  apply bind_inr in H. destruct H as (p & st1 & Hp & H).
  apply ret_inr in H as [H ->]. injection H as -> ->.
  unfold PowerForecaster.arima_predict in Hp.
  run_step Hp y Hy. destruct (PowerForecaster.train_y self) as [y' | | |] eqn:Hty;
    try discriminate Hy. injection Hy as ->.
  run_step Hp end_label Hend.
  run_step Hp start_label Hstart.
  run_step Hp fitted Hfitted.
  run_step Hp q Hq.
  apply ret_inr in Hp as [-> ->].
  unfold PowerForecaster.the_model_fit in Hfitted.
  destruct (PowerForecaster.model_fit self) as [f |] eqn:Hmf;
    try discriminate Hfitted. injection Hfitted as ->.
  apply (py_getitem_from_end _ 1) in Hend as [_ Hend]; [| lia].
  apply (py_getitem_from_end _ (4 * 24 * 10)) in Hstart as [Hn Hstart]; [| lia].
  unfold index in Hn, Hstart, Hend. rewrite length_map in Hn, Hstart, Hend.
  exists y, fitted, start_label, end_label.
  split; [reflexivity |]. split; [reflexivity |].
  split; [exact Hn |]. split; [exact Hstart |]. split; [exact Hend |].
  split; [exact Hq |].
  split; [intros t ->; apply str_date |].
  split; [intros t ->; apply str_date |].
  split; reflexivity.
Qed.

(** The sample runs of [predict] return. *)
Lemma prophet_run_returns :
  PowerForecaster.predict Demo.prophet_self Demo.state0
  = inr ((fst Demo.prophet_predicted, snd Demo.prophet_predicted),
         Demo.state_after Demo.prophet_run).
Proof. apply (run_returned_pair Demo.prophet_run). vm_compute. reflexivity. Qed.

Lemma arima_fit_returns :
  PowerForecaster.fit Demo.arima_self Demo.state0
  = inr (Demo.arima_fitted, Demo.arima_state).
Proof.
  apply (run_returned (PowerForecaster.fit Demo.arima_self Demo.state0)).
  vm_compute. reflexivity.
Qed.

Lemma arima_run_returns :
  PowerForecaster.predict Demo.arima_fitted Demo.arima_state
  = inr ((fst Demo.arima_predicted, snd Demo.arima_predicted),
         Demo.state_after Demo.arima_run).
Proof. apply (run_returned_pair Demo.arima_run). vm_compute. reflexivity. Qed.

Lemma prophet_predict_future_only_witness :
  exists table forecast,
    fst Demo.prophet_predicted = Frame table /\
    get_col "y" table = inr forecast /\
    get_col "yhat" table = inr forecast.
Proof.
  destruct (prophet_predict_future_only Demo.prophet_self
              (snd Demo.prophet_predicted) Demo.state0
              (Demo.state_after Demo.prophet_run) (fst Demo.prophet_predicted)
              eq_refl prophet_run_returns)
    as (fut & es1 & raw & es2 & forecast & table & _ & _ & _ & _ & _ & Hp & Hy
        & Hyhat & _).
  exists table, forecast.
  split; [exact Hp |]. split; [exact Hy | exact Hyhat].
Defined.

Lemma arima_predict_in_sample_witness :
  PowerForecaster.model Demo.arima_fitted = PyModels ARIMA /\
  exists start_label end_label,
    substring 0 10 (py_str_label start_label) = "2013-11-21" /\
    substring 0 10 (py_str_label end_label) = "2013-11-30".
Proof.
  assert (Hm : PowerForecaster.model Demo.arima_fitted = PyModels ARIMA)
    by (vm_compute; reflexivity).
  split; [exact Hm |].
  destruct (arima_predict_in_sample Demo.arima_fitted
              (snd Demo.arima_predicted) Demo.arima_state
              (Demo.state_after Demo.arima_run) (fst Demo.arima_predicted)
              Hm arima_run_returns)
    as (y & fitted & start_label & end_label & _ & _ & _ & _ & _ & _ & _ & _ & _
        & Hlog).
  assert (Hasked : last (log (Demo.state_after Demo.arima_run))
                   = Some (ev_results "predict" []
                             [("start", AStr "2013-11-21");
                              ("end", AStr "2013-11-30");
                              ("dynamic", ABool true)]))
    by (vm_compute; reflexivity).
  rewrite Hlog, last_snoc in Hasked.
  injection Hasked as Hstart Hend.
  exists start_label, end_label. split; [exact Hstart | exact Hend].
Defined.

(** C5 as it is stated fails.  Eleven days of quarter-hourly
    observations end at 2013-11-30 23:45:00; the forecaster is fitted
    on them and then predicts.  With a fitted model that answers inside
    the sample for a window inside the sample, the predicted series
    has 960 entries and none of its timestamps is after the last
    observation. *)
Lemma arima_prediction_not_after_training :
  PowerForecaster.train_y Demo.arima_self = Frame Demo.observations /\
  last (index Demo.observations) = Some (IxTime Demo.last_observation) /\
  PowerForecaster.fit Demo.arima_self Demo.state0
  = inr (Demo.arima_fitted, Demo.arima_state) /\
  match PowerForecaster.predict Demo.arima_fitted Demo.arima_state with
  | inr ((Series s, _), _) =>
      length s = 960%nat /\
      forallb (fun p => match fst p with
                        | IxTime t => negb (ts_ltb Demo.last_observation t)
                        | _ => false
                        end) s = true
  | _ => False
  end.
Proof.
  split; [reflexivity |].
  split; [vm_compute; reflexivity |].
  split; [exact arima_fit_returns |].
  vm_compute. split; reflexivity.
Qed.

(** ** Windowing and scoring *)

Lemma concat_replicate_nil {A} (k : nat) :
  concat (replicate k (@nil A)) = [].
Proof. induction k as [| k IH]; [reflexivity | exact IH]. Qed.

Lemma reshape_steps_no_values (steps : Z) (d : DataFrame)
  (a : list (list (list cell))) :
  1 < steps ->
  reshape_steps steps d = inr a ->
  concat (concat a) = [].
Proof.
  intros Hsteps. unfold reshape_steps.
  destruct (_ =? _) eqn:E; [| discriminate].
  apply Z.eqb_eq in E. intros H. injection H as <-.
  assert (Hzero : nrows d = 0%nat \/ length (columns d) = 0%nat) by nia.
  destruct Hzero as [-> | ->]; [reflexivity |].
  simpl (replicate 0 CNaN). clear E.
  induction (nrows d) as [| n IH]; [reflexivity |].
  simpl. rewrite concat_app, IH, app_nil_r. apply concat_replicate_nil.
Qed.

(** The other windowing method, [lstm_preprocess], does not yield
    windows either: the reshape to [(rows, 4, columns)] goes through
    only for a table without values, so after a run that returns the
    train and test arrays hold no value at all. *)
Lemma lstm_preprocess_no_windows `{Ext : Externals}
  (self self' : PowerForecaster.t) (d : DataFrame) (freq : option string)
  (st st' : State) :
  PowerForecaster.lstm_preprocess self d freq st = inr (self', st') ->
  exists a b,
    PowerForecaster.train_X self' = Array3 a /\
    PowerForecaster.test_X self' = Array3 b /\
    concat (concat a) = [] /\ concat (concat b) = [].
Proof.
  intros H. unfold PowerForecaster.lstm_preprocess in H.
  apply bind_inr in H. destruct H as (upsampled & s1 & _ & H).
  run_step H features Hfeatures.
  run_step H reframed Hreframed.
  run_step H y_train Hy_train.
  run_step H y_test Hy_test.
  run_step H X_train HX_train.
  run_step H X_test HX_test.
  apply ret_inr in H as [-> _].
  exists X_train, X_test.
  split; [reflexivity |]. split; [reflexivity |].
  split; eapply reshape_steps_no_values; try eassumption; reflexivity.
Qed.

(** C4.  [sliding_window] produces no windows: it raises on every
    call.  The window size it subtracts from the number of rows is the
    member [Constants.WINDOW_TIME_STEPS] itself, not its value, and an
    [int] minus a member of a plain [Enum] is a [TypeError].  So it is
    on the sample forecaster, whose table has six rows. *)
Theorem sliding_window_raises :
  (forall (Ext : Externals) (self : PowerForecaster.t) (st : State),
     match heap st !! PowerForecaster.df self with
     | Some _ =>
         PowerForecaster.sliding_window self st
         = inl (TypeError "unsupported operand type(s) for -")
     | None => exists e, PowerForecaster.sliding_window self st = inl e
     end) /\
  heap Demo.window_state !! PowerForecaster.df Demo.window_self
  = Some Demo.six_rows /\
  PowerForecaster.sliding_window Demo.window_self Demo.window_state
  = inl (TypeError "unsupported operand type(s) for -").
Proof.
  split; [| split].
  - intros Ext self st.
    destruct (heap st !! PowerForecaster.df self) as [d |] eqn:Hdf.
    + unfold PowerForecaster.sliding_window.
      rewrite (bind_step _ _ st st d) by (unfold load; rewrite Hdf; reflexivity).
      reflexivity.
    + exists (LibraryError "no such object").
      unfold PowerForecaster.sliding_window.
      apply bind_inl. unfold load. rewrite Hdf. reflexivity.
  - apply lookup_insert_eq.
  - apply run_raised. vm_compute. reflexivity.
Qed.

(** C6.  [evaluate] reports no score: it raises on every call.  When
    the model's prediction and the reshaping of the test windows go
    through, the next step looks up [pd.concatenate], which pandas does
    not have, and that is an [AttributeError]; no inverse transform
    and no error measure is ever computed.  So it is on the sample
    recurrent forecaster. *)
Theorem evaluate_raises :
  (forall (Ext : Externals) (self : PowerForecaster.t) (st : State),
     exists e, PowerForecaster.evaluate self st = inl e) /\
  PowerForecaster.evaluate Demo.lstm_self Demo.state0
  = inl (AttributeError "module 'pandas' has no attribute concatenate").
Proof.
  split.
  - intros Ext self st. unfold PowerForecaster.evaluate.
    unfold bind at 1.
    destruct (lift (PowerForecaster.estimator_of (PowerForecaster.model self)) st)
      as [e | [m s1]]; [exists e; reflexivity |].
    unfold bind at 1.
    destruct (PowerForecaster.call_estimator m "predict"
                [AData (PowerForecaster.test_X self)] [] s1)
      as [e | [r s2]]; [exists e; reflexivity |].
    unfold bind at 1.
    destruct (lift (PowerForecaster.as_data r) s2) as [e | [yhat s3]];
      [exists e; reflexivity |].
    unfold bind at 1.
    destruct (lift (reshape_first_last (PowerForecaster.test_X self)) s3)
      as [e | [x s4]]; [exists e; reflexivity |].
    eexists. reflexivity.
  - apply run_raised. vm_compute. reflexivity.
Qed.

(** * More of the class *)

(** ** [train_test_split] on any ratio *)


(** X2.  For a ratio that is a float in [0, 1) and a table of at
    least one and at most [2 ^ 53] rows, the test part is never empty:
    the train part has fewer rows than the table.  So a table of one
    row goes to the test part whole. *)
Theorem train_test_split_keeps_a_test_row (ratio : Q) (d : DataFrame) :
  is_float ratio = true ->
  Qle 0 ratio -> Qlt ratio 1 ->
  (0 < nrows d)%nat -> Z.of_nat (nrows d) <= 2 ^ 53 ->
  (nrows (fst (PowerForecaster.train_test_split ratio d)) < nrows d)%nat /\
  rows (snd (PowerForecaster.train_test_split ratio d)) <> [].
Proof.
  intros Hfloat H0 H1 Hn Hrows.
  pose proof (split_index_below ratio (Z.of_nat (nrows d)) ltac:(lia)
                Hfloat H0 H1) as Hk.
  destruct (split_rows_at ratio d ltac:(lia)) as [Htrain Htest].
  split.
  - unfold nrows at 1. rewrite Htrain, length_take. unfold nrows in *. lia.
  - rewrite Htest. intros Hnil. apply (f_equal length) in Hnil.
    rewrite length_drop in Hnil. change (length (@nil Row)) with 0%nat in Hnil.
    unfold nrows in *. lia.
Qed.

Lemma train_test_split_keeps_a_test_row_witness :
  (nrows (fst (PowerForecaster.train_test_split (value TRAIN_TEST_SPLIT_RATIO)
                 Demo.four_rows)) < 4)%nat.
Proof.
  assert (Hfloat : is_float (value TRAIN_TEST_SPLIT_RATIO) = true)
    by (vm_compute; reflexivity).
  assert (H0 : Qle 0 (value TRAIN_TEST_SPLIT_RATIO)) by (vm_compute; discriminate).
  assert (H1 : Qlt (value TRAIN_TEST_SPLIT_RATIO) 1) by (vm_compute; reflexivity).
  assert (Hn : (0 < nrows Demo.four_rows)%nat) by (vm_compute; lia).
  assert (Hrows : Z.of_nat (nrows Demo.four_rows) <= 2 ^ 53)
    by (vm_compute; discriminate).
  exact (proj1 (train_test_split_keeps_a_test_row (value TRAIN_TEST_SPLIT_RATIO)
                  Demo.four_rows Hfloat H0 H1 Hn Hrows)).
Defined.



(** ** More on the constructor *)

Lemma select_inv (cs : list string) (d d' : DataFrame) :
  select cs d = inr d' ->
  d' = mkDF cs (map (fun r => mkRow (ix r)
                       (filter (fun kv => string_in (fst kv) cs = true) (cells r)))
                    (rows d)).
Proof.
  unfold select. destruct (find _ cs); [discriminate |].
  intros H. injection H as <-. reflexivity.
Qed.

Lemma index_select (cs : list string) (d d' : DataFrame) :
  select cs d = inr d' -> index d' = index d /\ columns d' = cs.
Proof.
  intros H. apply select_inv in H as ->. split; [| reflexivity].
  unfold index. simpl. rewrite map_map. reflexivity.
Qed.

Lemma lookup_filter_keys (cs : list string) (c : string) (m : gmap string cell) :
  string_in c cs = true ->
  filter (fun kv : string * cell => string_in (fst kv) cs = true) m !! c = m !! c.
Proof.
  intros Hc. rewrite map_lookup_filter.
  destruct (m !! c) as [v |]; [| reflexivity].
  simpl. rewrite option_guard_True by exact Hc. reflexivity.
Qed.

Lemma mapM_map {A B C} (g : B -> result C) (f : A -> B) (l : list A) :
  mapM g (map f l) = mapM (fun x => g (f x)) l.
Proof.
  induction l as [| x l IH]; [reflexivity |].
  simpl. rewrite IH. reflexivity.
Qed.

Lemma mapM_ext {A B} (f g : A -> result B) (l : list A) :
  (forall x, f x = g x) -> mapM f l = mapM g l.
Proof.
  intros H. induction l as [| x l IH]; [reflexivity |].
  simpl. rewrite H, IH. reflexivity.
Qed.

(** Reading a selected column off the first or the last rows of a
    selection is reading it off those rows of the table. *)
Lemma get_col_select_rows (cs : list string) (c : string) (d d' : DataFrame)
  (part : list Row -> list Row) :
  (forall (f : Row -> Row) l, part (map f l) = map f (part l)) ->
  string_in c cs = true ->
  select cs d = inr d' ->
  get_col c (mkDF cs (part (rows d'))) = get_col c (mkDF (columns d) (part (rows d))).
Proof.
  intros Hpart Hc H. apply select_inv in H as ->. unfold get_col. simpl.
  rewrite Hpart, mapM_map. apply mapM_ext. intros r. simpl.
  rewrite lookup_filter_keys by exact Hc. reflexivity.
Qed.

Lemma nrows_select (cs : list string) (d d' : DataFrame) :
  select cs d = inr d' -> nrows d' = nrows d.
Proof.
  intros H. apply select_inv in H as ->. unfold nrows. simpl.
  apply length_map.
Qed.

(** X4.  After a run of the constructor that returns, the four parts
    are aligned: [train_X] and [train_y] have the same index, and so
    have [test_X] and [test_y]; the train index followed by the test
    index is the index of [self.df]; the X parts have the columns
    ['y', 'actual_temperature'] and the y parts the column ['y'], and
    the label column of an X part is the y part's. *)
Theorem init_train_test_aligned `{Ext : Externals} (l : loc) (mdl : pyobj)
  (ratio : Q) (st st' : State) (self : PowerForecaster.t) :
  PowerForecaster.__init__ l mdl ratio st = inr (self, st') ->
  exists pool X_train X_test y_train y_test,
    heap st' !! PowerForecaster.df self = Some pool /\
    PowerForecaster.train_X self = Frame X_train /\
    PowerForecaster.test_X self = Frame X_test /\
    PowerForecaster.train_y self = Frame y_train /\
    PowerForecaster.test_y self = Frame y_test /\
    columns X_train = ["y"; "actual_temperature"] /\
    columns X_test = ["y"; "actual_temperature"] /\
    columns y_train = ["y"] /\
    columns y_test = ["y"] /\
    index X_train = index y_train /\
    index X_test = index y_test /\
    index X_train ++ index X_test = index pool /\
    get_col "y" X_train = get_col "y" y_train /\
    get_col "y" X_test = get_col "y" y_test.
Proof.
  intros H. apply init_run in H.
  destruct H as (d0 & date & time & stamps & idx & d1 & r & interp & yhat & d3
                 & n & mb & ma & part & features & labels & lo & ld & lte
                 & _ & _
                 & (_ & _ & _ & _ & Hfeatures & Hlabels)
                 & Hself & _ & (_ & _ & Hdf & _) & _ & _).
  exists part,
    (fst (PowerForecaster.train_test_split ratio features)),
    (snd (PowerForecaster.train_test_split ratio features)),
    (fst (PowerForecaster.train_test_split ratio labels)),
    (snd (PowerForecaster.train_test_split ratio labels)).
  rewrite Hself.
  cbn [PowerForecaster.df PowerForecaster.train_X PowerForecaster.test_X
       PowerForecaster.train_y PowerForecaster.test_y].
  destruct (index_select _ _ _ Hfeatures) as [Hif Hcf].
  destruct (index_select _ _ _ Hlabels) as [Hil Hcl].
  pose proof (nrows_select _ _ _ Hfeatures) as Hnf.
  pose proof (nrows_select _ _ _ Hlabels) as Hnl.
  unfold PowerForecaster.train_test_split. cbn [fst snd].
  rewrite Hnf, Hnl.
  set (k := py_int (float_mul ratio (float_of_int (Z.of_nat (nrows part))))).
  split; [exact Hdf |].
  do 4 (split; [reflexivity |]).
  split; [exact Hcf |]. split; [exact Hcf |].
  split; [exact Hcl |]. split; [exact Hcl |].
  unfold index, iloc_to, iloc_from in *. cbn [rows columns] in *.
  unfold nrows in *. rewrite Hnf, Hnl.
  set (j := slice_bound (length (rows part)) k).
  split; [rewrite <- !firstn_map, Hif, Hil; reflexivity |].
  split; [rewrite <- !skipn_map, Hif, Hil; reflexivity |].
  split; [rewrite <- map_app, take_drop; exact Hif |].
  split.
  - rewrite Hcf, Hcl.
    rewrite (get_col_select_rows ColumnNames.FEATURES "y" part features (take j)
               (fun f l => firstn_map f j l) eq_refl Hfeatures).
    rewrite (get_col_select_rows ColumnNames.LABELS "y" part labels (take j)
               (fun f l => firstn_map f j l) eq_refl Hlabels).
    reflexivity.
  - rewrite Hcf, Hcl.
    rewrite (get_col_select_rows ColumnNames.FEATURES "y" part features (drop j)
               (fun f l => skipn_map f j l) eq_refl Hfeatures).
    rewrite (get_col_select_rows ColumnNames.LABELS "y" part labels (drop j)
               (fun f l => skipn_map f j l) eq_refl Hlabels).
    reflexivity.
Qed.

Lemma init_train_test_aligned_witness :
  exists X_train y_train,
    PowerForecaster.train_X Demo.self1 = Frame X_train /\
    PowerForecaster.train_y Demo.self1 = Frame y_train /\
    index X_train = index y_train /\
    get_col "y" X_train = get_col "y" y_train.
Proof.
  destruct (init_train_test_aligned Demo.caller (PyModels PROPHET) (value TRAIN_TEST_SPLIT_RATIO)
              Demo.state0 Demo.state1 Demo.self1 constructed_returns)
    as (pool & X_train & X_test & y_train & y_test & _ & HX & _ & Hy & _ & _ & _
        & _ & _ & Hix & _ & _ & Hcol & _).
  exists X_train, y_train.
  split; [exact HX |]. split; [exact Hy |]. split; [exact Hix | exact Hcol].
Defined.

(** X5.  A run of the constructor that returns touches four objects
    of the store and no other: the caller's table, and three tables
    at locations that were not in use before, all different:
    [self.df_original], [self.df] and [self.testing].  Every other
    table is as it was, and so are the estimators. *)
Theorem init_changes_no_other_table `{Ext : Externals} (l : loc) (mdl : pyobj)
  (ratio : Q) (st st' : State) (self : PowerForecaster.t) :
  PowerForecaster.__init__ l mdl ratio st = inr (self, st') ->
  let lo := PowerForecaster.df_original self in
  let ld := PowerForecaster.df self in
  let lt := PowerForecaster.testing self in
  (heap st !! lo = None /\ heap st !! ld = None /\ heap st !! lt = None) /\
  (l <> lo /\ l <> ld /\ l <> lt /\ lo <> ld /\ lo <> lt /\ ld <> lt) /\
  (is_Some (heap st' !! l) /\ is_Some (heap st' !! lo) /\
   is_Some (heap st' !! ld) /\ is_Some (heap st' !! lt)) /\
  (forall l', l' <> l -> l' <> lo -> l' <> ld -> l' <> lt ->
              heap st' !! l' = heap st !! l') /\
  estimators st' = estimators st.
Proof.
  intros H. apply init_run in H.
  destruct H as (d0 & date & time & stamps & idx & d1 & r & interp & yhat & d3
                 & n & mb & ma & part & features & labels & lo & ld & lte
                 & _ & _ & _ & Hself
                 & (H1 & H2 & H3 & H4 & H5 & H6 & Hn1 & Hn2 & Hn3)
                 & (Hl & Hlo & Hld & Hlt & Hframe) & Hes & _).
  rewrite Hself.
  cbn [PowerForecaster.df_original PowerForecaster.df PowerForecaster.testing].
  split; [split; [exact Hn1 | split; [exact Hn2 | exact Hn3]] |].
  split; [repeat split; assumption |].
  split; [rewrite Hl, Hlo, Hld, Hlt; repeat split; eexists; reflexivity |].
  split; [exact Hframe | exact Hes].
Qed.

Lemma init_changes_no_other_table_witness :
  heap Demo.state0 !! PowerForecaster.df_original Demo.self1 = None /\
  PowerForecaster.df Demo.self1 <> PowerForecaster.testing Demo.self1.
Proof.
  destruct (init_changes_no_other_table Demo.caller (PyModels PROPHET) (value TRAIN_TEST_SPLIT_RATIO)
              Demo.state0 Demo.state1 Demo.self1 constructed_returns)
    as ((Hnew & _) & (_ & _ & _ & _ & _ & Hne) & _).
  split; [exact Hnew | exact Hne].
Defined.

Lemma timestamps_of_rows (P : Timestamp -> Prop) (l : list Row) :
  Forall (fun r => exists t, ix r = IxTime t /\ P t) l ->
  exists ts, map ix l = map IxTime ts /\ Forall P ts.
Proof.
  induction 1 as [| r l (t & Ht & HP) _ (ts & Hts & HPs)].
  - exists []. split; [reflexivity | constructor].
  - exists (t :: ts). split.
    + simpl. rewrite Ht, Hts. reflexivity.
    + constructor; assumption.
Qed.

(** X6.  After a run of the constructor that returns, [self.df] has
    a datetime index whose timestamps are all strictly before the
    cutoff date, and its column ['ds'] holds exactly these timestamps,
    row by row. *)
Theorem init_date_stamp_column `{Ext : Externals} (l : loc) (mdl : pyobj)
  (ratio : Q) (st st' : State) (self : PowerForecaster.t) :
  PowerForecaster.__init__ l mdl ratio st = inr (self, st') ->
  exists pool ts,
    heap st' !! PowerForecaster.df self = Some pool /\
    index pool = map IxTime ts /\
    get_col "ds" pool = inr (map CTime ts) /\
    Forall (fun t => ts_ltb t (mkTS 2013 12 1 0 0 0) = true) ts /\
    string_in "ds" (columns pool) = true.
Proof.
  intros H. apply init_run in H.
  destruct H as (d0 & date & time & stamps & idx & d1 & r & interp & yhat & d3
                 & n & mb & ma & part & features & labels & lo & ld & lte
                 & _ & _
                 & (_ & Hmb & _ & Hpart & _ & _)
                 & Hself & _ & (_ & _ & Hdf & _) & _ & _).
  destruct (index_cmp_mask _ _ _ _ Hmb) as [Hrows _].
  assert (Hall : Forall (fun r => exists t, ix r = IxTime t /\
                            ts_ltb t (mkTS 2013 12 1 0 0 0) = true)
                        (rows (mask_rows mb (fst n)))).
  { rewrite Hrows. apply Forall_forall. intros row Hrow.
    apply list_elem_of_filter in Hrow as [Htest _].
    unfold label_test in Htest.
    destruct (ix row) as [i | t |]; [discriminate | | discriminate].
    exists t. split; [reflexivity | exact Htest]. }
  destruct (timestamps_of_rows _ _ Hall) as (ts & Hts & Hbefore).
  exists part, ts. rewrite Hself. cbn [PowerForecaster.df].
  split; [exact Hdf |].
  split; [rewrite (index_set_col _ _ _ _ Hpart); exact Hts |].
  split.
  { etransitivity; [exact (get_col_set_col _ _ _ _ Hpart) |].
    unfold index. rewrite Hts. rewrite map_map. reflexivity. }
  split; [exact Hbefore |].
  apply set_col_inv in Hpart as [_ ->]. cbn [columns].
  unfold ColumnNames.DATE_STAMP.
  destruct (string_in "ds" (columns (mask_rows mb (fst n)))) eqn:E; [exact E |].
  unfold string_in. rewrite existsb_app. simpl. apply orb_true_r.
Qed.

Lemma map_IxTime_inj (a b : list Timestamp) :
  map IxTime a = map IxTime b -> a = b.
Proof.
  revert b. induction a as [| t a IH]; intros [| u b] H;
    try discriminate H; [reflexivity |].
  simpl in H. injection H as -> H. f_equal. apply IH. exact H.
Qed.

Lemma init_date_stamp_column_witness :
  exists pool,
    heap Demo.state1 !! PowerForecaster.df Demo.self1 = Some pool /\
    get_col "ds" pool = inr [CTime (mkTS 2013 11 30 23 30 0);
                             CTime (mkTS 2013 11 30 23 45 0)].
Proof.
  destruct (init_date_stamp_column Demo.caller (PyModels PROPHET) (value TRAIN_TEST_SPLIT_RATIO)
              Demo.state0 Demo.state1 Demo.self1 constructed_returns)
    as (pool & ts & Hpool & Hix & Hds & _).
  exists pool. split; [exact Hpool |].
  assert (Hs : index <$> heap Demo.state1 !! PowerForecaster.df Demo.self1
               = Some (map IxTime [mkTS 2013 11 30 23 30 0; mkTS 2013 11 30 23 45 0]))
    by (vm_compute; reflexivity).
  rewrite Hpool in Hs. simpl in Hs. injection Hs as Hs.
  rewrite Hix in Hs.
  apply (map_IxTime_inj ts [mkTS 2013 11 30 23 30 0; mkTS 2013 11 30 23 45 0])
    in Hs.
  rewrite Hds, Hs. reflexivity.
Defined.

(** X7.  The constructor relies on the filter to answer with one
    forecast per row.  When the date and time columns parse and the
    filter returns a table with another number of rows than it left in
    the caller's table, the constructor raises [ValueError] at
    [interpolated_df.index = df.index]. *)
Theorem init_filter_length_mismatch `{Ext : Externals} (l : loc) (mdl : pyobj)
  (ratio : Q) (st : State) (d0 indexed : DataFrame) (date time stamps : list cell)
  (idx : list (option Timestamp)) (r : DataFrame * DataFrame) :
  heap st !! l = Some d0 ->
  get_col "date" d0 = inr date ->
  get_col "time" d0 = inr time ->
  series_add date time = inr stamps ->
  pd_to_datetime stamps "%Y-%m-%d%H:%M:%S" = inr idx ->
  set_index (map datetime_label idx) d0 = inr indexed ->
  facebook_prophet_filter indexed "actual_temperature"
    (value FORECASTED_TEMPERATURE_FILE) = inr r ->
  nrows (snd r) <> nrows (fst r) ->
  PowerForecaster.__init__ l mdl ratio st = inl (ValueError "Length mismatch").
Proof.
  intros Hd0 Hdate Htime Hstamps Hidx Hindexed Hr Hrows.
  unfold PowerForecaster.__init__.
  repeat step_on.
  apply bind_inl. unfold lift, set_index.
  replace (Nat.eqb (length (index (fst r))) (nrows (snd r))) with false;
    [reflexivity |].
  symmetry. apply Nat.eqb_neq. unfold index. rewrite length_map.
  intros Heq. apply Hrows. symmetry. exact Heq.
Qed.

Lemma init_filter_length_mismatch_witness :
  @PowerForecaster.__init__ Cases.lab Demo.caller (PyModels PROPHET) (value TRAIN_TEST_SPLIT_RATIO)
    Cases.lab_state
  = inl (ValueError "Length mismatch").
Proof.
  eapply (@init_filter_length_mismatch Cases.lab).
  - vm_compute. reflexivity.
  - vm_compute. reflexivity.
  - vm_compute. reflexivity.
  - vm_compute. reflexivity.
  - vm_compute. reflexivity.
  - vm_compute. reflexivity.
  - vm_compute. reflexivity.
  - vm_compute. lia.
Defined.

(** ** More on fitting *)

Section FitRuns.
Context `{Ext : Externals}.

Lemma prophet_fit_run (self self' : PowerForecaster.t) (st st' : State) :
  PowerForecaster.prophet_fit self st = inr (self', st') ->
  exists y past m r es,
    PowerForecaster.train_y self = Frame y /\
    set_col "ds" (map label_cell (index y)) y = inr past /\
    PowerForecaster.model self = PyModels m /\
    estimator_call (estimators st) m "fit" [AData (Frame past)] [] = inr (r, es) /\
    self' = self /\
    st' = mkState (heap st) es
            (log st ++ [ev_estimator m "fit" [AData (Frame past)] []]).
Proof.
  intros H. unfold PowerForecaster.prophet_fit in H.
  run_step H y Hy.
  destruct (PowerForecaster.train_y self) as [y' | | |] eqn:Hty;
    try discriminate Hy. injection Hy as ->.
  run_step H past Hpast.
  run_step H m Hm.
  destruct (PowerForecaster.model self) as [| | | | | m'] eqn:Hmodel;
    try discriminate Hm. injection Hm as ->.
  run_step H r Hr. apply call_estimator_inr in Hr as (es & Hr & ->).
  apply ret_inr in H as [-> ->].
  exists y, past, m, r, es. repeat split; try assumption; reflexivity.
Qed.

Lemma arima_fit_run (self self' : PowerForecaster.t) (st st' : State) :
  PowerForecaster.arima_fit self st = inr (self', st') ->
  exists mdl r,
    SARIMAX (PowerForecaster.train_y self) [7; 1; 7] [0; 0; 0; 0; 12] = inr mdl /\
    StatsModel_fit mdl = inr r /\
    self' = PowerForecaster.set_model_fit self (Some r) /\
    st' = mkState (heap st) (estimators st)
            (log st ++ [ev_SARIMAX (PowerForecaster.train_y self)
                          [7; 1; 7] [0; 0; 0; 0; 12];
                        ev_StatsModel_fit;
                        ev_results "summary" [] [];
                        ev_results "forecast" [] []]).
Proof.
  intros H. unfold PowerForecaster.arima_fit in H. cbv zeta in H.
  run_step H mdl Hmdl.
  run_step H r Hr.
  run_step H u Hu.
  run_step H f Hf.
  apply ret_inr in H as [-> ->].
  exists mdl, r. split; [exact Hmdl |]. split; [exact Hr |].
  split; [reflexivity |]. rewrite <- !app_assoc. reflexivity.
Qed.

Lemma var_fit_run (self self' : PowerForecaster.t) (st st' : State) :
  PowerForecaster.var_fit self st = inr (self', st') ->
  exists X features mdl r,
    PowerForecaster.train_X self = Frame X /\
    select ["y"; "actual_temperature"] X = inr features /\
    VAR_endog (Frame (dropna features)) = inr mdl /\
    StatsModel_fit mdl = inr r /\
    self' = PowerForecaster.set_model_fit self (Some r) /\
    st' = mkState (heap st) (estimators st)
            (log st ++ [ev_VAR (Frame (dropna features));
                        ev_StatsModel_fit;
                        ev_results "summary" [] []]).
Proof.
  intros H. unfold PowerForecaster.var_fit in H.
  run_step H X HX.
  destruct (PowerForecaster.train_X self) as [X' | | |] eqn:HtX;
    try discriminate HX. injection HX as ->.
  run_step H features Hfeatures.
  run_step H mdl Hmdl.
  run_step H r Hr.
  run_step H u Hu.
  apply ret_inr in H as [-> ->].
  exists X, features, mdl, r.
  split; [reflexivity |]. split; [exact Hfeatures |].
  split; [exact Hmdl |]. split; [exact Hr |].
  split; [reflexivity |]. rewrite <- !app_assoc. reflexivity.
Qed.

Lemma lstm_fit_simple_run (self self' : PowerForecaster.t) (st st' : State) :
  PowerForecaster.lstm_fit_simple self st = inr (self', st') ->
  heap st' = heap st /\
  (self' = self \/ exists h, self' = PowerForecaster.set_history self (Some h)).
Proof.
  intros H. unfold PowerForecaster.lstm_fit_simple in H.
  run_step H m Hm.
  run_step H r Hr. apply call_estimator_inr in Hr as (es & Hr & ->).
  destruct r as [| d | h].
  - apply ret_inr in H as [-> ->]. split; [reflexivity | left; reflexivity].
  - discriminate H.
  - apply ret_inr in H as [-> ->]. split; [reflexivity |].
    right. exists h. reflexivity.
Qed.

(** What is left of [fit] once the model is known to be a member. *)
Lemma fit_cases (self self' : PowerForecaster.t) (st st' : State) :
  PowerForecaster.fit self st = inr (self', st') ->
  PowerForecaster.prophet_fit self st = inr (self', st') \/
  PowerForecaster.arima_fit self st = inr (self', st') \/
  PowerForecaster.var_fit self st = inr (self', st') \/
  PowerForecaster.lstm_fit_simple self st = inr (self', st').
Proof.
  unfold PowerForecaster.fit.
  destruct (is_model (PowerForecaster.model self) PROPHET); [auto |].
  destruct (is_model (PowerForecaster.model self) ARIMA); [auto |].
  destruct (is_model (PowerForecaster.model self) VAR); [auto |].
  destruct (is_model (PowerForecaster.model self) LSTM); [auto |].
  discriminate.
Qed.

End FitRuns.

(** X8.  [fit] changes no table: after a run that returns the store
    is as before, and [self] differs at most in [model_fit] and
    [history]; its data, its model and its ratio are untouched.  In
    particular the [ds] column that [prophet_fit] adds goes to a copy
    of [train_y]. *)
Theorem fit_changes_no_table `{Ext : Externals} (self self' : PowerForecaster.t)
  (st st' : State) :
  PowerForecaster.fit self st = inr (self', st') ->
  heap st' = heap st /\
  PowerForecaster.train_X self' = PowerForecaster.train_X self /\
  PowerForecaster.test_X self' = PowerForecaster.test_X self /\
  PowerForecaster.train_y self' = PowerForecaster.train_y self /\
  PowerForecaster.test_y self' = PowerForecaster.test_y self /\
  PowerForecaster.df self' = PowerForecaster.df self /\
  PowerForecaster.testing self' = PowerForecaster.testing self /\
  PowerForecaster.df_original self' = PowerForecaster.df_original self /\
  PowerForecaster.model self' = PowerForecaster.model self /\
  PowerForecaster.train_test_split_ratio self'
  = PowerForecaster.train_test_split_ratio self /\
  PowerForecaster.transformer self' = PowerForecaster.transformer self /\
  PowerForecaster.future self' = PowerForecaster.future self /\
  PowerForecaster.window self' = PowerForecaster.window self.
Proof.
  intros H. apply fit_cases in H as [H | [H | [H | H]]].
  - apply prophet_fit_run in H as (y & past & m & r & es & _ & _ & _ & _ & -> & ->).
    repeat split.
  - apply arima_fit_run in H as (mdl & r & _ & _ & -> & ->). repeat split.
  - apply var_fit_run in H as (X & f & mdl & r & _ & _ & _ & _ & -> & ->).
    repeat split.
  - apply lstm_fit_simple_run in H as [Hh [-> | [h ->]]]; repeat split; exact Hh.
Qed.

Lemma fit_changes_no_table_witness :
  heap Demo.arima_state = heap Demo.state0 /\
  PowerForecaster.train_y Demo.arima_fitted = PowerForecaster.train_y Demo.arima_self.
Proof.
  destruct (fit_changes_no_table Demo.arima_self Demo.arima_fitted Demo.state0
              Demo.arima_state arima_fit_returns)
    as (Hheap & _ & _ & Hy & _).
  split; [exact Hheap | exact Hy].
Defined.

Lemma fit_prophet_branch `{Ext : Externals} (self : PowerForecaster.t) (st : State) :
  PowerForecaster.model self = PyModels PROPHET ->
  PowerForecaster.fit self st = PowerForecaster.prophet_fit self st.
Proof. intros Hm. unfold PowerForecaster.fit. rewrite Hm. reflexivity. Qed.

Lemma fit_arima_branch `{Ext : Externals} (self : PowerForecaster.t) (st : State) :
  PowerForecaster.model self = PyModels ARIMA ->
  PowerForecaster.fit self st = PowerForecaster.arima_fit self st.
Proof. intros Hm. unfold PowerForecaster.fit. rewrite Hm. reflexivity. Qed.

Lemma fit_var_branch `{Ext : Externals} (self : PowerForecaster.t) (st : State) :
  PowerForecaster.model self = PyModels VAR ->
  PowerForecaster.fit self st = PowerForecaster.var_fit self st.
Proof. intros Hm. unfold PowerForecaster.fit. rewrite Hm. reflexivity. Qed.

(** X9.  With the model [PROPHET], [fit] hands the estimator a copy
    of [train_y] that has one more column, ['ds'], holding the index
    of [train_y] row by row; every other column and the index of the
    copy are those of [train_y], and [self] is left as it is. *)
Theorem prophet_fit_adds_date_stamp `{Ext : Externals}
  (self self' : PowerForecaster.t) (st st' : State) :
  PowerForecaster.model self = PyModels PROPHET ->
  PowerForecaster.fit self st = inr (self', st') ->
  exists y past r,
    PowerForecaster.train_y self = Frame y /\
    self' = self /\
    estimator_call (estimators st) PROPHET "fit" [AData (Frame past)] []
      = inr (r, estimators st') /\
    index past = index y /\
    get_col "ds" past = inr (map label_cell (index y)) /\
    (forall c, c <> "ds" -> get_col c past = get_col c y) /\
    log st' = log st ++ [ev_estimator PROPHET "fit" [AData (Frame past)] []].
Proof.
  intros Hm H. rewrite (fit_prophet_branch self st Hm) in H.
  apply prophet_fit_run in H
    as (y & past & m & r & es & Hy & Hpast & Hm' & Hr & -> & ->).
  rewrite Hm in Hm'. injection Hm' as <-.
  exists y, past, r.
  split; [exact Hy |]. split; [reflexivity |]. split; [exact Hr |].
  split; [exact (index_set_col _ _ _ _ Hpast) |].
  split; [exact (get_col_set_col _ _ _ _ Hpast) |].
  split; [| reflexivity].
  intros c Hc. exact (get_col_set_col_other _ _ "ds" c _ (not_eq_sym Hc) Hpast).
Qed.

Lemma prophet_fit_returns :
  PowerForecaster.fit Demo.prophet_self Demo.state0
  = inr (Demo.outcome (PowerForecaster.fit Demo.prophet_self Demo.state0)
                      Demo.prophet_self,
         Demo.state_after (PowerForecaster.fit Demo.prophet_self Demo.state0)).
Proof. apply run_returned. vm_compute. reflexivity. Qed.

Lemma prophet_fit_adds_date_stamp_witness :
  exists past,
    index past = index Demo.observations /\
    get_col "ds" past = inr (map label_cell (index Demo.observations)).
Proof.
  destruct (prophet_fit_adds_date_stamp Demo.prophet_self _ Demo.state0 _
              eq_refl prophet_fit_returns)
    as (y & past & r & Hy & _ & _ & Hix & Hds & _).
  injection Hy as <-.
  exists past. split; [exact Hix | exact Hds].
Defined.

Lemma has_nan_false (r : Row) :
  has_nan r = false <-> forall c, cells r !! c <> Some CNaN.
Proof.
  unfold has_nan. split.
  - intros H c Hc.
    assert (Hex : existsb (fun kv : string * cell =>
                     match snd kv with CNaN => true | _ => false end)
                    (map_to_list (cells r)) = true).
    { apply existsb_exists. exists (c, CNaN). split; [| reflexivity].
      apply list_elem_of_In. apply elem_of_map_to_list. exact Hc. }
    rewrite H in Hex. discriminate Hex.
  - intros H. apply not_true_is_false. intros Hex.
    apply existsb_exists in Hex as ([c v] & Hin & Hv).
    apply list_elem_of_In, elem_of_map_to_list in Hin.
    simpl in Hv. destruct v; try discriminate Hv. exact (H c Hin).
Qed.

(** X10.  With the model [VAR], [fit] fits on the feature columns of
    [train_X] without the incomplete rows: the table given to the
    estimator holds, in their order, exactly the rows of
    [train_X[FEATURES]] in which no value is missing, and the fitted
    result is kept as [model_fit]. *)
Theorem var_fit_drops_incomplete_rows `{Ext : Externals}
  (self self' : PowerForecaster.t) (st st' : State) :
  PowerForecaster.model self = PyModels VAR ->
  PowerForecaster.fit self st = inr (self', st') ->
  exists X features endog mdl r,
    PowerForecaster.train_X self = Frame X /\
    select ["y"; "actual_temperature"] X = inr features /\
    VAR_endog (Frame endog) = inr mdl /\
    StatsModel_fit mdl = inr r /\
    PowerForecaster.model_fit self' = Some r /\
    columns endog = ["y"; "actual_temperature"] /\
    rows endog `sublist_of` rows features /\
    (forall row, row ∈ rows endog <->
                 row ∈ rows features /\ forall c, cells row !! c <> Some CNaN).
Proof.
  intros Hm H. rewrite (fit_var_branch self st Hm) in H.
  apply var_fit_run in H as (X & features & mdl & r & HX & Hf & Hmdl & Hr & -> & ->).
  exists X, features, (dropna features), mdl, r.
  split; [exact HX |]. split; [exact Hf |]. split; [exact Hmdl |].
  split; [exact Hr |]. split; [reflexivity |].
  split; [exact (proj2 (index_select _ _ _ Hf)) |].
  split; [apply sublist_filter |].
  intros row. unfold dropna. cbn [rows].
  rewrite list_elem_of_filter, has_nan_false. tauto.
Qed.

Lemma var_fit_returns :
  PowerForecaster.fit (Cases.var_self_toy Cases.with_a_gap Cases.no_rows) Demo.state0
  = inr (Demo.outcome
           (PowerForecaster.fit (Cases.var_self_toy Cases.with_a_gap Cases.no_rows)
              Demo.state0)
           (Cases.var_self_toy Cases.with_a_gap Cases.no_rows),
         Demo.state_after
           (PowerForecaster.fit (Cases.var_self_toy Cases.with_a_gap Cases.no_rows)
              Demo.state0)).
Proof. apply run_returned. vm_compute. reflexivity. Qed.

Lemma var_fit_drops_incomplete_rows_witness :
  exists endog : DataFrame, Cases.feature_row 1 CNaN ∉ rows endog.
Proof.
  destruct (var_fit_drops_incomplete_rows
              (Cases.var_self_toy Cases.with_a_gap Cases.no_rows) _ Demo.state0 _
              eq_refl var_fit_returns)
    as (X & features & endog & mdl & r & _ & _ & _ & _ & _ & _ & _ & Hrows).
  exists endog. intros Hin. apply Hrows in Hin as [_ Hcomplete].
  apply (Hcomplete "actual_temperature"). vm_compute. reflexivity.
Defined.

(** ** More on predicting *)

Lemma py_getitem_too_short {A} (l : list A) (k : Z) :
  Z.of_nat (length l) < k -> py_getitem l (- k) = inl (IndexError "index out of range").
Proof.
  intros Hk. unfold py_getitem.
  destruct (- k <? 0) eqn:E; [| apply Z.ltb_ge in E; lia].
  replace (0 <=? - k + Z.of_nat (length l)) with false; [reflexivity |].
  symmetry. apply Z.leb_gt. lia.
Qed.

Lemma py_getitem_counted_from_end {A} (l : list A) (k : Z) :
  0 < k -> k <= Z.of_nat (length l) ->
  exists x, py_getitem l (- k) = inr x /\ l !! (length l - Z.to_nat k)%nat = Some x.
Proof.
  intros H0 Hk. unfold py_getitem.
  destruct (- k <? 0) eqn:E; [| apply Z.ltb_ge in E; lia].
  replace ((0 <=? - k + Z.of_nat (length l))
           && (- k + Z.of_nat (length l) <? Z.of_nat (length l))) with true.
  - replace (Z.to_nat (- k + Z.of_nat (length l)))
      with (length l - Z.to_nat k)%nat by lia.
    destruct (l !! (length l - Z.to_nat k)%nat) as [x |] eqn:Hx.
    + exists x. split; reflexivity.
    + apply lookup_ge_None in Hx. lia.
  - symmetry. apply andb_true_iff. split; [apply Z.leb_le | apply Z.ltb_lt]; lia.
Qed.

Section PredictRuns.
Context `{Ext : Externals}.

(** [arima_predict], step by step. *)
Lemma arima_predict_unfold (self : PowerForecaster.t) (future : Z) (st : State) :
  PowerForecaster.arima_predict self future st =
  match PowerForecaster.train_y self with
  | Frame y =>
      match py_getitem (index y) (-1) with
      | inl e => inl e
      | inr end_label =>
          match py_getitem (index y) (- future) with
          | inl e => inl e
          | inr start_label =>
              match PowerForecaster.model_fit self with
              | None => inl (AttributeError "predict")
              | Some r =>
                  let start := substring 0 10 (py_str_label start_label) in
                  let end_ := substring 0 10 (py_str_label end_label) in
                  match results_predict r start end_ true with
                  | inl e => inl e
                  | inr p =>
                      inr (p, mkState (heap st) (estimators st)
                                (log st ++ [ev_results "predict" []
                                              [("start", AStr start);
                                               ("end", AStr end_);
                                               ("dynamic", ABool true)]]))
                  end
              end
          end
      end
  | _ => inl (TypeError "not a DataFrame")
  end.
Proof.
  unfold PowerForecaster.arima_predict, PowerForecaster.the_model_fit.
  unfold bind, lift, call, emit, ret, as_frame.
  destruct (PowerForecaster.train_y self); try reflexivity.
  destruct (py_getitem (index df) (-1)); [reflexivity |].
  destruct (py_getitem (index df) (- future)); [reflexivity |].
  destruct (PowerForecaster.model_fit self); [| reflexivity].
  cbn [heap estimators log].
  destruct (results_predict _ _ _ _); reflexivity.
Qed.

Lemma predict_arima_branch (self : PowerForecaster.t) (st : State) :
  PowerForecaster.model self = PyModels ARIMA ->
  PowerForecaster.predict self st
  = bind (PowerForecaster.arima_predict self 960)
         (fun predicted => ret (predicted, self)) st.
Proof.
  intros Hm. rewrite predict_other_branch by (rewrite Hm; reflexivity).
  rewrite Hm. reflexivity.
Qed.

Lemma predict_var_branch (self : PowerForecaster.t) (st : State) :
  PowerForecaster.model self = PyModels VAR ->
  PowerForecaster.predict self st
  = bind (PowerForecaster.var_predict self 960)
         (fun predicted => ret (predicted, self)) st.
Proof.
  intros Hm. rewrite predict_other_branch by (rewrite Hm; reflexivity).
  rewrite Hm. reflexivity.
Qed.

End PredictRuns.

(** [arima_predict] on a train part too short for the window. *)
Lemma arima_predict_short_train `{Ext : Externals}
  (self : PowerForecaster.t) (st : State) (y : DataFrame) :
  PowerForecaster.train_y self = Frame y ->
  (nrows y < 960)%nat ->
  PowerForecaster.arima_predict self 960 st = inl (IndexError "index out of range").
Proof.
  intros Hy Hn. rewrite arima_predict_unfold, Hy.
  assert (Hlen : length (index y) = nrows y) by (unfold index; apply length_map).
  destruct (py_getitem (index y) (-1)) as [e | end_label] eqn:Hend.
  - destruct (Nat.eq_dec (nrows y) 0%nat) as [Hz | Hz].
    + pose proof (py_getitem_too_short (index y) 1 ltac:(lia)) as Hs.
      change (- (1)) with (-1) in Hs. rewrite Hs in Hend.
      injection Hend as <-. reflexivity.
    + destruct (py_getitem_counted_from_end (index y) 1) as (x & Hx & _);
        [lia | lia |].
      change (- (1)) with (-1) in Hx. rewrite Hx in Hend. discriminate Hend.
  - rewrite (py_getitem_too_short (index y) 960) by lia. reflexivity.
Qed.

(** X11.  With the model [ARIMA], [predict] needs 960 training rows:
    on a [train_y] of fewer rows it raises [IndexError], fitted or
    not, because it reads the 960th label from the end. *)
Theorem arima_predict_needs_960_rows `{Ext : Externals}
  (self : PowerForecaster.t) (st : State) (y : DataFrame) :
  PowerForecaster.model self = PyModels ARIMA ->
  PowerForecaster.train_y self = Frame y ->
  (nrows y < 960)%nat ->
  PowerForecaster.predict self st = inl (IndexError "index out of range").
Proof.
  intros Hm Hy Hn. rewrite (predict_arima_branch self st Hm).
  apply bind_inl. exact (arima_predict_short_train self st y Hy Hn).
Qed.

Lemma arima_predict_needs_960_rows_witness :
  PowerForecaster.predict (Demo.with_train_y (PyModels ARIMA) Demo.four_rows)
    Demo.state0
  = inl (IndexError "index out of range").
Proof.
  apply (arima_predict_needs_960_rows _ Demo.state0 Demo.four_rows).
  - reflexivity.
  - reflexivity.
  - vm_compute. lia.
Defined.

(** X12.  Fitting and then predicting with the model [ARIMA]: the
    prediction is the answer of the seasonal model of order (7, 1, 7)
    and seasonal order (0, 0, 0, 0, 12) fitted on [train_y], asked for
    the dates of its 960th and its last row from the end; neither step
    changes a table. *)
Theorem arima_fit_then_predict `{Ext : Externals}
  (self self1 self2 : PowerForecaster.t) (st st1 st2 : State) (p : Data) :
  PowerForecaster.model self = PyModels ARIMA ->
  PowerForecaster.fit self st = inr (self1, st1) ->
  PowerForecaster.predict self1 st1 = inr ((p, self2), st2) ->
  exists y mdl r start_label end_label,
    PowerForecaster.train_y self = Frame y /\
    SARIMAX (Frame y) [7; 1; 7] [0; 0; 0; 0; 12] = inr mdl /\
    StatsModel_fit mdl = inr r /\
    PowerForecaster.model_fit self1 = Some r /\
    index y !! (nrows y - 960)%nat = Some start_label /\
    index y !! (nrows y - 1)%nat = Some end_label /\
    results_predict r (substring 0 10 (py_str_label start_label))
                      (substring 0 10 (py_str_label end_label)) true = inr p /\
    self2 = self1 /\
    heap st2 = heap st.
Proof.
  intros Hm Hfit Hpredict.
  rewrite (fit_arima_branch self st Hm) in Hfit.
  apply arima_fit_run in Hfit as (mdl & r & Hmdl & Hr & -> & ->).
  rewrite predict_arima_branch in Hpredict by exact Hm.
  apply bind_inr in Hpredict as (q & s & Hq & Hret).
  apply ret_inr in Hret as [Hret ->]. injection Hret as -> ->.
  rewrite arima_predict_unfold in Hq.
  cbn [PowerForecaster.set_model_fit PowerForecaster.train_y
       PowerForecaster.model_fit] in Hq.
  destruct (PowerForecaster.train_y self) as [y | | |] eqn:Hy; try discriminate Hq.
  destruct (py_getitem (index y) (-1)) as [e | end_label] eqn:Hend;
    [discriminate Hq |].
  destruct (py_getitem (index y) (- (960))) as [e | start_label] eqn:Hstart;
    [discriminate Hq |].
  cbv zeta in Hq.
  destruct (results_predict _ _ _ _) as [e | p] eqn:Hp; [discriminate Hq |].
  injection Hq as -> <-.
  apply (py_getitem_from_end _ 1) in Hend as [_ Hend]; [| lia].
  apply (py_getitem_from_end _ 960) in Hstart as [_ Hstart]; [| lia].
  unfold index in Hstart, Hend. rewrite length_map in Hstart, Hend.
  exists y, mdl, r, start_label, end_label.
  split; [reflexivity |].
  split; [rewrite <- Hmdl; try rewrite Hy; reflexivity |]. split; [exact Hr |].
  split; [reflexivity |]. split; [exact Hstart |]. split; [exact Hend |].
  split; [exact Hp |]. split; reflexivity.
Qed.

Lemma arima_fit_then_predict_witness :
  exists r : Data,
    PowerForecaster.model_fit Demo.arima_fitted = Some r /\
    heap (Demo.state_after Demo.arima_run) = heap Demo.state0.
Proof.
  destruct (arima_fit_then_predict Demo.arima_self Demo.arima_fitted
              (snd Demo.arima_predicted) Demo.state0 Demo.arima_state
              (Demo.state_after Demo.arima_run) (fst Demo.arima_predicted)
              eq_refl arima_fit_returns arima_run_returns)
    as (y & mdl & r & s & e & _ & _ & _ & Hr & _ & _ & _ & _ & Hheap).
  exists r. split; [exact Hr | exact Hheap].
Defined.

(** ** The prediction of the vector autoregression *)

Lemma mapM_lookup {A B} (f : A -> result B) (l : list A) (ys : list B)
  (i : nat) (x : A) :
  mapM f l = inr ys -> l !! i = Some x ->
  exists y, ys !! i = Some y /\ f x = inr y.
Proof.
  revert ys i. induction l as [| a l IH]; intros ys i H Hx; [discriminate Hx |].
  simpl in H. destruct (f a) as [e | b] eqn:Hfa; [discriminate H |].
  destruct (mapM f l) as [e | bs] eqn:Hm; [discriminate H |].
  injection H as <-. destruct i as [| i]; simpl in Hx.
  - injection Hx as <-. exists b. split; [reflexivity | exact Hfa].
  - apply (IH bs i eq_refl Hx).
Qed.

Lemma lookup_numbered {A} (a : list A) (i : nat) (x : A) :
  a !! i = Some x -> zip (seq 0 (length a)) a !! i = Some (i, x).
Proof.
  intros Hx. rewrite lookup_zip_with.
  rewrite lookup_seq_lt by (eapply lookup_lt_Some; exact Hx).
  rewrite Hx. reflexivity.
Qed.

(** [pd.DataFrame(a)] with the column names assigned: row by row the
    values of the array, numbered from 0. *)
Lemma frame_of_array_inv (cols : list string) (a : list (list cell))
  (d : DataFrame) :
  frame_of_array cols (Array2 a) = inr d ->
  columns d = cols /\ nrows d = length a /\
  forall i row, a !! i = Some row ->
    length row = length cols /\
    rows d !! i = Some (mkRow (IxInt (Z.of_nat i)) (list_to_map (zip cols row))).
Proof.
  unfold frame_of_array.
  destruct (mapM _ _) as [e | rs] eqn:Hrs; [discriminate |].
  intros H. injection H as <-. split; [reflexivity |]. split.
  - unfold nrows. simpl. apply mapM_length in Hrs. rewrite Hrs.
    rewrite length_zip_with, length_seq. lia.
  - intros i row Hrow. apply lookup_numbered in Hrow.
    destruct (mapM_lookup _ _ _ _ _ Hrs Hrow) as (y & Hy & Hf).
    simpl in Hf. destruct (Nat.eqb _ _) eqn:E; [| discriminate Hf].
    apply Nat.eqb_eq in E. injection Hf as <-. split; [exact E | exact Hy].
Qed.

Section VarRuns.
Context `{Ext : Externals}.

(** The run of [var_predict] up to the table it builds. *)
Lemma var_predict_unfold (self : PowerForecaster.t) (future : Z) (st : State) :
  PowerForecaster.var_predict self future st =
  match PowerForecaster.model_fit self with
  | None => inl (AttributeError "forecast")
  | Some r =>
      match results_y r with
      | inl e => inl e
      | inr y =>
          match results_forecast r [AData y; AInt future] with
          | inl e => inl e
          | inr predicted_array =>
              match frame_of_array ColumnNames.FEATURES predicted_array with
              | inl e => inl e
              | inr predicted =>
                  match as_frame (PowerForecaster.test_y self) with
                  | inl e => inl e
                  | inr test =>
                      match set_index
                              (slice_to (Z.of_nat (nrows predicted)) (index test))
                              predicted with
                      | inl e => inl e
                      | inr table =>
                          inr (Frame table,
                               mkState (heap st) (estimators st)
                                 (log st ++
                                  [ev_results "y" [] [];
                                   ev_results "forecast"
                                     [AData y; AInt future] []]))
                      end
                  end
              end
          end
      end
  end.
Proof.
  cbv beta iota zeta delta [PowerForecaster.var_predict
    PowerForecaster.the_model_fit bind lift call emit ret].
  destruct (PowerForecaster.model_fit self) as [f |]; [| reflexivity].
  destruct (results_y f); [reflexivity |].
  cbn [heap estimators log].
  destruct (results_forecast _ _); [reflexivity |].
  destruct (frame_of_array _ _); [reflexivity |].
  destruct (as_frame _); [reflexivity |].
  destruct (set_index _ _); [reflexivity |].
  rewrite <- app_assoc. reflexivity.
Qed.

End VarRuns.

Lemma take_test_labels (labels : list Label) (n : nat) :
  slice_to (Z.of_nat n) labels = take n labels.
Proof.
  unfold slice_to. rewrite slice_bound_nonneg by lia.
  rewrite Nat2Z.id. apply take_min_length.
Qed.

(** X13.  A prediction of the vector autoregression that returns is
    the table of the 960-step forecast of the fitted model from its
    own data: two values a row, the first under [y] and the second
    under [actual_temperature], and the i-th row labelled with the
    i-th label of [test_y]; so [test_y] has at least as many rows as
    the forecast. *)
Theorem var_predict_rows `{Ext : Externals}
  (self self' : PowerForecaster.t) (st st' : State) (p : Data)
  (test : DataFrame) :
  PowerForecaster.model self = PyModels VAR ->
  PowerForecaster.test_y self = Frame test ->
  PowerForecaster.predict self st = inr ((p, self'), st') ->
  exists r y a table,
    PowerForecaster.model_fit self = Some r /\
    results_y r = inr y /\
    results_forecast r [AData y; AInt 960] = inr (Array2 a) /\
    p = Frame table /\
    columns table = ["y"; "actual_temperature"] /\
    (length a <= nrows test)%nat /\
    index table = take (length a) (index test) /\
    forall i row, a !! i = Some row ->
      exists u v label,
        row = [u; v] /\
        index test !! i = Some label /\
        rows table !! i
        = Some (mkRow label {[ "y" := u; "actual_temperature" := v ]}).
Proof.
  intros Hm Htest Hrun.
  rewrite predict_var_branch in Hrun by exact Hm.
  apply bind_inr in Hrun as (q & s & Hq & Hret).
  apply ret_inr in Hret as [Hret ->]. injection Hret as -> ->.
  rewrite var_predict_unfold, Htest in Hq.
  destruct (PowerForecaster.model_fit self) as [r |] eqn:Hr; [| discriminate Hq].
  destruct (results_y r) as [e | y] eqn:Hy; [discriminate Hq |].
  destruct (results_forecast r _) as [e | array] eqn:Harray; [discriminate Hq |].
  destruct (frame_of_array _ array) as [e | predicted] eqn:Hframe;
    [discriminate Hq |].
  cbn [as_frame] in Hq.
  destruct (set_index _ predicted) as [e | table] eqn:Hindex; [discriminate Hq |].
  injection Hq as <- <-.
  destruct array as [df | sr | a | a]; try discriminate Hframe.
  apply frame_of_array_inv in Hframe as (Hcols & Hn & Hrows).
  rewrite take_test_labels, Hn in Hindex.
  pose proof (index_set_index _ _ _ Hindex) as Hlabels.
  apply set_index_inv in Hindex as [Hlen Htable].
  rewrite length_take in Hlen. unfold index in Hlen at 1.
  rewrite length_map in Hlen. fold (nrows test) in Hlen.
  exists r, y, a, table.
  split; [reflexivity |]. split; [exact Hy |]. split; [exact Harray |].
  split; [reflexivity |].
  split; [rewrite Htable; exact Hcols |].
  split; [lia |]. split; [exact Hlabels |].
  intros i row Hrow. destruct (Hrows i row Hrow) as [Hwidth Hi].
  destruct row as [| u [| v [| w row]]]; try discriminate Hwidth.
  assert (Hlt : (i < length a)%nat) by (eapply lookup_lt_Some; exact Hrow).
  destruct (index test !! i) as [label |] eqn:Hlabel.
  - exists u, v, label. split; [reflexivity |]. split; [reflexivity |].
    rewrite Htable. cbn [rows]. rewrite lookup_zip_with, Hi.
    rewrite lookup_take_lt by exact Hlt. rewrite Hlabel. reflexivity.
  - apply lookup_ge_None in Hlabel. unfold index in Hlabel.
    rewrite length_map in Hlabel. unfold nrows in Hlen, Hn. lia.
Qed.

Lemma frame_of_array_mismatch (cols : list string) (a : list (list cell))
  (e : Exc) :
  frame_of_array cols (Array2 a) = inl e -> e = ValueError "Length mismatch".
Proof.
  unfold frame_of_array.
  destruct (mapM _ _) as [e' | rs] eqn:Hrs; [| discriminate].
  intros H. injection H as ->.
  revert Hrs. generalize (zip (seq 0 (length a)) a). intros l.
  induction l as [| p l IH]; simpl; [discriminate |].
  destruct (Nat.eqb _ _).
  - destruct (mapM _ l) as [e' | rs]; [| discriminate].
    intros H. injection H as ->. apply IH. reflexivity.
  - intros H. injection H as <-. reflexivity.
Qed.

(** X14.  The vector autoregression cannot predict past the test
    part: when the forecast has more rows than [test_y], [predict]
    raises [ValueError], the labels it takes from [test_y] being too
    few for the table. *)
Theorem var_predict_short_test_part `{Ext : Externals}
  (self : PowerForecaster.t) (st : State) (r : FitResult) (y : Data)
  (a : list (list cell)) (test : DataFrame) :
  PowerForecaster.model self = PyModels VAR ->
  PowerForecaster.model_fit self = Some r ->
  results_y r = inr y ->
  results_forecast r [AData y; AInt 960] = inr (Array2 a) ->
  PowerForecaster.test_y self = Frame test ->
  (nrows test < length a)%nat ->
  PowerForecaster.predict self st = inl (ValueError "Length mismatch").
Proof.
  intros Hm Hr Hy Ha Htest Hshort.
  rewrite predict_var_branch by exact Hm. apply bind_inl.
  rewrite var_predict_unfold, Hr, Hy, Ha, Htest.
  destruct (frame_of_array _ _) as [e | predicted] eqn:Hframe.
  - apply frame_of_array_mismatch in Hframe as ->. reflexivity.
  - apply frame_of_array_inv in Hframe as (_ & Hn & _).
    cbn [as_frame]. rewrite take_test_labels. unfold set_index.
    replace (Nat.eqb _ _) with false; [reflexivity |].
    symmetry. apply Nat.eqb_neq. rewrite length_take. unfold index.
    rewrite length_map. unfold nrows in *. lia.
Qed.

Lemma var_predict_short_test_part_witness :
  @PowerForecaster.predict Cases.lab
    (Cases.var_self (Cases.features 4) (Cases.features 4)
       (Some (Frame (Cases.features 4))))
    Cases.lab_state
  = inl (ValueError "Length mismatch").
Proof.
  eapply (@var_predict_short_test_part Cases.lab).
  - reflexivity.
  - reflexivity.
  - reflexivity.
  - reflexivity.
  - reflexivity.
  - vm_compute. lia.
Defined.

Lemma returned_run {A S : Type} (run : Exc + (A * S)) :
  Demo.returned run = true -> exists a s, run = inr (a, s).
Proof.
  destruct run as [e | [a s]]; [discriminate |].
  intros _. exists a, s. reflexivity.
Qed.

Lemma var_predict_returns :
  Demo.returned
    (@PowerForecaster.predict Cases.lab
       (Cases.var_self (Cases.features 4) (Cases.features 1056)
          (Some (Frame (Cases.features 4))))
       Cases.lab_state) = true.
Proof. vm_compute. reflexivity. Qed.

Lemma var_predict_rows_witness :
  exists (a : list (list cell)) (table : DataFrame),
    Cases.forecast_steps (Frame (Cases.features 4))
      [AData (Frame (Cases.features 4)); AInt 960] = inr (Array2 a) /\
    columns table = ["y"; "actual_temperature"] /\
    index table = take (length a) (index (Cases.features 1056)).
Proof.
  destruct (returned_run _ var_predict_returns) as ([p self'] & st' & Hrun).
  destruct (@var_predict_rows Cases.lab
              (Cases.var_self (Cases.features 4) (Cases.features 1056)
                 (Some (Frame (Cases.features 4))))
              self' Cases.lab_state st' p
              (Cases.features 1056) eq_refl eq_refl Hrun)
    as (r & y & a & table & Hr & Hy & Ha & _ & Hcols & _ & Hindex & _).
  injection Hr as <-. injection Hy as <-.
  exists a, table.
  split; [exact Ha |]. split; [exact Hcols | exact Hindex].
Defined.

(** ** What [predict] leaves alone *)

Lemma is_model_true (o : pyobj) (m : Models) :
  is_model o m = true -> o = PyModels m.
Proof.
  destruct o as [z | q | s | | c | m']; try discriminate.
  destruct m', m; try discriminate; reflexivity.
Qed.

Section PredictEffects.
Context `{Ext : Externals}.

Lemma make_future_run (self self' : PowerForecaster.t) (st st' : State) :
  PowerForecaster.make_future self st = inr (self', st') ->
  exists m f es,
    self' = PowerForecaster.set_future self (Some f) /\
    st' = mkState (heap st) es
            (log st ++ [ev_estimator m "make_future_dataframe" []
                          [("periods", AInt 960); ("freq", AStr "15T");
                           ("include_history", ABool false)]]).
Proof.
  intros H. unfold PowerForecaster.make_future in H. cbv zeta in H.
  run_step H m Hm.
  run_step H r Hr. apply call_estimator_inr in Hr as (es & _ & ->).
  run_step H f Hf.
  apply ret_inr in H as [-> ->].
  exists m, f, es. split; reflexivity.
Qed.

Lemma predict_prophet_run (self self' : PowerForecaster.t) (st st' : State)
  (p : Data) :
  PowerForecaster.predict_prophet self st = inr ((p, self'), st') ->
  exists m f es,
    self' = self /\
    st' = mkState (heap st) es (log st ++ [ev_estimator m "predict" [AData f] []]).
Proof.
  intros H. unfold PowerForecaster.predict_prophet in H.
  run_step H m Hm.
  run_step H f Hf.
  run_step H r Hr. apply call_estimator_inr in Hr as (es & _ & ->).
  cbn [heap estimators log] in *.
  run_step H d Hd.
  run_step H raw Hraw.
  run_step H forecast Hforecast.
  run_step H table Htable.
  apply ret_inr in H as [H ->]. injection H as _ ->.
  exists m, f, es. split; reflexivity.
Qed.

Lemma predict_lstm_run (self self' : PowerForecaster.t) (st st' : State)
  (p : Data) :
  PowerForecaster.predict_lstm self st = inr ((p, self'), st') ->
  exists m es,
    self' = self /\
    st' = mkState (heap st) es
            (log st ++ [ev_estimator m "predict"
                          [AData (PowerForecaster.test_X self)] []]).
Proof.
  intros H. unfold PowerForecaster.predict_lstm in H.
  run_step H m Hm.
  run_step H r Hr. apply call_estimator_inr in Hr as (es & _ & ->).
  run_step H d Hd.
  apply ret_inr in H as [H ->]. injection H as _ ->.
  exists m, es. split; reflexivity.
Qed.

Lemma set_future_same (self : PowerForecaster.t) :
  PowerForecaster.set_future self (PowerForecaster.future self) = self.
Proof. destruct self. reflexivity. Qed.

End PredictEffects.

(** X15.  [predict] changes no table and fits nothing: after a run
    that returns the store is as before, none of the calls it logged
    is a fit, and [self] differs at most in [future]. *)
Theorem predict_changes_no_table `{Ext : Externals}
  (self self' : PowerForecaster.t) (st st' : State) (p : Data) :
  PowerForecaster.predict self st = inr ((p, self'), st') ->
  heap st' = heap st /\
  self' = PowerForecaster.set_future self (PowerForecaster.future self') /\
  exists calls,
    log st' = log st ++ calls /\ Forall (fun e => is_fit e = false) calls.
Proof.
  intros H.
  destruct (is_model (PowerForecaster.model self) PROPHET) eqn:HP.
  - apply is_model_true in HP.
    rewrite (predict_prophet_branch self st HP) in H.
    apply bind_inr in H as (self1 & st1 & Hfuture & H).
    apply make_future_run in Hfuture as (m & f & es & -> & ->).
    apply predict_prophet_run in H as (m' & f' & es' & -> & ->).
    split; [reflexivity |]. split; [reflexivity |].
    eexists. split; [cbn [log]; rewrite <- app_assoc; reflexivity |].
    repeat constructor.
  - rewrite (predict_other_branch self st HP) in H.
    destruct (is_model (PowerForecaster.model self) ARIMA).
    { apply bind_inr in H as (q & s & Hq & Hret).
      apply ret_inr in Hret as [Hret ->]. injection Hret as -> ->.
      rewrite arima_predict_unfold in Hq.
      destruct (PowerForecaster.train_y self); try discriminate Hq.
      destruct (py_getitem _ _); [discriminate Hq |].
      destruct (py_getitem _ _); [discriminate Hq |].
      destruct (PowerForecaster.model_fit self); [| discriminate Hq].
      cbv zeta in Hq. destruct (results_predict _ _ _ _); [discriminate Hq |].
      injection Hq as _ <-.
      split; [reflexivity |]. split; [symmetry; apply set_future_same |].
      eexists. split; [reflexivity |]. repeat constructor. }
    destruct (is_model (PowerForecaster.model self) VAR).
    { apply bind_inr in H as (q & s & Hq & Hret).
      apply ret_inr in Hret as [Hret ->]. injection Hret as -> ->.
      rewrite var_predict_unfold in Hq.
      destruct (PowerForecaster.model_fit self); [| discriminate Hq].
      destruct (results_y _); [discriminate Hq |].
      destruct (results_forecast _ _); [discriminate Hq |].
      destruct (frame_of_array _ _); [discriminate Hq |].
      destruct (as_frame _); [discriminate Hq |].
      destruct (set_index _ _); [discriminate Hq |].
      injection Hq as _ <-.
      split; [reflexivity |]. split; [symmetry; apply set_future_same |].
      eexists. split; [reflexivity |]. repeat constructor. }
    destruct (is_model (PowerForecaster.model self) LSTM); [| discriminate H].
    apply predict_lstm_run in H as (m & es & -> & ->).
    split; [reflexivity |]. split; [symmetry; apply set_future_same |].
    eexists. split; [reflexivity |]. repeat constructor.
Qed.

Lemma predict_changes_no_table_witness :
  heap (Demo.state_after Demo.prophet_run) = heap Demo.state0 /\
  snd Demo.prophet_predicted
  = PowerForecaster.set_future Demo.prophet_self
      (PowerForecaster.future (snd Demo.prophet_predicted)).
Proof.
  destruct (predict_changes_no_table Demo.prophet_self (snd Demo.prophet_predicted)
              Demo.state0 (Demo.state_after Demo.prophet_run)
              (fst Demo.prophet_predicted) prophet_run_returns)
    as (Hheap & Hself & _).
  split; [exact Hheap | exact Hself].
Defined.

(** [predict] with the model [PROPHET], step by step. *)
Lemma prophet_predict_unfold `{Ext : Externals} (self : PowerForecaster.t)
  (st : State) :
  PowerForecaster.model self = PyModels PROPHET ->
  PowerForecaster.predict self st =
  match estimator_call (estimators st) PROPHET "make_future_dataframe" []
          [("periods", AInt 960); ("freq", AStr "15T");
           ("include_history", ABool false)] with
  | inl e => inl e
  | inr (r1, es1) =>
      match PowerForecaster.as_data r1 with
      | inl e => inl e
      | inr f =>
          match estimator_call es1 PROPHET "predict" [AData f] [] with
          | inl e => inl e
          | inr (r2, es2) =>
              match PowerForecaster.as_data r2 with
              | inl e => inl e
              | inr d =>
                  match as_frame d with
                  | inl e => inl e
                  | inr raw =>
                      match get_col "yhat" raw with
                      | inl e => inl e
                      | inr forecast =>
                          match set_col "y" forecast raw with
                          | inl e => inl e
                          | inr table =>
                              inr ((Frame table,
                                    PowerForecaster.set_future self (Some f)),
                                   mkState (heap st) es2
                                     (log st ++
                                      [ev_estimator PROPHET "make_future_dataframe" []
                                         [("periods", AInt 960); ("freq", AStr "15T");
                                          ("include_history", ABool false)];
                                       ev_estimator PROPHET "predict" [AData f] []]))
                          end
                      end
                  end
              end
          end
      end
  end.
Proof.
  intros Hm. rewrite predict_prophet_branch by exact Hm.
  unfold bind at 1. unfold PowerForecaster.make_future. cbv zeta.
  rewrite Hm. cbn [PowerForecaster.estimator_of].
  unfold bind at 1. unfold lift at 1.
  unfold bind at 1. unfold PowerForecaster.call_estimator at 1.
  change (value DEFAULT_FUTURE_PERIODS) with 960.
  change (value DEFAULT_FUTURE_FREQ) with "15T".
  destruct (estimator_call (estimators st) _ _ _ _) as [e | [r1 es1]];
    [reflexivity |].
  unfold bind at 1. unfold lift at 1.
  destruct (PowerForecaster.as_data r1) as [e | f]; [reflexivity |].
  unfold ret at 1. unfold PowerForecaster.predict_prophet.
  cbn [PowerForecaster.set_future PowerForecaster.model PowerForecaster.future].
  rewrite Hm. cbn [PowerForecaster.estimator_of].
  unfold bind at 1. unfold lift at 1.
  unfold bind at 1. unfold lift at 1.
  unfold bind at 1. unfold PowerForecaster.call_estimator at 1.
  cbn [heap estimators log].
  destruct (estimator_call es1 _ _ _ _) as [e | [r2 es2]]; [reflexivity |].
  unfold bind at 1. unfold lift at 1.
  destruct (PowerForecaster.as_data r2) as [e | d]; [reflexivity |].
  unfold bind at 1. unfold lift at 1.
  destruct (as_frame d) as [e | raw]; [reflexivity |].
  unfold bind at 1. unfold lift at 1.
  destruct (get_col _ raw) as [e | forecast]; [reflexivity |].
  unfold bind at 1. unfold lift at 1.
  destruct (set_col _ forecast raw) as [e | table]; [reflexivity |].
  unfold ret. rewrite <- app_assoc. reflexivity.
Qed.

(** X16.  With the model [PROPHET] the prediction does not depend on
    the forecaster it is asked of: [predict] reads the module-level
    estimator and the future table it has just made, nothing of
    [self], so two forecasters, whatever their data, get the same
    answer in the same state, an error included. *)
Theorem prophet_prediction_ignores_self `{Ext : Externals}
  (a b : PowerForecaster.t) (st : State) :
  PowerForecaster.model a = PyModels PROPHET ->
  PowerForecaster.model b = PyModels PROPHET ->
  Cases.drop_self (PowerForecaster.predict a st)
  = Cases.drop_self (PowerForecaster.predict b st).
Proof.
  intros Ha Hb.
  rewrite (prophet_predict_unfold a st Ha), (prophet_predict_unfold b st Hb).
  destruct (estimator_call (estimators st) _ _ _ _) as [e | [r1 es1]];
    [reflexivity |].
  destruct (PowerForecaster.as_data r1) as [e | f]; [reflexivity |].
  destruct (estimator_call es1 _ _ _ _) as [e | [r2 es2]]; [reflexivity |].
  destruct (PowerForecaster.as_data r2) as [e | d]; [reflexivity |].
  destruct (as_frame d) as [e | raw]; [reflexivity |].
  destruct (get_col _ raw) as [e | forecast]; [reflexivity |].
  destruct (set_col _ forecast raw) as [e | table]; reflexivity.
Qed.

Lemma prophet_prediction_ignores_self_witness :
  Cases.drop_self
    (PowerForecaster.predict (Demo.with_train_y (PyModels PROPHET) Demo.observations)
       Demo.state0)
  = Cases.drop_self
      (PowerForecaster.predict (Demo.with_train_y (PyModels PROPHET) Demo.four_rows)
         Demo.state0).
Proof.
  apply prophet_prediction_ignores_self; reflexivity.
Defined.

(** ** Predicting before fitting *)

Lemma constructed_var_returns :
  Demo.returned
    (PowerForecaster.__init__ Demo.caller (PyModels VAR) (value TRAIN_TEST_SPLIT_RATIO) Demo.state0)
  = true.
Proof. vm_compute. reflexivity. Qed.

(** X17.  The constructor fits nothing, so a forecaster of the two
    statsmodels models cannot predict right after it: with [VAR],
    [predict] raises [AttributeError], there being no fitted result to
    forecast with; with [ARIMA] it raises [IndexError] when the train
    part has fewer than 960 rows and [AttributeError] otherwise.  This
    in any state. *)
Theorem predict_before_fit_raises `{Ext : Externals} (l : loc) (mdl : pyobj)
  (ratio : Q) (st st' : State) (self : PowerForecaster.t) :
  PowerForecaster.__init__ l mdl ratio st = inr (self, st') ->
  (mdl = PyModels VAR ->
   forall s, PowerForecaster.predict self s = inl (AttributeError "forecast")) /\
  (mdl = PyModels ARIMA ->
   exists y,
     PowerForecaster.train_y self = Frame y /\
     forall s,
       PowerForecaster.predict self s
       = inl (if (nrows y <? 960)%nat then IndexError "index out of range"
              else AttributeError "predict")).
Proof.
  intros H. apply init_run in H
    as (d0 & date & time & stamps & idx & d1 & r & interp & yhat & d3 & n & before
        & after & part & features & labels & lo & ld & lte
        & _ & _ & _ & -> & _).
  split.
  - intros -> s. rewrite predict_var_branch by reflexivity.
    apply bind_inl. rewrite var_predict_unfold. reflexivity.
  - intros ->. eexists. split; [reflexivity |]. intros s.
    set (y := fst (PowerForecaster.train_test_split ratio labels)).
    destruct (nrows y <? 960)%nat eqn:E.
    + apply Nat.ltb_lt in E.
      rewrite predict_arima_branch by reflexivity. apply bind_inl.
      apply (arima_predict_short_train _ s y); [reflexivity | exact E].
    + apply Nat.ltb_ge in E.
      rewrite predict_arima_branch by reflexivity.
      apply bind_inl. rewrite arima_predict_unfold.
      cbn [PowerForecaster.train_y PowerForecaster.model_fit]. fold y.
      assert (Hlen : length (index y) = nrows y) by (unfold index; apply length_map).
      destruct (py_getitem_counted_from_end (index y) 1) as (x1 & Hx1 & _);
        [lia | lia |].
      change (- (1)) with (-1) in Hx1. rewrite Hx1.
      destruct (py_getitem_counted_from_end (index y) 960) as (x2 & Hx2 & _);
        [lia | lia |].
      change (- (4 * 24 * 10)) with (- (960)). rewrite Hx2. reflexivity.
Qed.

Lemma predict_before_fit_raises_witness :
  PowerForecaster.predict
    (Demo.outcome
       (PowerForecaster.__init__ Demo.caller (PyModels VAR) (value TRAIN_TEST_SPLIT_RATIO) Demo.state0)
       (Demo.no_self PyNone))
    (Demo.state_after
       (PowerForecaster.__init__ Demo.caller (PyModels VAR) (value TRAIN_TEST_SPLIT_RATIO) Demo.state0))
  = inl (AttributeError "forecast").
Proof.
  apply (proj1 (predict_before_fit_raises Demo.caller (PyModels VAR) (value TRAIN_TEST_SPLIT_RATIO)
                  Demo.state0 _ _
                  (run_returned _ (Demo.no_self PyNone) constructed_var_returns))
               eq_refl).
Defined.

(** ** [lstm_preprocess] on a table that holds data *)







